(** * NRTK client: the content synchronisation engine of [main.py]

    A shallow embedding of [class NRTKSync] and of the loop body of the
    script, followed by the properties of the specification that were checked
    against it.

    Scope of the model.
    - Values read by [json.load] are [json] terms.  Numbers are the integers;
      literals with a fraction or an exponent are left out (no operation of
      the engine looks inside a number, except truth value and equality).
      A string is the UTF-8 encoding of the Python string, a sequence of
      bytes; a slice counts characters.
    - A text handed to [json.load] is represented by what [json.load] makes
      of it ([payload]): a value, or a [JSONDecodeError].
    - The content directory holds regular files only; the model keys files
      and directories by name.  [open] creates a file under a name that is
      one path component of at most 255 bytes and raises for any other
      name.  A name with a separator addresses a path outside this flat
      directory: [open] is taken to raise [FileNotFoundError] for it, as
      it does when the path leads through a directory that is missing,
      and what is stated of the files after a cycle that writes stories is
      stated for anchors without a separator.
      [os.rename] replaces an existing target (POSIX).  Disk failures (full
      disk, permissions) are left out.
    - [os.listdir] lists in the order of [map_to_list]; the lemmas on the
      loop of [clean_local_storage] hold for every duplicate-free listing.
    - The network and the clock are inputs of a cycle: the network answers
      with a response or with one of the two errors [fetch_content]
      catches.
    - The engine is a state and exception monad: a run ends with a value or
      with a Python exception, and with the state it reached.  Next to the
      disk the state keeps a journal of the file operations performed and
      the log. *)

From stdpp Require Import gmap strings list fin_maps pretty.
From Stdlib Require Import ZArith.

Local Open Scope string_scope.
Local Open Scope Z_scope.

#[local] Set Warnings "-register-all".

(** ** Parsed JSON and the Python operations the engine applies to it *)

Inductive json : Type :=
  | JNull
  | JBool (b : bool)
  | JInt (z : Z)
  | JStr (s : string)
  | JArr (l : list json)
  | JObj (kv : list (string * json)).

(** What [json.load] makes of a text. *)
Inductive payload : Type :=
  | Json (v : json)
  | Malformed.

(** The exception classes that can leave the engine. *)
Inductive exn : Type :=
  | KeyError
  | TypeError
  | AttributeError
  | JSONDecodeError
  | FileNotFoundError
  | IsADirectoryError
  | ValueError
  | OSError.

(** A Python expression: a value or a raised exception. *)
Definition res (A : Type) : Type := A + exn.

Definition ok {A} (a : A) : res A := inl a.
Definition throw {A} (e : exn) : res A := inr e.

(** [d.get(k)] on the key/value pairs of a parsed object. *)
Fixpoint assoc (k : string) (kv : list (string * json)) : option json :=
  match kv with
  | [] => None
  | (k', v) :: kv' => if String.eqb k k' then Some v else assoc k kv'
  end.

(** [bool(v)] *)
Definition truthy (v : json) : bool :=
  match v with
  | JNull => false
  | JBool b => b
  | JInt z => negb (z =? 0)
  | JStr s => negb (String.eqb s EmptyString)
  | JArr l => match l with [] => false | _ => true end
  | JObj kv => match kv with [] => false | _ => true end
  end.

(** [a == b]: structural, with [True == 1] and [False == 0]; two dicts are
    equal when they have the same keys with equal values. *)
Fixpoint py_eqb (a b : json) : bool :=
  match a, b with
  | JNull, JNull => true
  | JBool x, JBool y => Bool.eqb x y
  | JBool x, JInt z => z =? (if x then 1 else 0)
  | JInt z, JBool x => z =? (if x then 1 else 0)
  | JInt x, JInt y => x =? y
  | JStr x, JStr y => String.eqb x y
  | JArr l, JArr l' =>
      (fix go (l l' : list json) : bool :=
         match l, l' with
         | [], [] => true
         | x :: l, y :: l' => py_eqb x y && go l l'
         | _, _ => false
         end) l l'
  | JObj kv, JObj kv' =>
      (length kv =? length kv')%nat &&
      forallb (fun p => match assoc (fst p) kv' with
                        | Some v' => py_eqb (snd p) v'
                        | None => false
                        end) kv
  | _, _ => false
  end.

(** [p in s] on two strings: [p] occurs in [s]. *)
Fixpoint is_infix (p s : string) : bool :=
  String.prefix p s ||
  match s with
  | EmptyString => false
  | String _ s' => is_infix p s'
  end.

(** [k in c] for a string [k]. *)
Definition py_in (k : string) (c : json) : res bool :=
  match c with
  | JObj kv => ok (bool_decide (is_Some (assoc k kv)))
  | JArr l => ok (existsb (py_eqb (JStr k)) l)
  | JStr s => ok (is_infix k s)
  | JNull | JBool _ | JInt _ => throw TypeError
  end.

(** [c[k]] for a string [k]. *)
Definition py_getitem (c : json) (k : string) : res json :=
  match c with
  | JObj kv => match assoc k kv with
               | Some v => ok v
               | None => throw KeyError
               end
  | _ => throw TypeError
  end.

(** A byte [10xxxxxx]: it continues the character of the byte before. *)
Definition is_continuation (c : Ascii.ascii) : bool :=
  match c with
  | Ascii.Ascii _ _ _ _ _ _ b6 b7 => b7 && negb b6
  end.

(** The bytes at the head of [s] that continue a character. *)
Fixpoint continuation (s : string) : string :=
  match s with
  | EmptyString => EmptyString
  | String c s' => if is_continuation c then String c (continuation s') else EmptyString
  end.

(** The characters of a string, each a string of its own. *)
Fixpoint chars (s : string) : list json :=
  match s with
  | EmptyString => []
  | String c s' =>
      if is_continuation c then chars s'
      else JStr (String c (continuation s')) :: chars s'
  end.

(** [len(c)] *)
Definition py_len (c : json) : res nat :=
  match c with
  | JStr s => ok (length (chars s))
  | JArr l => ok (length l)
  | JObj kv => ok (length kv)
  | JNull | JBool _ | JInt _ => throw TypeError
  end.

(** The items a [for] loop over [c] visits. *)
Definition py_iter (c : json) : res (list json) :=
  match c with
  | JArr l => ok l
  | JObj kv => ok (map (fun p => JStr (fst p)) kv)
  | JStr s => ok (chars s)
  | JNull | JBool _ | JInt _ => throw TypeError
  end.

(** Lists and dicts cannot be dictionary keys. *)
Definition hashable (v : json) : bool :=
  match v with
  | JArr _ | JObj _ => false
  | _ => true
  end.

(** [s[0:n]] on a string: its first [n] characters, each with all its
    bytes. *)
Fixpoint str_take (n : nat) (s : string) : string :=
  match s with
  | EmptyString => EmptyString
  | String c s' =>
      if is_continuation c then String c (str_take n s')
      else match n with
           | O => EmptyString
           | S n' => String c (str_take n' s')
           end
  end.

(** [v[0:19]]: strings and lists are sliced, anything else raises. *)
Definition py_slice19 (v : json) : res json :=
  match v with
  | JStr s => ok (JStr (str_take 19 s))
  | JArr l => ok (JArr (take 19 l))
  | _ => throw TypeError
  end.

(** ** The engine, the disk and the log *)

(** The instance's new Meta data ([meta_object]): a dict with five fixed keys
    and, once [sync_stories] ran, a [stories] dict keyed by the anchors as
    the remote side sent them. *)
Record meta : Type := Meta {
  mo_checksum : string;
  mo_title : json;
  mo_entity : json;
  mo_homepage_url : json;
  mo_updated_at : string;
  mo_stories : option (list (json * json));
}.

(** The attributes of an [NRTKSync] instance.  [meta_file_content] and
    [meta_object] start as [None] ([JNull], [None]); [story_dictonary] is the
    class-level dict, one object for the life of the process. *)
Record engine : Type := Engine {
  bin_path : option string;
  meta_file_content : json;
  meta_object : option meta;
  remote_data : json;
  story_dictonary : gmap string json;
}.

(** A file of a snapshot directory: a story file moved there, or the old
    Meta file. *)
Inductive file : Type :=
  | Text (s : string)
  | MetaText (p : payload).

(** The operations a cycle performed on the disk, oldest first. *)
Inductive fs_event : Type :=
  | Mkdir (d : string)
  | Remove (f : string)
  | Archive (f d : string)
  | Write (f text : string)
  | ArchiveMeta (d : string)
  | WriteMeta (v : json).

(** [www]: the content directory; [bin]: the snapshot directories under the
    Bin root, by name; [meta_file]: the Meta file, when there is one. *)
Record disk : Type := Disk {
  www : gmap string string;
  bin : gmap string (gmap string file);
  meta_file : option payload;
  journal : list fs_event;
}.

Inductive level : Type := DEBUG | INFO | WARNING | ERROR.

Inductive msg : Type :=
  | DirectoryExists (d : string)
  | MetaNotFound
  | UpdatingMeta
  | MovingOldMeta (d : string)
  | MetaEmpty
  | GeneratingSitemap
  | CreatingErrorPage
  | NoErrorPageContent
  | HTTPErrorAt (code : Z)
  | FailedToFetch
  | InvalidResponse (field : string)
  | InvalidStory (field : string)
  | NoStories
  | ValidResponse
  | BadJSON
  | BadResponseCode (code : Z)
  | CleaningStorage
  | UpdatingPage (f : string)
  | PageRemoved (f : string)
  | RemovingFile (f : string)
  | SavingStory (anchor : json)
  | ContentSync
  | UpdateDetected (checksum : string)
  | CreatingSnapshot (checksum : json)
  | UpToDate
  | UpdateComplete
  | UpdateUnsuccessful.

Record state : Type := State {
  eng : engine;
  dsk : disk;
  log : list (level * msg);
}.

(** The result of running a piece of the engine: a value or an exception,
    and the state it left behind. *)
Inductive outcome (A : Type) : Type :=
  | Ok (a : A) (s : state)
  | Exn (e : exn) (s : state).
Arguments Ok {A} a s.
Arguments Exn {A} e s.

Definition final {A} (o : outcome A) : state :=
  match o with
  | Ok _ s => s
  | Exn _ s => s
  end.

Definition M (A : Type) : Type := state -> outcome A.

Definition ret {A} (a : A) : M A := fun s => Ok a s.
Definition raise {A} (e : exn) : M A := fun s => Exn e s.
Definition bind {A B} (m : M A) (k : A -> M B) : M B :=
  fun s => match m s with
           | Ok a s' => k a s'
           | Exn e s' => Exn e s'
           end.

Notation "'let*' x ':=' m 'in' k" := (bind m (fun x => k))
  (at level 10, x name, m at level 100, k at level 200).
Notation "m ';;' k" := (bind m (fun _ => k))
  (at level 100, k at level 200, right associativity).

Definition eval {A} (r : res A) : M A :=
  match r with
  | inl a => ret a
  | inr e => raise e
  end.

Definition get_eng : M engine := fun s => Ok (eng s) s.
Definition get_dsk : M disk := fun s => Ok (dsk s) s.
Definition mod_eng (f : engine -> engine) : M unit :=
  fun s => Ok tt (State (f (eng s)) (dsk s) (log s)).
Definition mod_dsk (f : disk -> disk) : M unit :=
  fun s => Ok tt (State (eng s) (f (dsk s)) (log s)).
Definition logger (l : level) (m : msg) : M unit :=
  fun s => Ok tt (State (eng s) (dsk s) (log s ++ [(l, m)])).

Definition set_bin_path (p : option string) (e : engine) : engine :=
  Engine p (meta_file_content e) (meta_object e) (remote_data e) (story_dictonary e).
Definition set_meta_file_content (v : json) (e : engine) : engine :=
  Engine (bin_path e) v (meta_object e) (remote_data e) (story_dictonary e).
Definition set_meta_object (m : option meta) (e : engine) : engine :=
  Engine (bin_path e) (meta_file_content e) m (remote_data e) (story_dictonary e).
Definition set_remote_data (v : json) (e : engine) : engine :=
  Engine (bin_path e) (meta_file_content e) (meta_object e) v (story_dictonary e).
Definition set_story_dictonary (d : gmap string json) (e : engine) : engine :=
  Engine (bin_path e) (meta_file_content e) (meta_object e) (remote_data e) d.

(** *** File operations *)

(** [os.mkdir] of a snapshot directory that does not exist yet. *)
Definition mkdir (d : string) (k : disk) : disk :=
  Disk (www k) (<[d := ∅]> (bin k)) (meta_file k) (journal k ++ [Mkdir d]).

(** [open(www/f, "w")] followed by [write(text)]. *)
Definition write_file (f text : string) (k : disk) : disk :=
  Disk (<[f := text]> (www k)) (bin k) (meta_file k) (journal k ++ [Write f text]).

(** [os.remove(www/f)] *)
Definition os_remove (f : string) : M unit :=
  let* k := get_dsk in
  match www k !! f with
  | Some _ =>
      mod_dsk (fun k => Disk (delete f (www k)) (bin k) (meta_file k)
                             (journal k ++ [Remove f]))
  | None => raise FileNotFoundError
  end.

(** [os.rename(www/f, bin/d/f)] *)
Definition os_rename (f d : string) : M unit :=
  let* k := get_dsk in
  match www k !! f, bin k !! d with
  | Some text, Some dir =>
      mod_dsk (fun k => Disk (delete f (www k)) (<[d := <[f := Text text]> dir]> (bin k))
                             (meta_file k) (journal k ++ [Archive f d]))
  | _, _ => raise FileNotFoundError
  end.

(** [os.rename(meta_filepath, bin/d/meta.json)], for an existing Meta file. *)
Definition os_rename_meta (old : payload) (d : string) : M unit :=
  let* k := get_dsk in
  match bin k !! d with
  | Some dir =>
      mod_dsk (fun k => Disk (www k) (<[d := <["meta.json" := MetaText old]> dir]> (bin k))
                             None (journal k ++ [ArchiveMeta d]))
  | None => raise FileNotFoundError
  end.

(** ** The methods of [NRTKSync] *)

Definition rbind {A B} (r : res A) (k : A -> res B) : res B :=
  match r with
  | inl a => k a
  | inr e => inr e
  end.

Notation "'let?' x ':=' r 'in' k" := (rbind r (fun x => k))
  (at level 10, x name, r at level 100, k at level 200).

(** [for x in l: body(x)] *)
Fixpoint foreach {A} (body : A -> M unit) (l : list A) : M unit :=
  match l with
  | [] => ret tt
  | x :: l' => body x;; foreach body l'
  end.

(** [os.listdir(www_path)] *)
Definition listdir (dir : gmap string string) : list string :=
  (map_to_list dir).*1.

Definition theme_required_fields : list string :=
  ["homepage_url"; "stories"; "error_page"; "entity"; "title"].

Definition story_required_fields : list string :=
  ["canonical_url"; "content"; "anchor"; "updated_at"; "title";
   "is_landing"; "hash"; "uid"; "credits"].

(** The first field of [fields] that is not [in c], as the two validation
    loops look for it. *)
Fixpoint first_missing (fields : list string) (c : json) : res (option string) :=
  match fields with
  | [] => ok None
  | f :: fields' =>
      let? present := py_in f c in
      if present : bool then first_missing fields' c else ok (Some f)
  end.

(** What the network made of the request of [fetch_content]. *)
Record response : Type := Resp { code : Z; body : payload }.

Inductive fetched : Type :=
  | Response (r : response)
  | HTTPError (code : Z)
  | URLError.

(** [d[k] = v] on a Python dict whose keys are hashable JSON scalars. *)
Fixpoint dict_set (k v : json) (d : list (json * json)) : list (json * json) :=
  match d with
  | [] => [(k, v)]
  | (k', v') :: d' =>
      if py_eqb k' k then (k', v) :: d' else (k', v') :: dict_set k v d'
  end.

(** A repeated key of a JSON text: [json.load] keeps the place of the first
    and the value of the last. *)
Fixpoint obj_set (k : string) (v : json) (kv : list (string * json)) : list (string * json) :=
  match kv with
  | [] => [(k, v)]
  | (k', v') :: kv' =>
      if String.eqb k' k then (k', v) :: kv' else (k', v') :: obj_set k v kv'
  end.

(** The key [json.dump] writes for a dict key. *)
Definition dump_key (k : json) : string :=
  match k with
  | JNull => "null"
  | JBool true => "true"
  | JBool false => "false"
  | JInt z => pretty z
  | JStr s => s
  | JArr _ | JObj _ => EmptyString
  end.

Definition dumped_stories (d : list (json * json)) : list (string * json) :=
  fold_left (fun acc p => obj_set (dump_key (fst p)) (snd p) acc) d [].

(** What [json.load] reads back from the text [json.dump(meta_object)]
    writes. *)
Definition dumped_meta (m : meta) : json :=
  JObj ([("checksum", JStr (mo_checksum m));
         ("title", mo_title m);
         ("entity", mo_entity m);
         ("homepage_url", mo_homepage_url m);
         ("updated_at", JStr (mo_updated_at m))] ++
        match mo_stories m with
        | Some d => [("stories", JObj (dumped_stories d))]
        | None => []
        end).

Definition write_meta (v : json) (k : disk) : disk :=
  Disk (www k) (bin k) (Some (Json v)) (journal k ++ [WriteMeta v]).

(** The path separator [/]. *)
Definition slash : Ascii.ascii := Ascii.ascii_of_nat 47.

(** [c in s] for a byte [c]. *)
Fixpoint has_byte (c : Ascii.ascii) (s : string) : bool :=
  match s with
  | EmptyString => false
  | String c' s' => Ascii.eqb c c' || has_byte c s'
  end.

(** A name under which [open] creates a file in the content directory: one
    path component, that is a string other than the empty one, [.] and
    [..], without separator and without NUL, of at most 255 bytes. *)
Definition file_name (f : string) : bool :=
  negb (String.eqb f EmptyString) && negb (String.eqb f ".") && negb (String.eqb f "..") &&
  negb (has_byte slash f) && negb (has_byte Ascii.zero f) &&
  (String.length f <=? 255)%nat.

(** What [open(www/f, "w")] raises for a name that is not a file name:
    Python refuses a NUL before it asks the system; a path with a separator
    leads through a directory, and the content directory has none; a
    component of more than 255 bytes is too long; what is left, the empty
    name, [.] and [..], names a directory. *)
Definition open_error (f : string) : exn :=
  if has_byte Ascii.zero f then ValueError
  else if has_byte slash f then FileNotFoundError
  else if (255 <? String.length f)%nat then OSError
  else IsADirectoryError.

(** [with open(www/f, "w") as fh: fh.write(arg)]: [open] raises for a name
    that is not a file name and leaves the disk as it is; otherwise the
    file is created or truncated before [arg] is evaluated, and [write]
    takes a [str] only. *)
Definition open_write (f : string) (arg : res json) : M unit :=
  if file_name f then
    match arg with
    | inl (JStr text) => mod_dsk (write_file f text)
    | inl _ => mod_dsk (write_file f EmptyString);; raise TypeError
    | inr e => mod_dsk (write_file f EmptyString);; raise e
    end
  else raise (open_error f).

Definition dq : string := String (Ascii.ascii_of_nat 34) EmptyString.
Definition nl : string := String (Ascii.ascii_of_nat 10) EmptyString.

Definition sitemap_content (sitemap_items : string) : string :=
  "<?xml version=" ++ dq ++ "1.0" ++ dq ++ " encoding=" ++ dq ++ "UTF-8" ++ dq ++ "?>" ++ nl ++
  "            <urlset xmlns=" ++ dq ++ "http://www.sitemaps.org/schemas/sitemap/0.9" ++ dq ++ " " ++ nl ++
  "            xmlns:xsi=" ++ dq ++ "http://www.w3.org/2001/XMLSchema-instance" ++ dq ++ " " ++ nl ++
  "            xsi:schemaLocation=" ++ dq ++ "http://www.sitemaps.org/schemas/sitemap/0.9 " ++ nl ++
  "            http://www.sitemaps.org/schemas/sitemap/0.9/sitemap.xsd" ++ dq ++ ">" ++ nl ++
  "            <!-- Created by Newsroom Toolkit www.newsroomtoolkit.com -->" ++ nl ++
  "                " ++ sitemap_items ++ nl ++
  "            </urlset>".

(** The engine right after [NRTKSync()], before the first cycle. *)
Definition new_engine : engine := Engine None JNull None JNull ∅.

Section NRTKSync.

(** [hashlib.sha256(json.dumps(v, sort_keys=True).encode("utf-8")).hexdigest()] *)
Variable sha256_dumps : json -> string.

(** [str(v)] for a list or a dict [v]. *)
Variable py_repr : json -> string.

(** [f"{v}"] *)
Definition py_str (v : json) : string :=
  match v with
  | JNull => "None"
  | JBool true => "True"
  | JBool false => "False"
  | JInt z => pretty z
  | JStr s => s
  | JArr _ | JObj _ => py_repr v
  end.

(** [check_dir] on a snapshot directory.  The path is never empty, so the
    final [return False] of the source is not reached from [sync]. *)
Definition check_dir (d : string) : M bool :=
  let* k := get_dsk in
  match bin k !! d with
  | None => mod_dsk (mkdir d);; ret true
  | Some _ => logger DEBUG (DirectoryExists d);; ret true
  end.

(** The value is Python's [None] ([JNull]) when there is no Meta file.  The
    handler of the source catches [OSError]; the [JSONDecodeError] of
    [json.load] is not an [OSError] and passes through. *)
Definition read_meta : M json :=
  let* k := get_dsk in
  match meta_file k with
  | Some (Json v) => ret v
  | Some Malformed => raise JSONDecodeError
  | None => logger WARNING MetaNotFound;; ret JNull
  end.

Definition save_meta : M bool :=
  logger INFO UpdatingMeta;;
  let* e := get_eng in
  match meta_object e with
  | Some m =>
      let* k := get_dsk in
      match bin_path e, meta_file k with
      | Some d, Some old => logger WARNING (MovingOldMeta d);; os_rename_meta old d
      | _, _ => ret tt
      end;;
      mod_dsk (write_meta (dumped_meta m));;
      ret true
  | None => logger WARNING MetaEmpty;; ret false
  end.

(** The priority is [1] for the landing page and [0.8] otherwise. *)
Definition priority_text (is_index : bool) : string :=
  if is_index then "1" else "0.8".

Definition create_sitemap_item (url updated_at : json) (priority : string) : res string :=
  let? stamp := py_slice19 updated_at in
  ok ("<url><loc>" ++ py_str url ++ "</loc><lastmod>" ++ py_str stamp ++
      "+00:00</lastmod><priority>" ++ priority ++ "</priority></url>").

Definition build_sitemap (sitemap_items : string) : M unit :=
  logger INFO GeneratingSitemap;;
  mod_dsk (write_file "sitemap.xml" (sitemap_content sitemap_items)).

Definition save_error_page : M bool :=
  let* e := get_eng in
  let* has := (if truthy (remote_data e)
               then eval (py_in "error_page" (remote_data e))
               else ret false) in
  if has : bool then
    logger INFO CreatingErrorPage;;
    open_write "error.html" (py_getitem (remote_data e) "error_page");;
    ret true
  else
    logger WARNING NoErrorPageContent;; ret false.

Definition fetch_content (net : fetched) : M (option response) :=
  match net with
  | Response r => ret (Some r)
  | HTTPError c => logger ERROR (HTTPErrorAt c);; ret None
  | URLError => logger ERROR FailedToFetch;; ret None
  end.

(** The loop over the stories of [validate_api_response]: [false] at the
    first story that lacks a field; every story before it is already in
    [story_dictonary].  An entry under a key that is not a [str] is never
    read back (the engine looks files up by name), so only [str] anchors are
    kept. *)
Fixpoint validate_stories (stories : list json) : M bool :=
  match stories with
  | [] => ret true
  | story :: stories' =>
      let* missing := eval (first_missing story_required_fields story) in
      match missing with
      | Some story_field => logger ERROR (InvalidStory story_field);; ret false
      | None =>
          let* anchor := eval (py_getitem story "anchor") in
          if hashable anchor then
            match anchor with
            | JStr a =>
                mod_eng (fun e => set_story_dictonary (<[a := story]> (story_dictonary e)) e)
            | _ => ret tt
            end;;
            validate_stories stories'
          else raise TypeError
      end
  end.

(** [now] is [str(dt.datetime.now(dt.timezone.utc))]. *)
Definition validate_api_response (response : option response) (now : string) : M bool :=
  match response with
  | Some r =>
      if code r =? 200 then
        match body r with
        | Malformed => logger ERROR BadJSON;; ret false
        | Json data =>
            mod_eng (set_remote_data data);;
            let* valid :=
              (if truthy data then
                 let* missing := eval (first_missing theme_required_fields data) in
                 match missing with
                 | Some theme_field => logger ERROR (InvalidResponse theme_field);; ret false
                 | None =>
                     let* n := eval (let? stories := py_getitem data "stories" in
                                     py_len stories) in
                     if (0 <? n)%nat then
                       let* stories := eval (let? stories := py_getitem data "stories" in
                                             py_iter stories) in
                       validate_stories stories
                     else
                       logger WARNING NoStories;; ret true
                 end
               else ret true) in
            if valid : bool then
              let* title := eval (py_getitem data "title") in
              let* entity := eval (py_getitem data "entity") in
              let* homepage_url := eval (py_getitem data "homepage_url") in
              mod_eng (set_meta_object
                         (Some (Meta (sha256_dumps data) title entity homepage_url now None)));;
              logger DEBUG ValidResponse;;
              ret true
            else ret false
        end
      else
        logger ERROR (BadResponseCode (code r));; ret false
  | None => raise AttributeError
  end.

(** The test of [clean_local_storage] that a file is a story of the local
    Meta. *)
Definition tracked (mfc : json) (f : string) : res bool :=
  if truthy mfc then
    let? has := py_in "stories" mfc in
    if has : bool then
      let? stories := py_getitem mfc "stories" in
      if truthy stories then py_in f stories else ok false
    else ok false
  else ok false.

(** The body of the loop of [clean_local_storage]. *)
Definition clean_file (f : string) : M unit :=
  let* e := get_eng in
  let* known := eval (tracked (meta_file_content e) f) in
  if known : bool then
    match bin_path e with
    | Some d =>
        match story_dictonary e !! f with
        | Some story =>
            let* new_hash := eval (py_getitem story "hash") in
            let* old_hash := eval (let? stories := py_getitem (meta_file_content e) "stories" in
                                   let? entry := py_getitem stories f in
                                   py_getitem entry "hash") in
            if negb (py_eqb new_hash old_hash) then
              logger WARNING (UpdatingPage f);; os_rename f d
            else ret tt
        | None =>
            logger WARNING (PageRemoved f);; os_rename f d
        end
    | None => ret tt
    end
  else
    logger WARNING (RemovingFile f);; os_remove f.

Definition clean_local_storage : M unit :=
  logger INFO CleaningStorage;;
  let* k := get_dsk in
  foreach clean_file (listdir (www k)).

(** [self.meta_object['stories'] = {}] *)
Definition reset_stories : M unit :=
  let* e := get_eng in
  match meta_object e with
  | Some m =>
      mod_eng (set_meta_object
                 (Some (Meta (mo_checksum m) (mo_title m) (mo_entity m)
                             (mo_homepage_url m) (mo_updated_at m) (Some []))))
  | None => raise TypeError
  end.

(** [self.meta_object['stories'][anchor] = entry] *)
Definition record_story (anchor entry : json) : M unit :=
  let* e := get_eng in
  match meta_object e with
  | Some m =>
      match mo_stories m with
      | Some d =>
          if hashable anchor then
            mod_eng (set_meta_object
                       (Some (Meta (mo_checksum m) (mo_title m) (mo_entity m)
                                   (mo_homepage_url m) (mo_updated_at m)
                                   (Some (dict_set anchor entry d)))))
          else raise TypeError
      | None => raise KeyError
      end
  | None => raise TypeError
  end.

(** The body of the loop of [sync_stories]; the value is the sitemap item of
    the story. *)
Definition save_story (story : json) : M string :=
  let* anchor := eval (py_getitem story "anchor") in
  logger INFO (SavingStory anchor);;
  open_write (py_str anchor) (py_getitem story "content");;
  let* hash := eval (py_getitem story "hash") in
  let* canonical_url := eval (py_getitem story "canonical_url") in
  let* updated_at := eval (py_getitem story "updated_at") in
  record_story anchor (JObj [("anchor", anchor); ("hash", hash);
                             ("canonical_url", canonical_url);
                             ("updated_at", updated_at)]);;
  eval (create_sitemap_item canonical_url updated_at
          (priority_text (py_eqb (JStr "index") anchor))).

Fixpoint save_stories (stories : list json) (sitemap_items : string) : M string :=
  match stories with
  | [] => ret sitemap_items
  | story :: stories' =>
      let* item := save_story story in
      save_stories stories' (sitemap_items ++ item)
  end.

Definition sync_stories : M unit :=
  clean_local_storage;;
  reset_stories;;
  let* e := get_eng in
  let* stories := eval (let? stories := py_getitem (remote_data e) "stories" in
                        py_iter stories) in
  let* sitemap_items := save_stories stories EmptyString in
  build_sitemap sitemap_items.

(** [self.meta_object['checksum']] *)
Definition new_checksum : M string :=
  let* e := get_eng in
  match meta_object e with
  | Some m => ret (mo_checksum m)
  | None => raise TypeError
  end.

(** The test of [sync] that the content changed. *)
Definition update_detected : M bool :=
  let* e := get_eng in
  if negb (truthy (meta_file_content e)) then ret true
  else
    let* has := eval (py_in "checksum" (meta_file_content e)) in
    if negb has then ret true
    else
      let* old := eval (py_getitem (meta_file_content e) "checksum") in
      let* new := new_checksum in
      ret (negb (py_eqb old (JStr new))).

(** The snapshot step of [sync]: [bin_path] is the directory named by the
    checksum of the local Meta.  [os.path.join] takes a [str] only. *)
Definition create_snapshot : M unit :=
  let* e := get_eng in
  let* has := (if truthy (meta_file_content e)
               then eval (py_in "checksum" (meta_file_content e))
               else ret false) in
  if has : bool then
    let* old := eval (py_getitem (meta_file_content e) "checksum") in
    logger INFO (CreatingSnapshot old);;
    match old with
    | JStr d => mod_eng (set_bin_path (Some d));; check_dir d;; ret tt
    | _ => raise TypeError
    end
  else ret tt.

(** [net] is what the network answers to the request of this cycle.  Both
    [return] statements of the source return [False]. *)
Definition sync (net : fetched) (now : string) : M bool :=
  logger DEBUG ContentSync;;
  let* api_response := fetch_content net in
  let* valid := match api_response with
                | Some r => validate_api_response (Some r) now
                | None => ret false
                end in
  if valid : bool then
    let* changed := update_detected in
    (if changed : bool then
       let* new := new_checksum in
       logger DEBUG (UpdateDetected new);;
       create_snapshot;;
       sync_stories;;
       save_error_page;;
       save_meta;;
       ret tt
     else
       logger DEBUG UpToDate);;
    logger INFO UpdateComplete;;
    ret false
  else
    logger WARNING UpdateUnsuccessful;;
    ret false.

(** The body of the loop of the script:
    [sync.meta_file_content = sync.read_meta(); sync.sync()]. *)
Definition cycle (net : fetched) (now : string) : M bool :=
  let* content := read_meta in
  mod_eng (set_meta_file_content content);;
  sync net now.

(** Infinity mode: one cycle per element of [inputs]; an exception ends the
    process. *)
Fixpoint run (inputs : list (fetched * string)) : M unit :=
  match inputs with
  | [] => ret tt
  | (net, now) :: inputs' => cycle net now;; run inputs'
  end.

(** * Definitions for the properties *)

(** ** Relations between the states before and after a run *)

(** [respects R m]: whatever [m] does, and however it ends, the state it
    leaves is related by [R] to the one it started in. *)
Definition respects {A} (R : relation state) (m : M A) : Prop :=
  ∀ s, R s (final (m s)).

(** The disk, with its journal, is the same. *)
Definition same_disk (s s' : state) : Prop := dsk s' = dsk s.

(** The attributes that validation does not assign are the same. *)
Definition same_local (s s' : state) : Prop :=
  meta_file_content (eng s') = meta_file_content (eng s) ∧
  bin_path (eng s') = bin_path (eng s).

(** ** The data model of the specification, as predicates *)

Definition is_str (o : option json) : bool :=
  match o with
  | Some (JStr _) => true
  | _ => false
  end.

Definition has_fields (fields : list string) (kv : list (string * json)) : bool :=
  forallb (fun f => bool_decide (is_Some (assoc f kv))) fields.

(** A Story: an object with the required fields, whose anchor, content and
    timestamp are strings. *)
Definition story_wf (story : json) : bool :=
  match story with
  | JObj kv =>
      has_fields story_required_fields kv && is_str (assoc "anchor" kv) &&
      is_str (assoc "content" kv) && is_str (assoc "updated_at" kv)
  | _ => false
  end.

(** A Remote Document: an object with the required fields, a list of
    stories and an error page that is a string. *)
Definition document_wf (data : json) : bool :=
  match data with
  | JObj kv =>
      has_fields theme_required_fields kv && is_str (assoc "error_page" kv) &&
      match assoc "stories" kv with
      | Some (JArr l) => forallb story_wf l
      | _ => false
      end
  | _ => false
  end.

(** The stories of a document. *)
Definition stories_of (data : json) : list json :=
  match data with
  | JObj kv => match assoc "stories" kv with
               | Some (JArr l) => l
               | _ => []
               end
  | _ => []
  end.

(** The story set of a local Meta. *)
Definition meta_stories (mfc : json) : list (string * json) :=
  match mfc with
  | JObj kv => match assoc "stories" kv with
               | Some (JObj entries) => entries
               | _ => []
               end
  | _ => []
  end.

Definition entry_wf (entry : json) : bool :=
  match entry with
  | JObj fields => bool_decide (is_Some (assoc "hash" fields))
  | _ => false
  end.

(** A Local Metadata Record, or none ([JNull]): the checksum, when there is
    one, is a string, and every entry of the story set records a hash. *)
Definition meta_wf (mfc : json) : bool :=
  match mfc with
  | JNull => true
  | JObj kv =>
      match assoc "checksum" kv with
      | Some (JStr _) | None => true
      | Some _ => false
      end &&
      match assoc "stories" kv with
      | Some (JObj entries) => forallb (fun p => entry_wf (snd p)) entries
      | None => true
      | Some _ => false
      end
  | _ => false
  end.

(** Every story the dictionary holds has a hash (validation only stores
    stories that have every required field). *)
Definition dict_wf (d : gmap string json) : Prop :=
  map_Forall (fun _ story => entry_wf story = true) d.

(** ** What reconciliation decides for a file *)

Inductive verdict : Type :=
  | Keep
  | ToBin (d : string)
  | Delete.

Definition field (name : string) (v : json) : json :=
  match v with
  | JObj kv => default JNull (assoc name kv)
  | _ => JNull
  end.

(** The decision of [clean_file] in terms of the story set of the local
    Meta, the snapshot directory and the story dictionary. *)
Definition verdict_of (e : engine) (f : string) : verdict :=
  match assoc f (meta_stories (meta_file_content e)) with
  | None => Delete
  | Some entry =>
      match bin_path e with
      | None => Keep
      | Some d =>
          match story_dictonary e !! f with
          | None => ToBin d
          | Some story =>
              if py_eqb (field "hash" story) (field "hash" entry) then Keep else ToBin d
          end
      end
  end.

Definition apply_verdict (v : verdict) (f : string) (k : disk) : disk :=
  match v with
  | Keep => k
  | Delete =>
      Disk (delete f (www k)) (bin k) (meta_file k) (journal k ++ [Remove f])
  | ToBin d =>
      match www k !! f, bin k !! d with
      | Some text, Some dir =>
          Disk (delete f (www k)) (<[d := <[f := Text text]> dir]> (bin k))
               (meta_file k) (journal k ++ [Archive f d])
      | _, _ => k
      end
  end.

(** The disk after the loop of [clean_local_storage] over the files [l]. *)
Definition clean_disk (e : engine) (l : list string) (k : disk) : disk :=
  foldl (fun k f => apply_verdict (verdict_of e f) f k) k l.

Definition bin_ready (e : engine) (k : disk) : Prop :=
  ∀ d, bin_path e = Some d → is_Some (bin k !! d).

(** The file [f] of the snapshot directory [d]. *)
Definition archived (k : disk) (d f : string) : option file :=
  bin k !! d ≫= (.!! f).

(** ** A changed cycle on well-formed data, as functions *)

Definition field_str (name : string) (v : json) : string :=
  match field name v with
  | JStr s => s
  | _ => EmptyString
  end.

(** The story dictionary after validating the stories [l]. *)
Definition index_stories (l : list json) (d : gmap string json) : gmap string json :=
  foldl (fun d story => <[field_str "anchor" story := story]> d) d l.

Definition after_validate (data : json) (now : string) (e : engine) : engine :=
  Engine (bin_path e) (meta_file_content e)
         (Some (Meta (sha256_dumps data) (field "title" data) (field "entity" data)
                     (field "homepage_url" data) now None))
         data
         (index_stories (stories_of data) (story_dictonary e)).

Definition entry_of (story : json) : json :=
  JObj [("anchor", field "anchor" story); ("hash", field "hash" story);
        ("canonical_url", field "canonical_url" story);
        ("updated_at", field "updated_at" story)].

(** [meta_object['stories']] after the loop of [sync_stories] over [l]. *)
Definition record_all (l : list json) (d : list (json * json)) : list (json * json) :=
  foldl (fun d story => dict_set (field "anchor" story) (entry_of story) d) d l.

(** The disk after the loop of [sync_stories] over [l]. *)
Definition write_stories (l : list json) (k : disk) : disk :=
  foldl (fun k story => write_file (field_str "anchor" story) (field_str "content" story) k) k l.

(** Every anchor of the document is a file name. *)
Definition writable (data : json) : bool :=
  forallb (fun story => file_name (field_str "anchor" story)) (stories_of data).

(** No anchor of the document has a separator: every path the loop of
    [sync_stories] opens names an entry of the content directory itself. *)
Definition flat (data : json) : bool :=
  forallb (fun story => negb (has_byte slash (field_str "anchor" story))) (stories_of data).

(** The stories the loop of [sync_stories] writes: those before the first
    one whose anchor is not a file name, where [open] raises. *)
Fixpoint written (l : list json) : list json :=
  match l with
  | [] => []
  | story :: l' =>
      if file_name (field_str "anchor" story) then story :: written l' else []
  end.

Definition item_of (story : json) : string :=
  "<url><loc>" ++ py_str (field "canonical_url" story) ++ "</loc><lastmod>" ++
  str_take 19 (field_str "updated_at" story) ++ "+00:00</lastmod><priority>" ++
  priority_text (py_eqb (JStr "index") (field "anchor" story)) ++ "</priority></url>".

Definition items_of (l : list json) (acc : string) : string :=
  foldl (fun acc story => acc ++ item_of story) acc l.

Definition with_stories (d : list (json * json)) (m : meta) : meta :=
  Meta (mo_checksum m) (mo_title m) (mo_entity m) (mo_homepage_url m)
       (mo_updated_at m) (Some d).

(** The checksum of the local Meta, when it has one. *)
Definition old_checksum (mfc : json) : option string :=
  match mfc with
  | JObj kv => match assoc "checksum" kv with
               | Some (JStr c) => Some c
               | _ => None
               end
  | _ => None
  end.

(** The local Meta a cycle starts from: the content of the Meta file, or
    [None] when there is no file. *)
Definition local_meta (k : disk) : json :=
  match meta_file k with
  | Some (Json v) => v
  | _ => JNull
  end.

Definition ensure_dir (d : string) (k : disk) : disk :=
  match bin k !! d with
  | None => mkdir d k
  | Some _ => k
  end.

Definition with_snapshot (e : engine) : engine :=
  match old_checksum (meta_file_content e) with
  | Some c => set_bin_path (Some c) e
  | None => e
  end.

Definition snapshot_disk (mfc : json) (k : disk) : disk :=
  match old_checksum mfc with
  | Some c => ensure_dir c k
  | None => k
  end.

Definition archive_meta (e : engine) (k : disk) : disk :=
  match bin_path e, meta_file k with
  | Some d, Some old =>
      match bin k !! d with
      | Some dir =>
          Disk (www k) (<[d := <["meta.json" := MetaText old]> dir]> (bin k)) None
               (journal k ++ [ArchiveMeta d])
      | None => k
      end
  | _, _ => k
  end.

Definition new_meta (data : json) (now : string) : meta :=
  Meta (sha256_dumps data) (field "title" data) (field "entity" data)
       (field "homepage_url" data) now (Some (record_all (stories_of data) [])).

(** The engine that reconciles: validation has run, the snapshot directory
    is set. *)
Definition reconciling (data : json) (now : string) (e : engine) : engine :=
  with_snapshot (after_validate data now e).

(** The disk after the reconciliation of a changed cycle. *)
Definition reconciled (data : json) (now : string) (e : engine) (k : disk) : disk :=
  clean_disk (reconciling data now e)
             (listdir (www (snapshot_disk (meta_file_content e) k)))
             (snapshot_disk (meta_file_content e) k).

(** The engine and the disk after a changed cycle. *)
Definition synced_engine (data : json) (now : string) (e : engine) : engine :=
  set_meta_object (Some (new_meta data now)) (reconciling data now e).

Definition rendered (data : json) (now : string) (e : engine) (k : disk) : disk :=
  write_file "error.html" (field_str "error_page" data)
    (write_file "sitemap.xml" (sitemap_content (items_of (stories_of data) EmptyString))
       (write_stories (stories_of data) (reconciled data now e k))).

Definition synced_disk (data : json) (now : string) (e : engine) (k : disk) : disk :=
  write_meta (dumped_meta (new_meta data now))
    (archive_meta (reconciling data now e) (rendered data now e k)).

(** The story of the anchor [a] among [l]: the last one, as in
    [story_dictonary] and in the content directory, where a later story
    replaces an earlier one with the same anchor. *)
Fixpoint find_story (a : string) (l : list json) : option json :=
  match l with
  | [] => None
  | story :: l' =>
      match find_story a l' with
      | Some story' => Some story'
      | None => if String.eqb (field_str "anchor" story) a then Some story else None
      end
  end.

(** ** The file operations of a changed cycle *)

Definition verdict_events (v : verdict) (f : string) (k : disk) : list fs_event :=
  match v with
  | Keep => []
  | Delete => [Remove f]
  | ToBin d =>
      match www k !! f, bin k !! d with
      | Some _, Some _ => [Archive f d]
      | _, _ => []
      end
  end.

Fixpoint clean_events (e : engine) (l : list string) (k : disk) : list fs_event :=
  match l with
  | [] => []
  | f :: l' =>
      verdict_events (verdict_of e f) f k ++
      clean_events e l' (apply_verdict (verdict_of e f) f k)
  end.

Definition snapshot_events (mfc : json) (k : disk) : list fs_event :=
  match old_checksum mfc with
  | Some c => match bin k !! c with
              | None => [Mkdir c]
              | Some _ => []
              end
  | None => []
  end.

Definition archive_meta_events (e : engine) (k : disk) : list fs_event :=
  match bin_path e, meta_file k with
  | Some d, Some _ => match bin k !! d with
                      | Some _ => [ArchiveMeta d]
                      | None => []
                      end
  | _, _ => []
  end.

Definition story_writes (l : list json) : list fs_event :=
  map (fun story => Write (field_str "anchor" story) (field_str "content" story)) l.

(** The operations of a changed cycle, in the order they are performed. *)
Definition cycle_events (data : json) (now : string) (e : engine) (k : disk) : list fs_event :=
  snapshot_events (meta_file_content e) k ++
  clean_events (reconciling data now e)
               (listdir (www (snapshot_disk (meta_file_content e) k)))
               (snapshot_disk (meta_file_content e) k) ++
  story_writes (stories_of data) ++
  [Write "sitemap.xml" (sitemap_content (items_of (stories_of data) EmptyString));
   Write "error.html" (field_str "error_page" data)] ++
  archive_meta_events (reconciling data now e) (rendered data now e k) ++
  [WriteMeta (dumped_meta (new_meta data now))].

(** The disk and the operations of a changed cycle that stops in the loop
    of [sync_stories], at a story whose anchor is not a file name. *)
Definition stopped_disk (data : json) (now : string) (e : engine) (k : disk) : disk :=
  write_stories (written (stories_of data)) (reconciled data now e k).


(** The disk a changed cycle leaves and the operations it performs, whether
    it completes or stops. *)
Definition final_disk (data : json) (now : string) (e : engine) (k : disk) : disk :=
  if writable data then synced_disk data now e k else stopped_disk data now e k.


(** ** Cycles *)

Definition same_dict (s s' : state) : Prop :=
  story_dictonary (eng s') = story_dictonary (eng s).

(** What [sync] does once validation has passed. *)
Definition after_validation : M bool :=
  let* changed := update_detected in
  (if changed : bool then
     let* new := new_checksum in
     logger DEBUG (UpdateDetected new);;
     create_snapshot;;
     sync_stories;;
     save_error_page;;
     save_meta;;
     ret tt
   else
     logger DEBUG UpToDate);;
  logger INFO UpdateComplete;;
  ret false.

(** The engine as [sync] finds it: [meta_file_content] is what [read_meta]
    returned. *)
Definition starting (s : state) : engine :=
  set_meta_file_content (local_meta (dsk s)) (eng s).

(** The inputs of a cycle are as the data model has them: a 200 response
    carrying a Remote Document, a Meta file that is absent or holds a Local
    Metadata Record, a dictionary of validated stories, and, when the local
    Meta names no checksum, a snapshot directory that exists if the engine
    still points to one. *)
Definition well_formed_cycle (s : state) (r : response) (data : json) : Prop :=
  code r = 200 ∧ body r = Json data ∧ document_wf data = true ∧
  meta_file (dsk s) ≠ Some Malformed ∧
  meta_wf (local_meta (dsk s)) = true ∧
  dict_wf (story_dictonary (eng s)) ∧
  (old_checksum (local_meta (dsk s)) = None → bin_ready (eng s) (dsk s)).

(** The checksum of the document differs from the one of the local Meta, or
    there is none. *)
Definition changed (s : state) (data : json) : Prop :=
  old_checksum (local_meta (dsk s)) ≠ Some (sha256_dumps data).

(** Validation reports failure, and says so in the log, for a status other
    than 200, a payload that is not JSON, a document that is not empty and
    lacks a required field, and a document whose stories are valid up to one
    that lacks a required field. *)
Definition rejected (r : response) : Prop :=
  code r ≠ 200 ∨ body r = Malformed ∨
  (∃ data missing, body r = Json data ∧ truthy data = true ∧
                   first_missing theme_required_fields data = ok (Some missing)) ∨
  (∃ kv good bad rest missing,
      body r = Json (JObj kv) ∧
      first_missing theme_required_fields (JObj kv) = ok None ∧
      assoc "stories" kv = Some (JArr (good ++ bad :: rest)) ∧
      Forall (fun story => first_missing story_required_fields story = ok None ∧
                           ∃ a, py_getitem story "anchor" = ok (JStr a)) good ∧
      first_missing story_required_fields bad = ok (Some missing)).

(** ** Runs of several cycles *)

(** The story dictionary holds every anchor it held. *)
Definition dict_grows (s s' : state) : Prop :=
  ∀ a, is_Some (story_dictonary (eng s) !! a) → is_Some (story_dictonary (eng s') !! a).

(** What a cycle relies on besides the response: a Meta file that is absent
    or holds a Local Metadata Record, a dictionary of validated stories, and,
    when the local Meta names no checksum, a snapshot directory that exists
    if the engine still points to one. *)
Definition steady (s : state) : Prop :=
  meta_file (dsk s) ≠ Some Malformed ∧
  meta_wf (local_meta (dsk s)) = true ∧
  dict_wf (story_dictonary (eng s)) ∧
  (old_checksum (local_meta (dsk s)) = None → bin_ready (eng s) (dsk s)).

(** An answer of the network that ends the cycle before validation looks
    at a document: one of the two errors [fetch_content] catches, a status
    other than 200, or a payload that is not JSON. *)
Definition refused (net : fetched) : Prop :=
  match net with
  | Response r => code r ≠ 200 ∨ body r = Malformed
  | HTTPError _ | URLError => True
  end.

(** An answer of the network the engine is written for: a refused one, or a
    200 response carrying a Remote Document whose anchors are file names. *)
Definition benign (net : fetched) : Prop :=
  refused net ∨
  ∃ r data, net = Response r ∧ code r = 200 ∧ body r = Json data ∧
            document_wf data = true ∧ writable data = true.

(** ** The Meta file, as it is written *)

(** The story set [json.load] reads back from the Meta written for the
    stories [l]. *)
Definition entries_of (l : list json) (kv : list (string * json)) : list (string * json) :=
  foldl (fun kv story => obj_set (field_str "anchor" story) (entry_of story) kv) kv l.

(** A Python dict whose keys are the strings of [kv], in the same order. *)
Definition str_keyed (kv : list (string * json)) : list (json * json) :=
  map (fun p => (JStr (fst p), snd p)) kv.

(** ** Documents that pass validation *)

(** What validation and the loop of [sync_stories] rely on: a Remote
    Document, but for the type of its error page, which nothing checks. *)
Definition document_shape (data : json) : bool :=
  match data with
  | JObj kv =>
      has_fields theme_required_fields kv &&
      match assoc "stories" kv with
      | Some (JArr l) => forallb story_wf l
      | _ => false
      end
  | _ => false
  end.

(** ** Kinds of file operations *)



(** ** Sample data *)

Definition demo_story (anchor hash content : string) : json :=
  JObj [("canonical_url", JStr ("https://example.org/" ++ anchor));
        ("content", JStr content);
        ("anchor", JStr anchor);
        ("updated_at", JStr "2025-03-01 10:20:30.123456+00:00");
        ("title", JStr anchor);
        ("is_landing", JBool false);
        ("hash", JStr hash);
        ("uid", JInt 7);
        ("credits", JStr "newsroom")].

Definition demo_document (stories : list json) : json :=
  JObj [("homepage_url", JStr "https://example.org");
        ("stories", JArr stories);
        ("error_page", JStr "<h1>Not found</h1>");
        ("entity", JStr "Example");
        ("title", JStr "Example Site")].

Definition doc_with_about : json := demo_document [demo_story "about" "h1" "About us"].
Definition doc_without_about : json := demo_document [].

Definition reply (data : json) : fetched := Response (Resp 200 (Json data)).

Definition empty_disk : disk := Disk ∅ ∅ None [].

(** The process right after start, on a machine that never synced. *)
Definition first_start : state := State new_engine empty_disk [].

(** Stand-ins for the two library functions, to run the engine on sample
    data: the checksum lists the anchors and hashes of the document. *)
Definition toy_checksum (data : json) : string :=
  String.concat ";" (map (fun story => field_str "anchor" story ++ "=" ++ field_str "hash" story)
                         (stories_of data)).

Definition toy_repr (v : json) : string := "[...]".

(** The Meta file of a machine that synced one story. *)
Definition synced_fields (checksum anchor hash : string) : list (string * json) :=
  [("checksum", JStr checksum);
   ("title", JStr "Example Site");
   ("entity", JStr "Example");
   ("homepage_url", JStr "https://example.org");
   ("updated_at", JStr "2025-02-01 08:00:00.000000+00:00");
   ("stories", JObj [(anchor, entry_of (demo_story anchor hash "old text"))])].

Definition synced_meta (checksum anchor hash : string) : json :=
  JObj (synced_fields checksum anchor hash).

(** A process started anew on a machine that synced one story. *)
Definition restarted (checksum anchor hash : string) : state :=
  State new_engine
        (Disk {[ anchor := "old text" ]} ∅ (Some (Json (synced_meta checksum anchor hash))) [])
        [].

(** The same machine while it reconciles, with a file nobody tracks. *)
Definition with_stray_file : state :=
  State (set_meta_file_content (synced_meta "c0" "index" "a") new_engine)
        (Disk {[ "index" := "old text"; "stray.txt" := "junk" ]} ∅
              (Some (Json (synced_meta "c0" "index" "a"))) [])
        [].

(** The document with the one story of [restarted], changed. *)
Definition doc_changed (anchor : string) : json :=
  demo_document [demo_story anchor "b" "new text"].
Definition doc_two_stories : json :=
  demo_document [demo_story "index" "a" "old text"; demo_story "about" "h1" "About us"].

(** The state after a first cycle that syncs [doc_with_about]. *)
Definition after_first_cycle : state :=
  final (cycle (reply doc_with_about) "t1" first_start).

(** A document whose first story has the empty anchor; the second is the
    story of [restarted], changed. *)
Definition doc_unnamed_story : json :=
  demo_document [demo_story EmptyString "x" "text"; demo_story "index" "b" "new text"].

(** The story of [restarted], changed, with a [content] that is [null]. *)
Definition story_without_text : json :=
  JObj [("canonical_url", JStr "https://example.org/index");
        ("content", JNull);
        ("anchor", JStr "index");
        ("updated_at", JStr "2025-03-01 10:20:30.123456+00:00");
        ("title", JStr "index");
        ("is_landing", JBool true);
        ("hash", JStr "b");
        ("uid", JInt 7);
        ("credits", JStr "newsroom")].

Definition doc_without_text : json := demo_document [story_without_text].

(** A document whose error page is [null]. *)
Definition doc_null_page : json :=
  JObj [("homepage_url", JStr "https://example.org");
        ("stories", JArr [demo_story "index" "b" "new text"]);
        ("error_page", JNull);
        ("entity", JStr "Example");
        ("title", JStr "Example Site")].

(** A story that has an anchor and no other field. *)
Definition broken_story : json := JObj [("anchor", JStr "broken")].

(** The fields of a document whose second story is broken. *)
Definition fields_with_broken_story : list (string * json) :=
  [("homepage_url", JStr "https://example.org");
   ("stories", JArr [demo_story "index" "a" "old text"; broken_story;
                     demo_story "about" "h1" "About us"]);
   ("error_page", JStr "<h1>Not found</h1>");
   ("entity", JStr "Example");
   ("title", JStr "Example Site")].

(** A run of infinity mode: an outage, a first document, an outage, the
    document without its story. *)
Definition demo_inputs : list (fetched * string) :=
  [(URLError, "t0"); (reply doc_with_about, "t1");
   (HTTPError 503, "t2"); (reply doc_without_about, "t3")].


(** * Properties *)

(** ** Frame reasoning *)

Section Respects.
Context (R : relation state) `{!Reflexive R} `{!Transitive R}.

Lemma respects_ret {A} (a : A) : respects R (ret a).
Proof. intros s. simpl. reflexivity. Qed.

Lemma respects_raise {A} (e : exn) : respects R (raise e : M A).
Proof. intros s. simpl. reflexivity. Qed.

Lemma respects_eval {A} (r : res A) : respects R (eval r).
Proof. destruct r; [apply respects_ret | apply respects_raise]. Qed.

Lemma respects_bind {A B} (m : M A) (k : A → M B) :
  respects R m → (∀ a, respects R (k a)) → respects R (bind m k).
Proof.
  intros Hm Hk s. unfold bind. specialize (Hm s).
  destruct (m s) as [a s1|e s1]; simpl in *; [|done].
  etrans; [exact Hm | apply Hk].
Qed.

Lemma respects_get_eng : respects R get_eng.
Proof. intros s. simpl. reflexivity. Qed.

Lemma respects_get_dsk : respects R get_dsk.
Proof. intros s. simpl. reflexivity. Qed.
End Respects.

#[local] Instance same_disk_refl : Reflexive same_disk.
Proof. by intros s. Qed.
#[local] Instance same_disk_trans : Transitive same_disk.
Proof. unfold same_disk. intros s1 s2 s3 H1 H2. congruence. Qed.
#[local] Instance same_local_refl : Reflexive same_local.
Proof. by intros s. Qed.
#[local] Instance same_local_trans : Transitive same_local.
Proof. unfold same_local. intros s1 s2 s3 [? ?] [? ?]. split; congruence. Qed.

Lemma same_disk_logger l m : respects same_disk (logger l m).
Proof. by intros s. Qed.
Lemma same_local_logger l m : respects same_local (logger l m).
Proof. by intros s. Qed.
Lemma same_disk_mod_eng f : respects same_disk (mod_eng f).
Proof. by intros s. Qed.
Lemma same_local_set_remote_data v : respects same_local (mod_eng (set_remote_data v)).
Proof. by intros s. Qed.
Lemma same_local_set_meta_object m : respects same_local (mod_eng (set_meta_object m)).
Proof. by intros s. Qed.
Lemma same_local_set_story_dictonary f :
respects same_local (mod_eng (fun e => set_story_dictonary (f e) e)).
Proof. by intros s. Qed.

Ltac frame_step :=
first
  [ assumption
  | match goal with H : ∀ x, respects _ _ |- _ => apply H end
  | apply respects_bind; [typeclasses eauto | | intros ?]
  | apply respects_ret; typeclasses eauto
  | apply respects_raise; typeclasses eauto
  | apply respects_eval; typeclasses eauto
  | apply respects_get_eng; typeclasses eauto
  | apply respects_get_dsk; typeclasses eauto
  | apply same_disk_logger
  | apply same_local_logger
  | apply same_disk_mod_eng
  | apply same_local_set_remote_data
  | apply same_local_set_meta_object
  | apply same_local_set_story_dictonary
  | match goal with |- respects _ (match ?x with _ => _ end) => destruct x end ].

Ltac frame := repeat frame_step.

Lemma validate_stories_same_disk stories : respects same_disk (validate_stories stories).
Proof. induction stories as [|story stories IH]; simpl; frame. Qed.

Lemma validate_stories_same_local stories : respects same_local (validate_stories stories).
Proof. induction stories as [|story stories IH]; simpl; frame. Qed.

Lemma validate_same_disk response now :
respects same_disk (validate_api_response response now).
Proof.
pose proof validate_stories_same_disk.
unfold validate_api_response. frame.
Qed.

Lemma validate_same_local response now :
respects same_local (validate_api_response response now).
Proof.
pose proof validate_stories_same_local.
unfold validate_api_response. frame.
Qed.

(** ** Unchanged cycles, and the exceptions that leave a cycle *)

Lemma bind_Ok {A B} (m : M A) (k : A → M B) s b s' :
bind m k s = Ok b s' → ∃ a s1, m s = Ok a s1 ∧ k a s1 = Ok b s'.
Proof. unfold bind. destruct (m s) as [a s1|]; [eauto | discriminate]. Qed.

Ltac inv_bind H :=
let a := fresh "a" in
let s := fresh "s" in
let Hm := fresh "Hm" in
apply bind_Ok in H as (a & s & Hm & H).

Lemma validate_true_checksum r now s s' :
validate_api_response (Some r) now s = Ok true s' →
∃ data m, body r = Json data ∧ meta_object (eng s') = Some m ∧
          mo_checksum m = sha256_dumps data.
Proof.
unfold validate_api_response.
destruct (code r =? 200); [|by intros ?%bind_Ok; destruct select (∃ _, _) as (?&?&?&?)].
destruct (body r) as [data|]; [|by intros ?%bind_Ok; destruct select (∃ _, _) as (?&?&?&?)].
intros H. exists data.
inv_bind H. inv_bind H. destruct a0; [|discriminate].
do 5 inv_bind H. unfold ret in H. simplify_eq.
unfold logger in Hm5. unfold mod_eng in Hm4. simplify_eq. simpl. eauto.
Qed.

Lemma update_detected_same s kv m :
meta_file_content (eng s) = JObj kv →
assoc "checksum" kv = Some (JStr (mo_checksum m)) →
meta_object (eng s) = Some m →
update_detected s = Ok false s.
Proof.
intros Hmfc Hsum Hm.
unfold update_detected, bind at 1, get_eng. rewrite Hmfc.
destruct kv as [|p kv]; [done|].
unfold py_in, py_getitem. rewrite Hsum. simpl.
unfold bind, ret, new_checksum, bind, get_eng at 1. simpl. rewrite Hm. unfold ret.
simpl. by rewrite String.eqb_refl.
Qed.

(** C1.  When the Meta file on disk carries the checksum of the document
  that was just fetched, the cycle performs no operation on the disk,
  however it ends: the content directory, the snapshot directories, the
  Meta file and the journal of file operations are what they were. *)
Theorem unchanged_checksum_frame s r now kv data :
meta_file (dsk s) = Some (Json (JObj kv)) →
assoc "checksum" kv = Some (JStr (sha256_dumps data)) →
body r = Json data →
dsk (final (cycle (Response r) now s)) = dsk s.
Proof.
intros Hfile Hsum Hbody.
unfold cycle, read_meta, bind at 1, bind at 1, get_dsk. rewrite Hfile.
unfold ret at 1, bind at 1, mod_eng at 1.
set (s1 := State _ _ _).
unfold sync, bind at 1, logger at 1.
set (s2 := State _ _ _).
unfold bind at 1, fetch_content, ret at 1.
unfold bind at 1.
pose proof (validate_same_disk (Some r) now s2) as Hd.
pose proof (validate_same_local (Some r) now s2) as [Hl _].
destruct (validate_api_response (Some r) now s2) as [[] s3|e s3] eqn:Hv;
  simpl in Hd, Hl; [| by simpl; rewrite Hd | by simpl; rewrite Hd].
apply validate_true_checksum in Hv as (data' & m & Hb & Hm & Hc).
rewrite Hbody in Hb. simplify_eq.
unfold bind at 1. rewrite (update_detected_same s3 kv m); [| done | by rewrite Hc | done].
simpl. by rewrite Hd.
Qed.

(** C2.  A 200 response whose document is the empty object lacks every
  required field; validation skips its field checks for a document that is
  false in Python and then reads [title]: the [KeyError] leaves the cycle,
  which returns no signal.  The disk is untouched. *)
Theorem empty_document_raises now s :
∃ s', sync (Response (Resp 200 (Json (JObj [])))) now s = Exn KeyError s' ∧
      dsk s' = dsk s.
Proof. unfold sync. simpl. eauto. Qed.

(** C7.  [read_meta] returns the parsed Meta of a well-formed file, returns
  [None] with a warning when there is no file, and lets the
  [JSONDecodeError] of a malformed file through. *)
Theorem read_meta_cases e w b j lg :
(∀ v, read_meta (State e (Disk w b (Some (Json v)) j) lg)
      = Ok v (State e (Disk w b (Some (Json v)) j) lg)) ∧
read_meta (State e (Disk w b None j) lg)
  = Ok JNull (State e (Disk w b None j) (lg ++ [(WARNING, MetaNotFound)])) ∧
read_meta (State e (Disk w b (Some Malformed) j) lg)
  = Exn JSONDecodeError (State e (Disk w b (Some Malformed) j) lg).
Proof. split; [|split]; intros; reflexivity. Qed.

(** C8.  A 200 response whose payload is the JSON text [null] makes
  validation raise [TypeError]; the exception leaves [sync], and in
  infinity mode it ends the loop. *)
Theorem null_document_raises now s inputs :
(∃ s', sync (Response (Resp 200 (Json JNull))) now s = Exn TypeError s') ∧
(∃ s', run ((Response (Resp 200 (Json JNull)), now) :: inputs)
           (State (eng s) (Disk (www (dsk s)) (bin (dsk s)) None (journal (dsk s))) (log s))
       = Exn TypeError s').
Proof.
split; [unfold sync; simpl; eauto|].
unfold run, cycle, sync, read_meta, bind. simpl. eauto.
Qed.

(** C9.  Whenever [sync] returns, it returns [False]: the value after
  [Update Complete] is the same as the one after [Update Unsuccessful]. *)
Theorem sync_returns_false net now s b s' :
sync net now s = Ok b s' → b = false.
Proof.
unfold sync. intros H.
do 3 inv_bind H.
destruct a1.
- do 3 inv_bind H. unfold ret in H. by simplify_eq.
- inv_bind H. unfold ret in H. by simplify_eq.
Qed.

(** ** Reconciliation *)

Lemma assoc_forallb (P : string * json → bool) kv k v :
forallb P kv = true → assoc k kv = Some v → ∃ k', P (k', v) = true.
Proof.
induction kv as [|[k' v'] kv IH]; simpl; [done|].
intros [HP Hrest]%andb_true_iff. destruct (String.eqb k k').
- intros [= ->]. eauto.
- eauto.
Qed.

Lemma tracked_meta_stories mfc f :
meta_wf mfc = true →
tracked mfc f = ok (bool_decide (is_Some (assoc f (meta_stories mfc)))).
Proof.
unfold meta_wf, tracked, meta_stories.
destruct mfc as [| | | | |kv]; try done.
destruct kv as [|p kv]; [done|].
intros [_ Hs]%andb_true_iff. simpl truthy. cbv iota.
unfold py_in, py_getitem, rbind, ok.
destruct (assoc "stories" (p :: kv)) as [[| | | | |entries]|] eqn:Hst; try done.
rewrite bool_decide_eq_true_2 by eauto.
destruct entries; done.
Qed.

Lemma clean_file_verdict s f text :
meta_wf (meta_file_content (eng s)) = true →
dict_wf (story_dictonary (eng s)) →
www (dsk s) !! f = Some text →
(∀ d, bin_path (eng s) = Some d → is_Some (bin (dsk s) !! d)) →
∃ lg, clean_file f s
      = Ok tt (State (eng s) (apply_verdict (verdict_of (eng s) f) f (dsk s)) lg).
Proof.
intros Hwf Hdict Hf Hbin.
unfold clean_file, bind at 1, get_eng, bind at 1.
rewrite (tracked_meta_stories _ _ Hwf). simpl eval. unfold ret at 1.
unfold verdict_of.
destruct (assoc f (meta_stories _)) as [entry|] eqn:Hentry.
- rewrite bool_decide_eq_true_2 by eauto.
  destruct (bin_path (eng s)) as [d|] eqn:Hd; [|destruct s; simpl; eauto].
  destruct (Hbin d eq_refl) as [dir Hdir].
  assert (∀ lg, ∃ lg',
    os_rename f d (State (eng s) (dsk s) lg)
    = Ok tt (State (eng s) (apply_verdict (ToBin d) f (dsk s)) lg')) as Hmove.
  { intros lg. unfold os_rename, bind, get_dsk. simpl. rewrite Hf, Hdir.
    unfold mod_dsk. simpl. rewrite ?Hf, ?Hdir. eauto. }
  destruct (story_dictonary (eng s) !! f) as [story|] eqn:Hstory.
  + apply Hdict in Hstory as Hs. simpl in Hs.
    destruct story as [| | | | |kv]; try done. apply bool_decide_eq_true in Hs as [h Hh].
    unfold meta_wf, meta_stories in Hwf, Hentry.
    destruct (meta_file_content (eng s)) as [| | | | |mkv] eqn:Hmfc; try done.
    apply andb_true_iff in Hwf as [_ Hwf].
    destruct (assoc "stories" mkv) as [[| | | | |entries]|] eqn:Hst; try done.
    destruct (assoc_forallb _ _ _ _ Hwf Hentry) as [k' He]. simpl in He.
    destruct entry as [| | | | |fields]; try done.
    apply bool_decide_eq_true in He as [h' Hh'].
    unfold py_getitem, rbind, ok. rewrite Hh, Hst. cbv beta iota.
    rewrite Hentry. cbv beta iota. rewrite Hh'. unfold field. rewrite Hh, Hh'. simpl.
    unfold bind at 1, ret at 1, bind at 1, ret at 1.
    destruct (py_eqb h h'); simpl.
    * destruct s; simpl; eauto.
    * unfold bind at 1, logger at 1. apply Hmove.
  + unfold bind at 1, logger at 1. apply Hmove.
- rewrite bool_decide_eq_false_2 by (intros [? ?]; done).
  unfold bind at 1, logger at 1, os_remove, bind, get_dsk. simpl. rewrite Hf.
  unfold mod_dsk. simpl. eauto.
Qed.

Lemma clean_disk_cons e f l k :
clean_disk e (f :: l) k = clean_disk e l (apply_verdict (verdict_of e f) f k).
Proof. done. Qed.

Lemma apply_verdict_www_other v f k g :
g ≠ f → www (apply_verdict v f k) !! g = www k !! g.
Proof.
intros Hne. destruct v as [|d|]; simpl; [done| |by rewrite lookup_delete_ne].
destruct (www k !! f), (bin k !! d); simpl; [|done..].
by rewrite lookup_delete_ne.
Qed.

Lemma apply_verdict_bin_some v f k d :
is_Some (bin k !! d) → is_Some (bin (apply_verdict v f k) !! d).
Proof.
intros Hd. destruct v as [|d'|]; simpl; [done| |done].
destruct (www k !! f), (bin k !! d') eqn:Hd'; simpl; [|done..].
destruct (decide (d' = d)) as [->|Hne].
- rewrite lookup_insert_eq. eauto.
- by rewrite lookup_insert_ne.
Qed.

Lemma bin_ready_apply e v f k : bin_ready e k → bin_ready e (apply_verdict v f k).
Proof. intros H d Hd. apply apply_verdict_bin_some. by apply H. Qed.

Lemma clean_disk_www_other e l k g :
g ∉ l → www (clean_disk e l k) !! g = www k !! g.
Proof.
revert k. induction l as [|f l IH]; intros k Hg; [done|].
apply not_elem_of_cons in Hg as [Hne Hg].
rewrite clean_disk_cons, IH by done. by apply apply_verdict_www_other.
Qed.

Lemma clean_disk_bin_some e l k d :
is_Some (bin k !! d) → is_Some (bin (clean_disk e l k) !! d).
Proof.
revert k. induction l as [|f l IH]; intros k Hd; [done|].
rewrite clean_disk_cons. apply IH. by apply apply_verdict_bin_some.
Qed.

(** The loop of [clean_local_storage] on well-formed data runs to its end
  and leaves [clean_disk]. *)
Lemma foreach_clean_file l s :
meta_wf (meta_file_content (eng s)) = true →
dict_wf (story_dictonary (eng s)) →
bin_ready (eng s) (dsk s) →
NoDup l →
(∀ f, f ∈ l → is_Some (www (dsk s) !! f)) →
∃ lg, foreach clean_file l s
      = Ok tt (State (eng s) (clean_disk (eng s) l (dsk s)) lg).
Proof.
revert s. induction l as [|f l IH]; intros s Hwf Hdict Hbin Hnd Hin.
- destruct s. simpl. eauto.
- apply NoDup_cons in Hnd as [Hf Hnd].
  destruct (Hin f) as [text Htext]; [left|].
  destruct (clean_file_verdict s f text Hwf Hdict Htext Hbin) as [lg Hstep].
  rewrite clean_disk_cons. simpl. unfold bind. rewrite Hstep.
  destruct (IH (State (eng s) (apply_verdict (verdict_of (eng s) f) f (dsk s)) lg))
    as [lg' Hrest]; simpl; try done.
  + by apply bin_ready_apply.
  + intros g Hg. rewrite apply_verdict_www_other by (intros ->; done).
    apply Hin. by right.
  + eauto.
Qed.

Lemma elem_of_listdir (dir : gmap string string) f :
f ∈ listdir dir ↔ is_Some (dir !! f).
Proof.
unfold listdir. rewrite list_elem_of_fmap. split.
- intros [[f' text] [-> Hin]]. apply elem_of_map_to_list in Hin. eauto.
- intros [text Hf]. exists (f, text). split; [done|]. by apply elem_of_map_to_list.
Qed.

Lemma NoDup_listdir (dir : gmap string string) : NoDup (listdir dir).
Proof. apply NoDup_fst_map_to_list. Qed.

Lemma clean_local_storage_runs s :
meta_wf (meta_file_content (eng s)) = true →
dict_wf (story_dictonary (eng s)) →
bin_ready (eng s) (dsk s) →
∃ lg, clean_local_storage s
      = Ok tt (State (eng s) (clean_disk (eng s) (listdir (www (dsk s))) (dsk s)) lg).
Proof.
intros Hwf Hdict Hbin.
unfold clean_local_storage, bind at 1, logger at 1, bind at 1, get_dsk. cbv beta iota.
cbn [dsk].
apply (foreach_clean_file _ (State (eng s) (dsk s) _)); try done.
- apply NoDup_listdir.
- intros f Hf. by apply elem_of_listdir.
Qed.

Lemma clean_disk_deleted e l k f :
NoDup l → f ∈ l → verdict_of e f = Delete →
www (clean_disk e l k) !! f = None.
Proof.
revert k. induction l as [|g l IH]; intros k Hnd Hin Hv; [by apply elem_of_nil in Hin|].
apply NoDup_cons in Hnd as [Hg Hnd]. rewrite clean_disk_cons.
apply elem_of_cons in Hin as [->|Hin].
- rewrite clean_disk_www_other by done. rewrite Hv. simpl. apply lookup_delete_eq.
- by apply IH.
Qed.

Lemma clean_disk_archived e l k f d :
NoDup l → f ∈ l → verdict_of e f = ToBin d → is_Some (bin k !! d) →
www (clean_disk e l k) !! f = None.
Proof.
revert k. induction l as [|g l IH]; intros k Hnd Hin Hv Hd; [by apply elem_of_nil in Hin|].
apply NoDup_cons in Hnd as [Hg Hnd]. rewrite clean_disk_cons.
apply elem_of_cons in Hin as [->|Hin].
- rewrite clean_disk_www_other by done. rewrite Hv. simpl.
  destruct Hd as [dir Hd]. rewrite Hd.
  destruct (www k !! g) eqn:Hg'; simpl; [apply lookup_delete_eq | done].
- apply IH; try done. by apply apply_verdict_bin_some.
Qed.

Lemma clean_disk_kept e l k f :
verdict_of e f = Keep → www (clean_disk e l k) !! f = www k !! f.
Proof.
intros Hv. revert k. induction l as [|g l IH]; intros k; [done|].
rewrite clean_disk_cons, IH.
destruct (decide (f = g)) as [->|Hne]; [by rewrite Hv|].
by apply apply_verdict_www_other.
Qed.

Lemma archived_apply_verdict v g k d f :
(g ≠ f ∨ v ≠ ToBin d) →
archived (apply_verdict v g k) d f = archived k d f.
Proof.
intros Hne. unfold archived. destruct v as [|d'|]; simpl; [done| |done].
destruct (www k !! g), (bin k !! d') as [dir|] eqn:Hd'; simpl; [|done..].
destruct (decide (d' = d)) as [->|Hd].
- rewrite lookup_insert_eq, Hd'. simpl.
  destruct Hne as [Hne|Hne]; [|done]. by rewrite lookup_insert_ne.
- by rewrite lookup_insert_ne.
Qed.

Lemma clean_disk_not_archived e l k d f :
verdict_of e f ≠ ToBin d → archived (clean_disk e l k) d f = archived k d f.
Proof.
intros Hv. revert k. induction l as [|g l IH]; intros k; [done|].
rewrite clean_disk_cons, IH.
apply archived_apply_verdict.
destruct (decide (g = f)) as [->|Hne]; [by right | by left].
Qed.

Lemma clean_disk_not_listed e l k d f :
f ∉ l → archived (clean_disk e l k) d f = archived k d f.
Proof.
revert k. induction l as [|g l IH]; intros k Hf; [done|].
apply not_elem_of_cons in Hf as [Hne Hf].
rewrite clean_disk_cons, IH by done.
apply archived_apply_verdict. by left.
Qed.

Lemma clean_disk_moved e l k d f text :
NoDup l → f ∈ l → verdict_of e f = ToBin d →
www k !! f = Some text → is_Some (bin k !! d) →
archived (clean_disk e l k) d f = Some (Text text).
Proof.
revert k. induction l as [|g l IH]; intros k Hnd Hin Hv Hf Hd; [by apply elem_of_nil in Hin|].
apply NoDup_cons in Hnd as [Hg Hnd]. rewrite clean_disk_cons.
apply elem_of_cons in Hin as [->|Hin].
- rewrite clean_disk_not_listed by done. rewrite Hv. simpl.
  destruct Hd as [dir Hd]. rewrite Hf, Hd. unfold archived. simpl.
  rewrite lookup_insert_eq. simpl. by rewrite lookup_insert_eq.
- apply IH; try done.
  + rewrite apply_verdict_www_other; [done|]. intros ->. done.
  + by apply apply_verdict_bin_some.
Qed.

(** ** A changed cycle on well-formed data, step by step *)

Lemma first_missing_has_fields fields kv :
has_fields fields kv = true → first_missing fields (JObj kv) = ok None.
Proof.
induction fields as [|f fields IH]; simpl; [done|].
intros [Hf Hrest]%andb_true_iff. rewrite Hf. simpl. by apply IH.
Qed.

Lemma has_fields_assoc fields kv f :
has_fields fields kv = true → f ∈ fields → ∃ v, assoc f kv = Some v.
Proof.
unfold has_fields. rewrite forallb_forall. intros H Hf.
apply list_elem_of_In in Hf. apply H in Hf. by apply bool_decide_eq_true in Hf.
Qed.

Lemma story_wf_inv story :
story_wf story = true →
∃ kv a text stamp h url,
  story = JObj kv ∧ has_fields story_required_fields kv = true ∧
  assoc "anchor" kv = Some (JStr a) ∧ assoc "content" kv = Some (JStr text) ∧
  assoc "updated_at" kv = Some (JStr stamp) ∧ assoc "hash" kv = Some h ∧
  assoc "canonical_url" kv = Some url.
Proof.
destruct story as [| | | | |kv]; try done. unfold story_wf. intros H.
do 3 (apply andb_true_iff in H as [H ?]).
destruct (has_fields_assoc _ _ "hash" H) as [h Hh]; [set_solver|].
destruct (has_fields_assoc _ _ "canonical_url" H) as [url Hurl]; [set_solver|].
destruct (assoc "anchor" kv) as [[| | |a| |]|] eqn:?; try done.
destruct (assoc "content" kv) as [[| | |text| |]|] eqn:?; try done.
destruct (assoc "updated_at" kv) as [[| | |stamp| |]|] eqn:?; try done.
by exists kv, a, text, stamp, h, url.
Qed.

Lemma bind_step {A B} (m : M A) (k : A → M B) s a s1 :
m s = Ok a s1 → bind m k s = k a s1.
Proof. unfold bind. by intros ->. Qed.

Lemma bind_assoc {A B C} (m : M A) (k : A → M B) (k' : B → M C) s :
bind (bind m k) k' s = bind m (fun a => bind (k a) k') s.
Proof. unfold bind. by destruct (m s). Qed.

Lemma bind_exn {A B} (m : M A) (k : A → M B) s e s1 :
m s = Exn e s1 → bind m k s = Exn e s1.
Proof. unfold bind. by intros ->. Qed.

(** One step of a run: the first action of a [bind] is evaluated, by
  computation or by an equation among the hypotheses. *)
Ltac step :=
erewrite bind_step; [| first [eassumption | reflexivity]]; cbv beta iota; cbn [eng dsk log].

Lemma validate_stories_cons story l :
validate_stories (story :: l) =
(let* missing := eval (first_missing story_required_fields story) in
 match missing with
 | Some story_field => logger ERROR (InvalidStory story_field);; ret false
 | None =>
     let* anchor := eval (py_getitem story "anchor") in
     if hashable anchor then
       match anchor with
       | JStr a =>
           mod_eng (fun e => set_story_dictonary (<[a := story]> (story_dictonary e)) e)
       | _ => ret tt
       end;;
       validate_stories l
     else raise TypeError
 end).
Proof. done. Qed.

Lemma validate_stories_runs l s :
forallb story_wf l = true →
∃ lg, validate_stories l s
      = Ok true (State (set_story_dictonary
                          (index_stories l (story_dictonary (eng s))) (eng s))
                       (dsk s) lg).
Proof.
revert s. induction l as [|story l IH]; intros s Hwf.
- destruct s as [[] ? ?]. simpl. eauto.
- simpl in Hwf. apply andb_true_iff in Hwf as [Hstory Hwf].
  destruct (story_wf_inv _ Hstory) as (kv & a & text & stamp & h & url & -> & Hf & Ha & _).
  destruct (IH (State (set_story_dictonary (<[a:=JObj kv]> (story_dictonary (eng s))) (eng s))
                      (dsk s) (log s)) Hwf) as [lg Hrest].
  exists lg. rewrite validate_stories_cons.
  rewrite (first_missing_has_fields _ _ Hf).
  step.
  unfold py_getitem. rewrite Ha. step. cbn [hashable]. cbv beta iota. step.
  rewrite Hrest. simpl. unfold field_str, field. by rewrite Ha.
Qed.

Lemma document_wf_inv data :
document_wf data = true →
∃ kv page,
  data = JObj kv ∧ has_fields theme_required_fields kv = true ∧
  assoc "error_page" kv = Some (JStr page) ∧
  assoc "stories" kv = Some (JArr (stories_of data)) ∧
  forallb story_wf (stories_of data) = true ∧
  assoc "title" kv = Some (field "title" data) ∧
  assoc "entity" kv = Some (field "entity" data) ∧
  assoc "homepage_url" kv = Some (field "homepage_url" data).
Proof.
destruct data as [| | | | |kv]; try done. unfold document_wf. intros H.
do 2 (apply andb_true_iff in H as [H ?]).
destruct (has_fields_assoc _ _ "title" H) as [? Ht]; [set_solver|].
destruct (has_fields_assoc _ _ "entity" H) as [? He]; [set_solver|].
destruct (has_fields_assoc _ _ "homepage_url" H) as [? Hh]; [set_solver|].
destruct (assoc "error_page" kv) as [[| | |page| |]|] eqn:?; try done.
destruct (assoc "stories" kv) as [[| | | |l|]|] eqn:Hs; try done.
exists kv, page. unfold stories_of, field. rewrite Hs, Ht, He, Hh. done.
Qed.

Lemma validate_runs r now s data :
code r = 200 → body r = Json data → document_wf data = true →
∃ lg, validate_api_response (Some r) now s
      = Ok true (State (after_validate data now (eng s)) (dsk s) lg).
Proof.
intros Hcode Hbody Hwf.
destruct (document_wf_inv _ Hwf) as (kv & page & -> & Hf & _ & Hs & Hst & Ht & He & Hh).
unfold validate_api_response. rewrite Hcode, Hbody.
change (200 =? 200) with true. cbv beta iota.
assert (truthy (JObj kv) = true) as -> by (by destruct kv).
set (s1 := State (set_remote_data (JObj kv) (eng s)) (dsk s) (log s)).
assert (∃ lg, (let* missing := eval (first_missing theme_required_fields (JObj kv)) in
          match missing with
          | Some theme_field => logger ERROR (InvalidResponse theme_field);; ret false
          | None =>
             let* n := eval (let? stories := py_getitem (JObj kv) "stories" in py_len stories) in
             if (0 <? n)%nat then
               let* stories := eval (let? stories := py_getitem (JObj kv) "stories" in
                                     py_iter stories) in
               validate_stories stories
             else logger WARNING NoStories;; ret true
          end) s1
         = Ok true (State (set_story_dictonary
                             (index_stories (stories_of (JObj kv)) (story_dictonary (eng s1)))
                             (eng s1)) (dsk s1) lg)) as [lg Hvalid].
{ destruct (validate_stories_runs (stories_of (JObj kv)) s1 Hst) as [lg Hrun].
  destruct (stories_of (JObj kv)) as [|story l] eqn:Hl.
  - eexists. rewrite (first_missing_has_fields _ _ Hf). step.
    unfold py_getitem. rewrite Hs. simpl rbind. step.
    simpl. destruct s as [[] ? ?]. reflexivity.
  - exists lg. rewrite (first_missing_has_fields _ _ Hf). step.
    unfold py_getitem. rewrite Hs. simpl rbind. step.
    change (0 <? S (length l))%nat with true. cbv beta iota. step. exact Hrun. }
eexists. do 2 step. unfold py_getitem. rewrite Ht, He, Hh. do 5 step.
unfold ret, after_validate. simpl. reflexivity.
Qed.

Lemma record_story_runs anchor entry s m d :
hashable anchor = true →
meta_object (eng s) = Some m → mo_stories m = Some d →
record_story anchor entry s
= Ok tt (State (set_meta_object (Some (with_stories (dict_set anchor entry d) m)) (eng s))
               (dsk s) (log s)).
Proof.
intros Hh Hm Hd. unfold record_story. step. rewrite Hm, Hd, Hh. reflexivity.
Qed.

Lemma save_story_runs story s m d :
story_wf story = true →
file_name (field_str "anchor" story) = true →
meta_object (eng s) = Some m → mo_stories m = Some d →
∃ lg, save_story story s
      = Ok (item_of story)
           (State (set_meta_object
                     (Some (with_stories
                              (dict_set (field "anchor" story) (entry_of story) d) m))
                     (eng s))
                  (write_file (field_str "anchor" story) (field_str "content" story) (dsk s))
                  lg).
Proof.
intros Hwf Hname Hm Hd.
destruct (story_wf_inv _ Hwf)
  as (kv & a & text & stamp & h & url & -> & Hf & Ha & Hc & Hu & Hh & Hurl).
unfold field_str, field in Hname. rewrite Ha in Hname. simpl in Hname.
eexists. unfold save_story, py_getitem. rewrite Ha, Hc, Hh, Hurl, Hu.
do 2 step. unfold open_write. cbn [py_str]. rewrite Hname. do 4 step.
erewrite bind_step; [|by apply (record_story_runs _ _ _ m d)]. cbv beta.
unfold create_sitemap_item. cbn [py_slice19 rbind ok eval py_str]. unfold ret.
unfold item_of, entry_of, field_str, field. rewrite Ha, Hc, Hh, Hurl, Hu. reflexivity.
Qed.

Lemma save_stories_runs l items s m d :
forallb story_wf l = true →
forallb (fun story => file_name (field_str "anchor" story)) l = true →
meta_object (eng s) = Some m → mo_stories m = Some d →
∃ lg, save_stories l items s
      = Ok (items_of l items)
           (State (set_meta_object (Some (with_stories (record_all l d) m)) (eng s))
                  (write_stories l (dsk s)) lg).
Proof.
revert items s m d. induction l as [|story l IH]; intros items s m d Hwf Hnames Hm Hd.
- destruct s as [[] ? ?], m. simpl in *. subst. unfold with_stories. simpl. eauto.
- simpl in Hwf. apply andb_true_iff in Hwf as [Hstory Hwf].
  simpl in Hnames. apply andb_true_iff in Hnames as [Hname Hnames].
  destruct (save_story_runs story s m d Hstory Hname Hm Hd) as [lg Hstep].
  match type of Hstep with _ = Ok _ ?s1 =>
    destruct (IH (items ++ item_of story) s1
                 (with_stories (dict_set (field "anchor" story) (entry_of story) d) m)
                 (dict_set (field "anchor" story) (entry_of story) d) Hwf Hnames eq_refl eq_refl)
      as [lg' Hrest]
  end.
  exists lg'. cbn [save_stories]. step. rewrite Hrest. by destruct m.
Qed.

Lemma old_checksum_inv mfc c :
old_checksum mfc = Some c →
∃ kv, mfc = JObj kv ∧ assoc "checksum" kv = Some (JStr c) ∧ truthy mfc = true.
Proof.
destruct mfc as [| | | | |kv]; try done. simpl.
destruct (assoc "checksum" kv) as [[| | |c'| |]|] eqn:Hc; try done.
intros [= ->]. exists kv. by destruct kv.
Qed.

Lemma old_checksum_none mfc :
meta_wf mfc = true → old_checksum mfc = None →
truthy mfc = false ∨ py_in "checksum" mfc = ok false.
Proof.
destruct mfc as [| | | | |kv]; try done; [by left|]. simpl.
destruct (assoc "checksum" kv) as [[| | |c'| |]|] eqn:Hc; try done.
intros _ _. right. by rewrite bool_decide_eq_false_2 by (by intros [? ?]).
Qed.

Lemma update_detected_changed s m :
meta_wf (meta_file_content (eng s)) = true →
meta_object (eng s) = Some m →
old_checksum (meta_file_content (eng s)) ≠ Some (mo_checksum m) →
update_detected s = Ok true s.
Proof.
intros Hwf Hm Hne. unfold update_detected. step.
destruct (old_checksum (meta_file_content (eng s))) as [c|] eqn:Hold.
- destruct (old_checksum_inv _ _ Hold) as (kv & Hmfc & Hc & Ht).
  rewrite Ht, Hmfc. cbn [negb py_in py_getitem]. cbv beta iota.
  rewrite Hc. rewrite bool_decide_eq_true_2 by eauto. step. cbn [negb]. cbv iota.
  step. unfold new_checksum. rewrite bind_assoc. step. rewrite Hm. step.
  unfold ret. cbn [py_eqb]. destruct (String.eqb_spec c (mo_checksum m)); [congruence|done].
- destruct (old_checksum_none _ Hwf Hold) as [Ht|Hin].
  + by rewrite Ht.
  + destruct (truthy _); [|done]. cbn [negb]. cbv iota. rewrite Hin. by step.
Qed.

Lemma create_snapshot_runs s :
meta_wf (meta_file_content (eng s)) = true →
∃ lg, create_snapshot s
      = Ok tt (State (with_snapshot (eng s))
                     (snapshot_disk (meta_file_content (eng s)) (dsk s)) lg).
Proof.
intros Hwf. unfold create_snapshot, with_snapshot, snapshot_disk.
destruct (old_checksum (meta_file_content (eng s))) as [c|] eqn:Hold.
- destruct (old_checksum_inv _ _ Hold) as (kv & Hmfc & Hc & Ht).
  unfold ensure_dir.
  destruct (bin (dsk s) !! c) eqn:Hdir; eexists; step; rewrite Ht, Hmfc;
    cbn [py_in py_getitem]; cbv beta iota;
    rewrite Hc; rewrite bool_decide_eq_true_2 by eauto; do 4 step;
    unfold check_dir; rewrite bind_assoc; step; rewrite Hdir;
    rewrite bind_assoc; do 2 step; reflexivity.
- destruct s as [e k lg]. cbn [eng dsk] in *. exists lg. step.
  destruct (old_checksum_none _ Hwf Hold) as [Ht|Hin].
  + rewrite Ht. by step.
  + destruct (truthy _); [rewrite Hin|]; by step.
Qed.

Lemma story_wf_entry_wf story : story_wf story = true → entry_wf story = true.
Proof.
intros Hwf. destruct (story_wf_inv _ Hwf) as (kv & a & text & stamp & h & url & -> & H).
simpl. apply bool_decide_eq_true. exists h. tauto.
Qed.

Lemma index_stories_wf l d :
forallb story_wf l = true → dict_wf d → dict_wf (index_stories l d).
Proof.
revert d. induction l as [|story l IH]; intros d Hwf Hd; [done|].
simpl in Hwf. apply andb_true_iff in Hwf as [Hstory Hwf].
apply IH; [done|]. apply map_Forall_insert_2; [|done]. by apply story_wf_entry_wf.
Qed.

Lemma ensure_dir_some d k : is_Some (bin (ensure_dir d k) !! d).
Proof.
unfold ensure_dir. destruct (bin k !! d) eqn:Hd; [by rewrite Hd|].
simpl. rewrite lookup_insert_eq. eauto.
Qed.

Lemma bin_ready_snapshot data now e k :
(old_checksum (meta_file_content e) = None → bin_ready e k) →
bin_ready (reconciling data now e) (snapshot_disk (meta_file_content e) k).
Proof.
intros Hready d. unfold reconciling, with_snapshot, snapshot_disk. cbn [after_validate meta_file_content].
destruct (old_checksum (meta_file_content e)) as [c|].
- intros [= <-]. apply ensure_dir_some.
- by apply Hready.
Qed.

Lemma write_stories_bin l k : bin (write_stories l k) = bin k.
Proof. revert k. induction l as [|story l IH]; intros k; [done|]. simpl. by rewrite IH. Qed.

Lemma sync_stories_runs s data m :
remote_data (eng s) = data → document_wf data = true → writable data = true →
meta_object (eng s) = Some m →
meta_wf (meta_file_content (eng s)) = true →
dict_wf (story_dictonary (eng s)) →
bin_ready (eng s) (dsk s) →
∃ lg, sync_stories s
      = Ok tt (State (set_meta_object
                        (Some (with_stories (record_all (stories_of data) []) m)) (eng s))
                     (write_file "sitemap.xml"
                        (sitemap_content (items_of (stories_of data) EmptyString))
                        (write_stories (stories_of data)
                           (clean_disk (eng s) (listdir (www (dsk s))) (dsk s))))
                     lg).
Proof.
intros Hdata Hwf Hnames Hm Hmeta Hdict Hready.
destruct (document_wf_inv _ Hwf) as (kv & page & Hkv & _ & _ & Hs & Hst & _).
destruct (clean_local_storage_runs s Hmeta Hdict Hready) as [lg1 Hclean].
match type of Hclean with _ = Ok _ ?s1 =>
  destruct (save_stories_runs (stories_of data) EmptyString
              (State (set_meta_object (Some (with_stories [] m)) (eng s1)) (dsk s1) (log s1))
              (with_stories [] m) [] Hst Hnames eq_refl eq_refl) as [lg2 Hsave]
end.
eexists. unfold sync_stories. step.
unfold reset_stories. rewrite bind_assoc. step. rewrite Hm. step. step.
cbn [remote_data set_meta_object]. rewrite Hdata, Hkv.
unfold py_getitem. rewrite Hs. cbn [rbind ok py_iter]. step.
rewrite <- Hkv. step. unfold build_sitemap. step.
unfold mod_dsk. cbn [eng dsk log]. by destruct m.
Qed.

Lemma save_error_page_runs s data :
remote_data (eng s) = data → document_wf data = true →
∃ lg, save_error_page s
      = Ok true (State (eng s)
                       (write_file "error.html" (field_str "error_page" data) (dsk s)) lg).
Proof.
intros Hdata Hwf.
destruct (document_wf_inv _ Hwf) as (kv & page & Hkv & _ & Hpage & _).
eexists. unfold save_error_page. step. rewrite Hdata, Hkv.
assert (truthy (JObj kv) = true) as -> by (by destruct kv).
cbn [py_in py_getitem]. rewrite Hpage. rewrite bool_decide_eq_true_2 by eauto.
do 2 step. unfold open_write. change (file_name "error.html") with true. cbv iota. step.
unfold ret, field_str, field. by rewrite Hpage.
Qed.

Lemma save_meta_runs s m :
meta_object (eng s) = Some m →
bin_ready (eng s) (dsk s) →
∃ lg, save_meta s
      = Ok true (State (eng s) (write_meta (dumped_meta m) (archive_meta (eng s) (dsk s))) lg).
Proof.
intros Hm Hready. unfold save_meta, archive_meta.
destruct (bin_path (eng s)) as [d|] eqn:Hd.
- destruct (Hready d Hd) as [dir Hdir].
  destruct (meta_file (dsk s)) as [old|] eqn:Hold.
  + eexists. do 2 step. rewrite Hm. step. rewrite Hd, Hold.
    rewrite bind_assoc. step. unfold os_rename_meta. rewrite bind_assoc. step.
    rewrite Hdir. do 2 step. reflexivity.
  + eexists. do 2 step. rewrite Hm. step. rewrite Hd, Hold. do 2 step. reflexivity.
- eexists. do 2 step. rewrite Hm. step. rewrite Hd. do 2 step. reflexivity.
Qed.

Lemma rendered_bin data now e k :
bin (rendered data now e k) = bin (reconciled data now e k).
Proof. unfold rendered. cbn [write_file bin]. apply write_stories_bin. Qed.

Lemma bin_ready_rendered data now e k :
(old_checksum (meta_file_content e) = None → bin_ready e k) →
bin_ready (synced_engine data now e) (rendered data now e k).
Proof.
intros Hready d Hd. rewrite rendered_bin. apply clean_disk_bin_some.
by apply (bin_ready_snapshot data now e k Hready).
Qed.

(** A changed cycle on well-formed data runs to its end, returns [False]
  and leaves [synced_engine] and [synced_disk]. *)
Lemma sync_changed_runs r now s data :
code r = 200 → body r = Json data → document_wf data = true → writable data = true →
meta_wf (meta_file_content (eng s)) = true →
old_checksum (meta_file_content (eng s)) ≠ Some (sha256_dumps data) →
dict_wf (story_dictonary (eng s)) →
(old_checksum (meta_file_content (eng s)) = None → bin_ready (eng s) (dsk s)) →
∃ lg, sync (Response r) now s
      = Ok false (State (synced_engine data now (eng s))
                        (synced_disk data now (eng s) (dsk s)) lg).
Proof.
intros Hcode Hbody Hwf Hnames Hmeta Hne Hdict Hready.
destruct (validate_runs r now (State (eng s) (dsk s) (log s ++ [(DEBUG, ContentSync)]))
            data Hcode Hbody Hwf) as [lg1 Hvalid].
cbn [eng dsk] in Hvalid.
set (m0 := Meta (sha256_dumps data) (field "title" data) (field "entity" data)
                (field "homepage_url" data) now None).
assert (update_detected (State (after_validate data now (eng s)) (dsk s) lg1)
        = Ok true (State (after_validate data now (eng s)) (dsk s) lg1)) as Hchanged.
{ by apply (update_detected_changed _ m0). }
destruct (create_snapshot_runs
            (State (after_validate data now (eng s)) (dsk s)
                   (lg1 ++ [(DEBUG, UpdateDetected (sha256_dumps data))])) Hmeta)
  as [lg2 Hsnap].
cbn [eng dsk after_validate meta_file_content] in Hsnap.
fold (after_validate data now (eng s)) in Hsnap.
fold (reconciling data now (eng s)) in Hsnap.
destruct (document_wf_inv _ Hwf) as (kv & page & Hkv & _ & _ & _ & Hst & _).
destruct (sync_stories_runs
            (State (reconciling data now (eng s))
                   (snapshot_disk (meta_file_content (eng s)) (dsk s)) lg2) data m0)
  as [lg3 Hstories]; try done.
{ unfold reconciling, with_snapshot. cbn. by destruct (old_checksum _). }
{ unfold reconciling, with_snapshot. cbn. by destruct (old_checksum _). }
{ unfold reconciling, with_snapshot. cbn. by destruct (old_checksum _). }
{ unfold reconciling, with_snapshot. cbn [eng after_validate meta_file_content].
  assert (dict_wf (index_stories (stories_of data) (story_dictonary (eng s)))) as Hd'
    by by apply index_stories_wf.
  by destruct (old_checksum _). }
{ by apply bin_ready_snapshot. }
cbn [eng dsk] in Hstories.
fold (reconciled data now (eng s) (dsk s)) in Hstories.
match type of Hstories with _ = Ok _ ?s3 =>
  destruct (save_error_page_runs s3 data) as [lg4 Hpage]; [|done|]
end.
{ unfold reconciling, with_snapshot. cbn. by destruct (old_checksum _). }
cbn [eng dsk] in Hpage.
fold (rendered data now (eng s) (dsk s)) in Hpage.
match type of Hpage with _ = Ok _ ?s4 =>
  destruct (save_meta_runs s4 (new_meta data now)) as [lg5 Hsave]
end.
{ done. }
{ apply (bin_ready_rendered data now (eng s) (dsk s) Hready). }
cbn [eng dsk] in Hsave.
assert (new_checksum (State (after_validate data now (eng s)) (dsk s) lg1)
        = Ok (sha256_dumps data) (State (after_validate data now (eng s)) (dsk s) lg1))
  as Hnew by reflexivity.
eexists. unfold sync. do 4 step.
repeat (rewrite ?bind_assoc; step).
reflexivity.
Qed.

(** ** The disk after a changed cycle *)

Lemma write_stories_www l k g :
www (write_stories l k) !! g =
match find_story g l with
| Some story => Some (field_str "content" story)
| None => www k !! g
end.
Proof.
revert k. induction l as [|story l IH]; intros k; [done|].
change (write_stories (story :: l) k)
  with (write_stories l (write_file (field_str "anchor" story)
                                    (field_str "content" story) k)).
rewrite IH. cbn [find_story]. destruct (find_story g l); [done|].
cbn [write_file www]. destruct (String.eqb_spec (field_str "anchor" story) g) as [->|Hne].
- by rewrite lookup_insert_eq.
- by rewrite lookup_insert_ne.
Qed.

Lemma index_stories_lookup l d g :
index_stories l d !! g =
match find_story g l with
| Some story => Some story
| None => d !! g
end.
Proof.
revert d. induction l as [|story l IH]; intros d; [done|].
change (index_stories (story :: l) d)
  with (index_stories l (<[field_str "anchor" story := story]> d)).
rewrite IH. cbn [find_story]. destruct (find_story g l); [done|].
destruct (String.eqb_spec (field_str "anchor" story) g) as [->|Hne].
- by rewrite lookup_insert_eq.
- by rewrite lookup_insert_ne.
Qed.

Lemma snapshot_disk_www mfc k : www (snapshot_disk mfc k) = www k.
Proof.
unfold snapshot_disk, ensure_dir. destruct (old_checksum mfc); [|done].
by destruct (bin k !! _).
Qed.

Lemma snapshot_disk_archived mfc k d f :
archived (snapshot_disk mfc k) d f = archived k d f.
Proof.
unfold snapshot_disk, ensure_dir, archived. destruct (old_checksum mfc) as [c|]; [|done].
destruct (bin k !! c) eqn:Hc; [done|]. cbn [mkdir bin].
destruct (decide (c = d)) as [->|Hne].
- by rewrite lookup_insert_eq, Hc.
- by rewrite lookup_insert_ne.
Qed.

(** The live files after a changed cycle: the two rendered files, then the
  stories of the document, then what reconciliation left. *)
Lemma synced_disk_www data now e k g :
g ≠ "error.html" → g ≠ "sitemap.xml" →
www (synced_disk data now e k) !! g =
match find_story g (stories_of data) with
| Some story => Some (field_str "content" story)
| None => www (reconciled data now e k) !! g
end.
Proof.
intros He Hs. unfold synced_disk. cbn [write_meta www].
assert (∀ k', www (archive_meta (reconciling data now e) k') = www k') as ->.
{ intros k'. unfold archive_meta. by repeat case_match. }
unfold rendered. cbn [write_file www].
rewrite !lookup_insert_ne by done. apply write_stories_www.
Qed.


(** The snapshot directories after a changed cycle hold, apart from the old
  Meta file, what reconciliation moved there. *)
Lemma synced_disk_archived data now e k d g :
g ≠ "meta.json" →
archived (synced_disk data now e k) d g = archived (reconciled data now e k) d g.
Proof.
intros Hg. unfold synced_disk, archived. cbn [write_meta bin].
rewrite <- rendered_bin. unfold archive_meta.
destruct (bin_path _) as [d'|]; [|done].
destruct (meta_file _); [|done].
destruct (bin (rendered data now e k) !! d') eqn:Hd'; [|done].
cbn [bin]. destruct (decide (d' = d)) as [->|Hne].
- rewrite lookup_insert_eq, Hd'. simpl. by rewrite lookup_insert_ne.
- by rewrite lookup_insert_ne.
Qed.

(** What reconciliation does with the file [f], by verdict. *)
Lemma reconciled_kept data now e k f :
verdict_of (reconciling data now e) f = Keep →
www (reconciled data now e k) !! f = www k !! f.
Proof.
intros Hv. unfold reconciled. rewrite clean_disk_kept by done.
by rewrite snapshot_disk_www.
Qed.

Lemma reconciled_moved data now e k f d text :
verdict_of (reconciling data now e) f = ToBin d →
www k !! f = Some text →
bin_ready (reconciling data now e) (snapshot_disk (meta_file_content e) k) →
www (reconciled data now e k) !! f = None ∧
archived (reconciled data now e k) d f = Some (Text text).
Proof.
intros Hv Hf Hready. unfold reconciled.
assert (bin_path (reconciling data now e) = Some d) as Hd.
{ unfold verdict_of in Hv. destruct (assoc f _); [|done].
  destruct (bin_path _) as [d'|]; [|done].
  destruct (story_dictonary _ !! f); [destruct (py_eqb _ _)|]; congruence. }
assert (f ∈ listdir (www (snapshot_disk (meta_file_content e) k))) as Hin.
{ apply elem_of_listdir. rewrite snapshot_disk_www. eauto. }
split.
- apply (clean_disk_archived _ _ _ _ d); auto using NoDup_listdir.
- apply clean_disk_moved; auto using NoDup_listdir.
  by rewrite snapshot_disk_www.
Qed.

Lemma reconciled_not_moved data now e k f d :
verdict_of (reconciling data now e) f ≠ ToBin d →
archived (reconciled data now e k) d f = archived k d f.
Proof.
intros Hv. unfold reconciled. rewrite clean_disk_not_archived by done.
apply snapshot_disk_archived.
Qed.

(** ** The journal of a changed cycle *)

Lemma apply_verdict_journal v f k :
journal (apply_verdict v f k) = (journal k ++ verdict_events v f k)%list.
Proof.
destruct v as [|d|]; simpl; [by rewrite app_nil_r| |done].
destruct (www k !! f), (bin k !! d); simpl; by rewrite ?app_nil_r.
Qed.

Lemma clean_disk_journal e l k :
journal (clean_disk e l k) = (journal k ++ clean_events e l k)%list.
Proof.
revert k. induction l as [|f l IH]; intros k; [by rewrite app_nil_r|].
rewrite clean_disk_cons, IH, apply_verdict_journal. cbn [clean_events].
by rewrite <- app_assoc.
Qed.

Lemma write_stories_journal l k :
journal (write_stories l k) = (journal k ++ story_writes l)%list.
Proof.
revert k. induction l as [|story l IH]; intros k; [by rewrite app_nil_r|].
change (write_stories (story :: l) k)
  with (write_stories l (write_file (field_str "anchor" story)
                                    (field_str "content" story) k)).
rewrite IH. cbn [write_file journal story_writes map]. by rewrite <- app_assoc.
Qed.

Lemma snapshot_disk_journal mfc k :
journal (snapshot_disk mfc k) = (journal k ++ snapshot_events mfc k)%list.
Proof.
unfold snapshot_disk, snapshot_events, ensure_dir.
destruct (old_checksum mfc) as [c|]; [|by rewrite app_nil_r].
destruct (bin k !! c); [by rewrite app_nil_r | done].
Qed.

Lemma synced_disk_journal data now e k :
journal (synced_disk data now e k) = (journal k ++ cycle_events data now e k)%list.
Proof.
unfold synced_disk, cycle_events. cbn [write_meta journal].
assert (∀ e' k', journal (archive_meta e' k') = (journal k' ++ archive_meta_events e' k')%list) as ->.
{ intros e' k'. unfold archive_meta, archive_meta_events.
  repeat case_match; simpl; by rewrite ?app_nil_r. }
unfold rendered at 1. cbn [write_file journal].
rewrite write_stories_journal. unfold reconciled.
rewrite clean_disk_journal, snapshot_disk_journal.
rewrite <- !app_assoc. reflexivity.
Qed.

Lemma clean_events_inv e l k ev :
ev ∈ clean_events e l k →
∃ f, f ∈ l ∧ ((ev = Remove f ∧ verdict_of e f = Delete) ∨
              (∃ d, ev = Archive f d ∧ verdict_of e f = ToBin d)).
Proof.
revert k. induction l as [|f l IH]; intros k; [by intros ?%elem_of_nil|].
cbn [clean_events]. intros [Hev|Hev]%elem_of_app.
- exists f. split; [left|].
  destruct (verdict_of e f) as [|d|] eqn:Hv; simpl in Hev.
  + by apply elem_of_nil in Hev.
  + right. exists d. destruct (www k !! f), (bin k !! d);
      first [by apply elem_of_nil in Hev | by apply list_elem_of_singleton in Hev as ->].
  + left. by apply list_elem_of_singleton in Hev as ->.
- destruct (IH _ Hev) as (g & Hg & H). exists g. split; [by right | done].
Qed.

Lemma clean_events_removed e l k f :
f ∈ l → verdict_of e f = Delete → Remove f ∈ clean_events e l k.
Proof.
revert k. induction l as [|g l IH]; intros k Hin Hv; [by apply elem_of_nil in Hin|].
cbn [clean_events]. apply elem_of_app. apply elem_of_cons in Hin as [->|Hin].
- left. rewrite Hv. by left.
- right. by apply IH.
Qed.



Lemma cycle_events_write data now e k story :
story ∈ stories_of data →
Write (field_str "anchor" story) (field_str "content" story)
  ∈ cycle_events data now e k.
Proof.
intros Hin. unfold cycle_events. rewrite !elem_of_app. right. right. left.
unfold story_writes. apply list_elem_of_fmap. eauto.
Qed.

(** ** The story dictionary is never cleared *)

#[local] Instance same_dict_refl : Reflexive same_dict.
Proof. by intros s. Qed.
#[local] Instance same_dict_trans : Transitive same_dict.
Proof. unfold same_dict. intros s1 s2 s3 H1 H2. congruence. Qed.

Lemma same_dict_logger l m : respects same_dict (logger l m).
Proof. by intros s. Qed.
Lemma same_dict_mod_dsk f : respects same_dict (mod_dsk f).
Proof. by intros s. Qed.
Lemma same_dict_set_meta_object m : respects same_dict (mod_eng (set_meta_object m)).
Proof. by intros s. Qed.
Lemma same_dict_set_bin_path p : respects same_dict (mod_eng (set_bin_path p)).
Proof. by intros s. Qed.
Lemma same_dict_set_meta_file_content v : respects same_dict (mod_eng (set_meta_file_content v)).
Proof. by intros s. Qed.

Ltac keeps_dict :=
repeat first
  [ assumption
  | apply same_dict_logger
  | apply same_dict_mod_dsk
  | apply same_dict_set_meta_object
  | apply same_dict_set_bin_path
  | apply same_dict_set_meta_file_content
  | frame_step ].

Lemma same_dict_clean_file f : respects same_dict (clean_file f).
Proof. unfold clean_file, os_rename, os_remove. keeps_dict. Qed.

Lemma same_dict_foreach {A} (body : A → M unit) l :
(∀ x, respects same_dict (body x)) → respects same_dict (foreach body l).
Proof. intros Hbody. induction l as [|x l IH]; simpl; keeps_dict. Qed.

Lemma same_dict_save_stories l items : respects same_dict (save_stories l items).
Proof.
revert items. induction l as [|story l IH]; intros items; simpl; [keeps_dict|].
unfold save_story, open_write, record_story. keeps_dict.
Qed.

Lemma same_dict_sync_stories : respects same_dict sync_stories.
Proof.
pose proof same_dict_clean_file.
unfold sync_stories, clean_local_storage, reset_stories, build_sitemap.
keeps_dict; [by apply same_dict_foreach | apply same_dict_save_stories].
Qed.


Lemma same_dict_after_validation : respects same_dict after_validation.
Proof.
pose proof same_dict_sync_stories.
unfold after_validation, update_detected, new_checksum, create_snapshot, check_dir,
  save_error_page, open_write, save_meta, os_rename_meta.
keeps_dict.
Qed.


(** ** Changed cycles *)

Lemma read_meta_runs s :
meta_file (dsk s) ≠ Some Malformed →
∃ lg, read_meta s = Ok (local_meta (dsk s)) (State (eng s) (dsk s) lg).
Proof.
intros Hfile. unfold read_meta, local_meta.
destruct s as [e k lg]. cbn [dsk eng] in *.
destruct (meta_file k) as [[v|]|] eqn:Hk; [| done |];
  eexists; step; cbn [dsk]; rewrite Hk; [|step]; reflexivity.
Qed.

Lemma cycle_changed_runs r now s data :
well_formed_cycle s r data → writable data = true → changed s data →
∃ lg, cycle (Response r) now s
      = Ok false (State (synced_engine data now (starting s))
                        (synced_disk data now (starting s) (dsk s)) lg).
Proof.
intros (Hcode & Hbody & Hwf & Hfile & Hmeta & Hdict & Hready) Hnames Hchanged.
destruct (read_meta_runs s Hfile) as [lg1 Hread].
destruct (sync_changed_runs r now
            (State (starting s) (dsk s) lg1) data) as [lg Hsync]; try done.
exists lg. unfold cycle. do 2 step. exact Hsync.
Qed.

(** ** A changed cycle that stops at an anchor that is not a file name *)

Lemma written_all l :
forallb (fun story => file_name (field_str "anchor" story)) l = true → written l = l.
Proof.
induction l as [|story l IH]; [done|]. simpl.
intros [-> Hl]%andb_true_iff. by rewrite IH.
Qed.

Lemma save_story_stops story s :
story_wf story = true → file_name (field_str "anchor" story) = false →
∃ e lg, save_story story s = Exn e (State (eng s) (dsk s) lg).
Proof.
intros Hwf Hname.
destruct (story_wf_inv _ Hwf)
  as (kv & a & text & stamp & h & url & -> & Hf & Ha & Hc & Hu & Hh & Hurl).
unfold field_str, field in Hname. rewrite Ha in Hname. simpl in Hname.
eexists _, _. unfold save_story, py_getitem. rewrite Ha.
do 2 step. unfold open_write. cbn [py_str]. rewrite Hname. reflexivity.
Qed.

Lemma save_stories_stops l items s m d :
forallb story_wf l = true →
forallb (fun story => file_name (field_str "anchor" story)) l = false →
meta_object (eng s) = Some m → mo_stories m = Some d →
∃ e s', save_stories l items s = Exn e s' ∧
        dsk s' = write_stories (written l) (dsk s) ∧
        story_dictonary (eng s') = story_dictonary (eng s).
Proof.
revert items s m d. induction l as [|story l IH]; intros items s m d Hwf Hnames Hm Hd.
- discriminate.
- simpl in Hwf. apply andb_true_iff in Hwf as [Hstory Hwf].
  cbn [forallb] in Hnames. cbn [written save_stories].
  destruct (file_name (field_str "anchor" story)) eqn:Hname.
  + destruct (save_story_runs story s m d Hstory Hname Hm Hd) as [lg Hstep].
    match type of Hstep with _ = Ok _ ?s1 =>
      destruct (IH (items ++ item_of story) s1
                   (with_stories (dict_set (field "anchor" story) (entry_of story) d) m)
                   (dict_set (field "anchor" story) (entry_of story) d) Hwf Hnames
                   eq_refl eq_refl)
        as (e & s' & Hrest & Hdisk & Hdict)
    end.
    exists e, s'. split; [step; exact Hrest | done].
  + destruct (save_story_stops story s Hstory Hname) as (e & lg & Hstop).
    exists e, (State (eng s) (dsk s) lg). split; [|done].
    by apply bind_exn.
Qed.

Lemma sync_stories_stops s data m :
remote_data (eng s) = data → document_wf data = true → writable data = false →
meta_object (eng s) = Some m →
meta_wf (meta_file_content (eng s)) = true →
dict_wf (story_dictonary (eng s)) →
bin_ready (eng s) (dsk s) →
∃ e s', sync_stories s = Exn e s' ∧
        dsk s' = write_stories (written (stories_of data))
                   (clean_disk (eng s) (listdir (www (dsk s))) (dsk s)) ∧
        story_dictonary (eng s') = story_dictonary (eng s).
Proof.
intros Hdata Hwf Hnames Hm Hmeta Hdict Hready.
destruct (document_wf_inv _ Hwf) as (kv & page & Hkv & _ & _ & Hs & Hst & _).
destruct (clean_local_storage_runs s Hmeta Hdict Hready) as [lg1 Hclean].
match type of Hclean with _ = Ok _ ?s1 =>
  destruct (save_stories_stops (stories_of data) EmptyString
              (State (set_meta_object (Some (with_stories [] m)) (eng s1)) (dsk s1) (log s1))
              (with_stories [] m) [] Hst Hnames eq_refl eq_refl)
    as (e & s' & Hsave & Hdisk & Hsame)
end.
exists e, s'. split; [|done].
unfold sync_stories. step.
unfold reset_stories. rewrite bind_assoc. step. rewrite Hm. step. step.
cbn [remote_data set_meta_object]. rewrite Hdata, Hkv.
unfold py_getitem. rewrite Hs. cbn [rbind ok py_iter]. step.
by apply bind_exn.
Qed.

Lemma sync_changed_stops r now s data :
code r = 200 → body r = Json data → document_wf data = true → writable data = false →
meta_wf (meta_file_content (eng s)) = true →
old_checksum (meta_file_content (eng s)) ≠ Some (sha256_dumps data) →
dict_wf (story_dictonary (eng s)) →
(old_checksum (meta_file_content (eng s)) = None → bin_ready (eng s) (dsk s)) →
∃ e s', sync (Response r) now s = Exn e s' ∧
        dsk s' = stopped_disk data now (eng s) (dsk s) ∧
        story_dictonary (eng s') = index_stories (stories_of data) (story_dictonary (eng s)).
Proof.
intros Hcode Hbody Hwf Hnames Hmeta Hne Hdict Hready.
destruct (validate_runs r now (State (eng s) (dsk s) (log s ++ [(DEBUG, ContentSync)]))
            data Hcode Hbody Hwf) as [lg1 Hvalid].
cbn [eng dsk] in Hvalid.
set (m0 := Meta (sha256_dumps data) (field "title" data) (field "entity" data)
                (field "homepage_url" data) now None).
assert (update_detected (State (after_validate data now (eng s)) (dsk s) lg1)
        = Ok true (State (after_validate data now (eng s)) (dsk s) lg1)) as Hchanged.
{ by apply (update_detected_changed _ m0). }
destruct (create_snapshot_runs
            (State (after_validate data now (eng s)) (dsk s)
                   (lg1 ++ [(DEBUG, UpdateDetected (sha256_dumps data))])) Hmeta)
  as [lg2 Hsnap].
cbn [eng dsk after_validate meta_file_content] in Hsnap.
fold (after_validate data now (eng s)) in Hsnap.
fold (reconciling data now (eng s)) in Hsnap.
destruct (document_wf_inv _ Hwf) as (kv & page & Hkv & _ & _ & _ & Hst & _).
destruct (sync_stories_stops
            (State (reconciling data now (eng s))
                   (snapshot_disk (meta_file_content (eng s)) (dsk s)) lg2) data m0)
  as (e & s' & Hstories & Hdisk & Hsame); try done.
{ unfold reconciling, with_snapshot. cbn. by destruct (old_checksum _). }
{ unfold reconciling, with_snapshot. cbn. by destruct (old_checksum _). }
{ unfold reconciling, with_snapshot. cbn. by destruct (old_checksum _). }
{ unfold reconciling, with_snapshot. cbn [eng after_validate meta_file_content].
  assert (dict_wf (index_stories (stories_of data) (story_dictonary (eng s)))) as Hd'
    by by apply index_stories_wf.
  by destruct (old_checksum _). }
{ by apply bin_ready_snapshot. }
cbn [eng dsk] in Hdisk, Hsame.
assert (new_checksum (State (after_validate data now (eng s)) (dsk s) lg1)
        = Ok (sha256_dumps data) (State (after_validate data now (eng s)) (dsk s) lg1))
  as Hnew by reflexivity.
exists e, s'. split; [|split].
- unfold sync. do 4 step.
  repeat (rewrite ?bind_assoc; step).
  rewrite ?bind_assoc. by apply bind_exn.
- exact Hdisk.
- rewrite Hsame. unfold reconciling, with_snapshot. cbn. by destruct (old_checksum _).
Qed.

Lemma cycle_changed_stops r now s data :
well_formed_cycle s r data → writable data = false → changed s data →
∃ e s', cycle (Response r) now s = Exn e s' ∧
        dsk s' = stopped_disk data now (starting s) (dsk s) ∧
        story_dictonary (eng s') = index_stories (stories_of data) (story_dictonary (eng s)).
Proof.
intros (Hcode & Hbody & Hwf & Hfile & Hmeta & Hdict & Hready) Hnames Hchanged.
destruct (read_meta_runs s Hfile) as [lg1 Hread].
destruct (sync_changed_stops r now
            (State (starting s) (dsk s) lg1) data) as (e & s' & Hsync & Hdisk & Hsame); try done.
exists e, s'. split; [|done]. unfold cycle. do 2 step. exact Hsync.
Qed.

(** The state a changed cycle on well-formed data leaves, whether it
  completes or stops. *)
Lemma cycle_changed_final r now s data :
well_formed_cycle s r data → changed s data →
dsk (final (cycle (Response r) now s)) = final_disk data now (starting s) (dsk s) ∧
story_dictonary (eng (final (cycle (Response r) now s)))
= index_stories (stories_of data) (story_dictonary (eng s)).
Proof.
intros Hwf Hchanged. unfold final_disk.
destruct (writable data) eqn:Hnames.
- destruct (cycle_changed_runs r now s data Hwf Hnames Hchanged) as [lg ->].
  cbn [final dsk eng]. split; [done|].
  unfold synced_engine. cbn [set_meta_object story_dictonary].
  unfold reconciling, with_snapshot. cbn. by destruct (old_checksum _).
- by destruct (cycle_changed_stops r now s data Hwf Hnames Hchanged) as (e & s' & -> & ? & ?).
Qed.





Lemma reconciling_meta_file_content data now e :
meta_file_content (reconciling data now e) = meta_file_content e.
Proof. unfold reconciling, with_snapshot. cbn. by destruct (old_checksum _). Qed.

Lemma reconciling_story_dictonary data now e :
story_dictonary (reconciling data now e)
= index_stories (stories_of data) (story_dictonary e).
Proof. unfold reconciling, with_snapshot. cbn. by destruct (old_checksum _). Qed.

Lemma reconciling_bin_path data now e c :
old_checksum (meta_file_content e) = Some c →
bin_path (reconciling data now e) = Some c.
Proof. intros Hc. unfold reconciling, with_snapshot. cbn. by rewrite Hc. Qed.

(** The verdict on [f] in a cycle that has a previous checksum [c]. *)
Lemma verdict_of_reconciling data now e c f :
old_checksum (meta_file_content e) = Some c →
verdict_of (reconciling data now e) f =
match assoc f (meta_stories (meta_file_content e)) with
| None => Delete
| Some entry =>
    match find_story f (stories_of data) with
    | Some story =>
        if py_eqb (field "hash" story) (field "hash" entry) then Keep else ToBin c
    | None =>
        match story_dictonary e !! f with
        | Some story =>
            if py_eqb (field "hash" story) (field "hash" entry) then Keep else ToBin c
        | None => ToBin c
        end
    end
end.
Proof.
intros Hc. unfold verdict_of.
rewrite reconciling_meta_file_content, reconciling_story_dictonary,
  (reconciling_bin_path _ _ _ _ Hc), index_stories_lookup.
destruct (assoc f _); [|done].
by destruct (find_story f _).
Qed.

(** C3, as amended.  A story file that the local Meta tracks with one hash
  and the document carries with another hash is, in a changed cycle with
  a previous checksum on well-formed inputs whose anchors are file names,
  moved into the snapshot directory named by that checksum, and the live
  file of that name holds the content of the new story afterwards, for
  every anchor other than the names of the files the engine renders or
  archives itself. *)
Theorem changed_story_archived_and_rewritten s r now data c a entry story old :
well_formed_cycle s r data → writable data = true →
old_checksum (local_meta (dsk s)) = Some c → c ≠ sha256_dumps data →
assoc a (meta_stories (local_meta (dsk s))) = Some entry →
find_story a (stories_of data) = Some story →
py_eqb (field "hash" story) (field "hash" entry) = false →
www (dsk s) !! a = Some old →
a ≠ "sitemap.xml" → a ≠ "error.html" → a ≠ "meta.json" →
∃ s', cycle (Response r) now s = Ok false s' ∧
      archived (dsk s') c a = Some (Text old) ∧
      www (dsk s') !! a = Some (field_str "content" story).
Proof.
intros Hwf Hnames Hold Hne Hentry Hstory Hhash Hfile Hs He Hm.
destruct (cycle_changed_runs r now s data Hwf Hnames) as [lg Hrun].
{ unfold changed. rewrite Hold. congruence. }
eexists. split; [exact Hrun|]. cbn [dsk].
assert (verdict_of (reconciling data now (starting s)) a = ToBin c) as Hv.
{ rewrite (verdict_of_reconciling _ _ _ c) by done.
  change (meta_file_content (starting s)) with (local_meta (dsk s)).
  by rewrite Hentry, Hstory, Hhash. }
destruct Hwf as (_ & _ & _ & _ & _ & _ & Hready).
destruct (reconciled_moved data now (starting s) (dsk s) a c old Hv Hfile) as [_ Harch].
{ apply bin_ready_snapshot. unfold starting. cbn. congruence. }
split.
- by rewrite synced_disk_archived.
- by rewrite synced_disk_www, Hstory.
Qed.

(** C5.  Reconciliation deletes a file of the content directory whose name
  is not in the story set of the local Meta: the file is gone, a [Remove]
  is journalled for it, and no snapshot directory receives it. *)
Theorem untracked_file_deleted s f text :
meta_wf (meta_file_content (eng s)) = true →
dict_wf (story_dictonary (eng s)) →
bin_ready (eng s) (dsk s) →
www (dsk s) !! f = Some text →
assoc f (meta_stories (meta_file_content (eng s))) = None →
∃ s' evs, clean_local_storage s = Ok tt s' ∧
          www (dsk s') !! f = None ∧
          (∀ d, archived (dsk s') d f = archived (dsk s) d f) ∧
          journal (dsk s') = (journal (dsk s) ++ evs)%list ∧
          Remove f ∈ evs ∧ (∀ d, Archive f d ∉ evs).
Proof.
intros Hmeta Hdict Hready Hfile Hentry.
destruct (clean_local_storage_runs s Hmeta Hdict Hready) as [lg Hrun].
assert (verdict_of (eng s) f = Delete) as Hv by (unfold verdict_of; by rewrite Hentry).
assert (f ∈ listdir (www (dsk s))) as Hin by (apply elem_of_listdir; eauto).
eexists _, (clean_events (eng s) (listdir (www (dsk s))) (dsk s)).
split; [exact Hrun|]. cbn [dsk]. repeat split.
- apply clean_disk_deleted; auto using NoDup_listdir.
- intros d. apply clean_disk_not_archived. by rewrite Hv.
- apply clean_disk_journal.
- by apply clean_events_removed.
- intros d Hev. apply clean_events_inv in Hev as (g & _ & [[? _]|(d' & [= -> ->] & Hv')]);
    [done | congruence].
Qed.

(** C6, as amended.  A changed cycle on well-formed inputs whose anchors
  are file names writes every story of the document to the content
  directory, under its anchor and with its content, whatever its hash; a
  file named by an anchor holds the content of the (last) story of that
  anchor afterwards, unless the sitemap or the error page is rendered
  under that name. *)
Theorem every_story_written s r now data :
well_formed_cycle s r data → writable data = true → changed s data →
∃ s' evs, cycle (Response r) now s = Ok false s' ∧
          journal (dsk s') = (journal (dsk s) ++ evs)%list ∧
          (∀ story, story ∈ stories_of data →
             Write (field_str "anchor" story) (field_str "content" story) ∈ evs) ∧
          (∀ a story, find_story a (stories_of data) = Some story →
             a ≠ "sitemap.xml" → a ≠ "error.html" →
             www (dsk s') !! a = Some (field_str "content" story)).
Proof.
intros Hwf Hnames Hchanged.
destruct (cycle_changed_runs r now s data Hwf Hnames Hchanged) as [lg Hrun].
eexists _, (cycle_events data now (starting s) (dsk s)).
split; [exact Hrun|]. cbn [dsk]. repeat split.
- apply synced_disk_journal.
- intros story Hin. by apply cycle_events_write.
- intros a story Hstory Hs He. by rewrite synced_disk_www, Hstory.
Qed.

(** ** Failing cycles *)

Lemma validate_stories_rejects good bad rest missing s :
Forall (fun story => first_missing story_required_fields story = ok None ∧
                     ∃ a, py_getitem story "anchor" = ok (JStr a)) good →
first_missing story_required_fields bad = ok (Some missing) →
∃ s', validate_stories (good ++ bad :: rest) s = Ok false s'.
Proof.
intros Hgood Hbad. revert s.
induction Hgood as [|story good [Hhas [a Ha]] Hgood IH]; intros s.
- eexists. cbn [app]. rewrite validate_stories_cons, Hbad. do 2 step. reflexivity.
- match goal with |- context [validate_stories _ ?s0] =>
    destruct (IH (State (set_story_dictonary (<[a:=story]> (story_dictonary (eng s0)))
                                             (eng s0)) (dsk s0) (log s0))) as [s' Hrest]
  end.
  exists s'. cbn [app]. rewrite validate_stories_cons, Hhas. step. rewrite Ha. step.
  cbn [hashable]. cbv iota. step. exact Hrest.
Qed.

Lemma validate_rejects r now s :
rejected r → ∃ s', validate_api_response (Some r) now s = Ok false s'.
Proof.
unfold validate_api_response.
intros [Hc|[Hb|[(data & missing & Hb & Ht & Hf)
               |(kv & good & bad & rest & missing & Hb & Ht & Hs & Hgood & Hbad)]]].
- apply Z.eqb_neq in Hc. rewrite Hc. eexists. step. reflexivity.
- rewrite Hb. destruct (code r =? 200); eexists; step; reflexivity.
- rewrite Hb, Ht. destruct (code r =? 200); [|eexists; step; reflexivity].
  eexists. step. rewrite bind_assoc, Hf. step. rewrite bind_assoc. do 2 step. reflexivity.
- rewrite Hb. destruct (code r =? 200); [|eexists; step; reflexivity].
  assert (truthy (JObj kv) = true) as -> by (destruct kv; [by simpl in Hs|done]).
  destruct (validate_stories_rejects good bad rest missing
              (State (set_remote_data (JObj kv) (eng s)) (dsk s) (log s)) Hgood Hbad)
    as [s' Hrest].
  exists s'. step. rewrite bind_assoc, Ht. step. rewrite bind_assoc.
  unfold py_getitem. rewrite Hs. cbn [rbind ok py_len py_iter]. step.
  assert ((0 <? length (good ++ bad :: rest))%nat = true) as ->
    by (rewrite length_app; simpl; apply Nat.ltb_lt; lia).
  rewrite bind_assoc. do 2 step. reflexivity.
Qed.

(** A cycle whose fetch or validation fails returns [False] and performs no
  operation on the disk. *)
Lemma sync_failure_returns net now s :
match net with
| Response r => rejected r
| HTTPError _ | URLError => True
end →
∃ s', sync net now s = Ok false s' ∧ dsk s' = dsk s.
Proof.
destruct net as [r| |]; intros Hrej.
- destruct (validate_rejects r now
              (State (eng s) (dsk s) (log s ++ [(DEBUG, ContentSync)])) Hrej) as [s' Hv].
  pose proof (validate_same_disk (Some r) now
                (State (eng s) (dsk s) (log s ++ [(DEBUG, ContentSync)]))) as Hframe.
  hnf in Hframe. rewrite Hv in Hframe. simpl in Hframe.
  eexists. split; [unfold sync; do 4 step; reflexivity|]. done.
- eexists. split; [unfold sync; step; cbn [fetch_content]; rewrite bind_assoc;
                   do 4 step; reflexivity|]. done.
- eexists. split; [unfold sync; step; cbn [fetch_content]; rewrite bind_assoc;
                   do 4 step; reflexivity|]. done.
Qed.

(** ** Stories the document no longer has *)




Lemma old_checksum_local_meta k c :
old_checksum (local_meta k) = Some c → meta_file k ≠ Some Malformed.
Proof. unfold local_meta. by destruct (meta_file k) as [[]|]. Qed.

(** On an engine whose dictionary holds nothing under the anchor (the first
  cycle of a process), a tracked story that the document no longer has is
  moved into the snapshot directory. *)
Lemma removed_story_archived s r now data c a entry old :
well_formed_cycle s r data → writable data = true →
old_checksum (local_meta (dsk s)) = Some c → c ≠ sha256_dumps data →
assoc a (meta_stories (local_meta (dsk s))) = Some entry →
find_story a (stories_of data) = None →
story_dictonary (eng s) !! a = None →
www (dsk s) !! a = Some old →
a ≠ "sitemap.xml" → a ≠ "error.html" → a ≠ "meta.json" →
∃ s', cycle (Response r) now s = Ok false s' ∧
      archived (dsk s') c a = Some (Text old) ∧
      www (dsk s') !! a = None.
Proof.
intros Hwf Hnames Hold Hne Hentry Hstory Hdict Hfile Hs He Hm.
destruct (cycle_changed_runs r now s data Hwf Hnames) as [lg Hrun].
{ unfold changed. rewrite Hold. congruence. }
eexists. split; [exact Hrun|]. cbn [dsk].
assert (verdict_of (reconciling data now (starting s)) a = ToBin c) as Hv.
{ rewrite (verdict_of_reconciling _ _ _ c) by done.
  change (meta_file_content (starting s)) with (local_meta (dsk s)).
  change (story_dictonary (starting s)) with (story_dictonary (eng s)).
  by rewrite Hentry, Hstory, Hdict. }
destruct (reconciled_moved data now (starting s) (dsk s) a c old Hv Hfile) as [Hgone Harch].
{ apply bin_ready_snapshot. unfold starting. cbn. congruence. }
split.
- by rewrite synced_disk_archived.
- by rewrite synced_disk_www, Hstory.
Qed.


Lemma first_cycle_well_formed data :
document_wf data = true → well_formed_cycle first_start (Resp 200 (Json data)) data.
Proof.
intros Hwf. by repeat split.
Qed.

(** C4.  In infinity mode a tracked story that the next document no longer
  has is not archived: after a cycle that syncs a document with the story
  [about] and a cycle that syncs a document without it, the file is still
  in the content directory and the snapshot directory does not hold it. *)
Theorem removed_story_left_in_place now1 now2 :
sha256_dumps doc_with_about ≠ sha256_dumps doc_without_about →
∃ s2, run [(reply doc_with_about, now1); (reply doc_without_about, now2)] first_start
      = Ok tt s2 ∧
      find_story "about" (stories_of doc_without_about) = None ∧
      www (dsk s2) !! "about" = Some "About us" ∧
      archived (dsk s2) (sha256_dumps doc_with_about) "about" = None.
Proof.
intros Hne.
destruct (cycle_changed_runs (Resp 200 (Json doc_with_about)) now1 first_start
            doc_with_about) as [lg1 Hrun1].
{ by apply first_cycle_well_formed. }
{ reflexivity. }
{ done. }
set (e1 := synced_engine doc_with_about now1 (starting first_start)) in *.
set (k1 := synced_disk doc_with_about now1 (starting first_start) (dsk first_start)) in *.
set (s1 := State e1 k1 lg1) in *.
assert (local_meta k1 = dumped_meta (new_meta doc_with_about now1)) as Hlocal by done.
assert (old_checksum (local_meta k1) = Some (sha256_dumps doc_with_about)) as Hold by done.
assert (www k1 !! "about" = Some "About us") as Hfile.
{ unfold k1. by rewrite synced_disk_www. }
assert (archived k1 (sha256_dumps doc_with_about) "about" = None) as Harch.
{ unfold k1. rewrite synced_disk_archived by done. by rewrite reconciled_not_moved. }
assert (well_formed_cycle s1 (Resp 200 (Json doc_without_about)) doc_without_about) as Hwf.
{ split; [reflexivity|]. split; [reflexivity|]. split; [reflexivity|].
  split; [exact (old_checksum_local_meta _ _ Hold)|].
  split; [reflexivity|]. split.
  - unfold s1, e1, synced_engine. cbn [eng set_meta_object story_dictonary].
    rewrite reconciling_story_dictonary. apply index_stories_wf; [reflexivity|].
    apply map_Forall_empty.
  - cbn [dsk s1]. rewrite Hold. discriminate. }
destruct (cycle_changed_runs (Resp 200 (Json doc_without_about)) now2 s1
            doc_without_about Hwf) as [lg2 Hrun2].
{ reflexivity. }
{ unfold changed. cbn [dsk s1]. rewrite Hold. congruence. }
eexists. split; [|split; [done|]].
{ unfold run, reply. step. step. reflexivity. }
cbn [dsk].
assert (verdict_of (reconciling doc_without_about now2 (starting s1)) "about" = Keep) as Hv.
{ rewrite (verdict_of_reconciling _ _ _ (sha256_dumps doc_with_about)) by done.
  change (meta_file_content (starting s1)) with (local_meta k1).
  rewrite Hlocal. cbn [dsk s1]. done. }
split.
- rewrite synced_disk_www by done. cbn [find_story stories_of].
  change (find_story "about" (stories_of doc_without_about)) with (@None json).
  cbv iota. by rewrite reconciled_kept.
- rewrite synced_disk_archived by done. rewrite reconciled_not_moved; [done|].
  by rewrite Hv.
Qed.

(** ** Unchanged cycles on well-formed data *)

Lemma sync_unchanged_runs r now s data :
code r = 200 → body r = Json data → document_wf data = true →
old_checksum (meta_file_content (eng s)) = Some (sha256_dumps data) →
∃ lg, sync (Response r) now s
      = Ok false (State (after_validate data now (eng s)) (dsk s) lg).
Proof.
intros Hcode Hbody Hwf Hold.
destruct (validate_runs r now (State (eng s) (dsk s) (log s ++ [(DEBUG, ContentSync)]))
            data Hcode Hbody Hwf) as [lg1 Hvalid].
cbn [eng dsk] in Hvalid.
destruct (old_checksum_inv _ _ Hold) as (kv & Hmfc & Hc & _).
set (m0 := Meta (sha256_dumps data) (field "title" data) (field "entity" data)
                (field "homepage_url" data) now None).
assert (update_detected (State (after_validate data now (eng s)) (dsk s) lg1)
        = Ok false (State (after_validate data now (eng s)) (dsk s) lg1)) as Hsame.
{ by apply (update_detected_same _ kv m0). }
eexists. unfold sync. do 4 step. repeat (rewrite ?bind_assoc; step). reflexivity.
Qed.

Lemma cycle_unchanged_runs r now s data :
code r = 200 → body r = Json data → document_wf data = true →
old_checksum (local_meta (dsk s)) = Some (sha256_dumps data) →
∃ lg, cycle (Response r) now s
      = Ok false (State (after_validate data now (starting s)) (dsk s) lg).
Proof.
intros Hcode Hbody Hwf Hold.
destruct (read_meta_runs s (old_checksum_local_meta _ _ Hold)) as [lg1 Hread].
destruct (sync_unchanged_runs r now (State (starting s) (dsk s) lg1) data)
  as [lg Hsync]; try done.
exists lg. unfold cycle. do 2 step. exact Hsync.
Qed.

(** ** The Meta a changed cycle writes *)

Lemma assoc_obj_set a k v kv :
assoc a (obj_set k v kv) = if String.eqb a k then Some v else assoc a kv.
Proof.
induction kv as [|[k' v'] kv IH]; simpl; [done|].
destruct (String.eqb_spec k' k) as [->|Hne]; simpl.
- by destruct (String.eqb a k).
- rewrite IH. destruct (String.eqb_spec a k') as [->|]; [|done].
  by destruct (String.eqb_spec k' k).
Qed.

Lemma obj_set_fresh k v kv : k ∉ kv.*1 → obj_set k v kv = (kv ++ [(k, v)])%list.
Proof.
induction kv as [|[k' v'] kv IH]; simpl; [done|].
intros [Hne Hk]%not_elem_of_cons.
destruct (String.eqb_spec k' k) as [->|_]; [done|]. by rewrite IH.
Qed.

Lemma obj_set_known k v kv : k ∈ kv.*1 → (obj_set k v kv).*1 = kv.*1.
Proof.
induction kv as [|[k' v'] kv IH]; simpl; [by intros ?%elem_of_nil|].
intros Hk. destruct (String.eqb_spec k' k) as [->|Hne]; [done|].
simpl. f_equal. apply IH. apply elem_of_cons in Hk as [->|Hk]; done.
Qed.

Lemma NoDup_obj_set k v kv : NoDup kv.*1 → NoDup (obj_set k v kv).*1.
Proof.
intros Hnd. destruct (decide (k ∈ kv.*1)) as [Hk|Hk].
- by rewrite obj_set_known.
- rewrite obj_set_fresh, fmap_app by done. simpl.
  apply NoDup_app. split; [done|]. split; [|apply NoDup_singleton].
  intros k' Hk' ->%list_elem_of_singleton. done.
Qed.

Lemma dict_set_str_keyed k v kv :
dict_set (JStr k) v (str_keyed kv) = str_keyed (obj_set k v kv).
Proof.
induction kv as [|[k' v'] kv IH]; simpl; [done|].
destruct (String.eqb k' k); simpl; [done|]. by rewrite IH.
Qed.

Lemma dumped_stories_str_keyed kv : NoDup kv.*1 → dumped_stories (str_keyed kv) = kv.
Proof.
unfold dumped_stories.
assert (∀ acc, NoDup ((acc ++ kv)%list).*1 →
          fold_left (fun acc p => obj_set (dump_key (fst p)) (snd p) acc) (str_keyed kv) acc
          = (acc ++ kv)%list) as Hgen.
{ induction kv as [|[k v] kv IH]; intros acc Hnd; simpl; [by rewrite app_nil_r|].
  rewrite obj_set_fresh.
  - rewrite IH; rewrite <- app_assoc; done.
  - rewrite fmap_app in Hnd. apply NoDup_app in Hnd as (_ & Hd & _).
    intros Hk. apply (Hd k Hk). left. }
intros Hnd. by rewrite Hgen.
Qed.

Lemma story_wf_anchor story :
story_wf story = true → field "anchor" story = JStr (field_str "anchor" story).
Proof.
intros Hwf. destruct (story_wf_inv _ Hwf) as (kv & a & text & stamp & h & url & -> & _ & Ha & _).
unfold field_str, field. by rewrite Ha.
Qed.

Lemma record_all_str_keyed l kv :
forallb story_wf l = true →
record_all l (str_keyed kv) = str_keyed (entries_of l kv).
Proof.
revert kv. induction l as [|story l IH]; intros kv Hwf; [done|].
simpl in Hwf. apply andb_true_iff in Hwf as [Hstory Hwf].
simpl. rewrite (story_wf_anchor _ Hstory), dict_set_str_keyed. by apply IH.
Qed.

Lemma NoDup_entries_of l kv : NoDup kv.*1 → NoDup (entries_of l kv).*1.
Proof.
revert kv. induction l as [|story l IH]; intros kv Hnd; [done|].
simpl. apply IH. by apply NoDup_obj_set.
Qed.

Lemma dumped_stories_record_all l :
forallb story_wf l = true → dumped_stories (record_all l []) = entries_of l [].
Proof.
intros Hwf. pose proof (record_all_str_keyed l [] Hwf) as Hrec.
change (str_keyed []) with (@nil (json * json)) in Hrec. rewrite Hrec.
apply dumped_stories_str_keyed, NoDup_entries_of. constructor.
Qed.

Lemma assoc_entries_of a l kv :
assoc a (entries_of l kv) =
match find_story a l with
| Some story => Some (entry_of story)
| None => assoc a kv
end.
Proof.
revert kv. induction l as [|story l IH]; intros kv; [done|].
simpl. rewrite IH. destruct (find_story a l); [done|].
rewrite assoc_obj_set.
destruct (String.eqb_spec (field_str "anchor" story) a) as [->|Hne].
- by rewrite String.eqb_refl.
- destruct (String.eqb_spec a (field_str "anchor" story)); [congruence|done].
Qed.

Lemma forallb_obj_set (P : string * json → bool) k v kv :
(∀ k', P (k', v) = true) → forallb P kv = true → forallb P (obj_set k v kv) = true.
Proof.
intros Hv. induction kv as [|[k' v'] kv IH]; simpl.
- intros _. by rewrite Hv.
- intros [H1 H2]%andb_true_iff. destruct (String.eqb k' k); simpl.
  + by rewrite Hv, H2.
  + by rewrite H1, IH.
Qed.

Lemma entries_of_wf l kv :
forallb (fun p => entry_wf (snd p)) kv = true →
forallb (fun p => entry_wf (snd p)) (entries_of l kv) = true.
Proof.
revert kv. induction l as [|story l IH]; intros kv Hkv; [done|].
simpl. apply IH. by apply forallb_obj_set.
Qed.

Lemma meta_stories_new_meta data now :
meta_stories (dumped_meta (new_meta data now))
= dumped_stories (record_all (stories_of data) []).
Proof. done. Qed.

Lemma new_meta_wf data now :
document_wf data = true → meta_wf (dumped_meta (new_meta data now)) = true.
Proof.
intros Hwf. destruct (document_wf_inv _ Hwf) as (_ & _ & _ & _ & _ & _ & Hst & _).
change (forallb (fun p => entry_wf (snd p)) (dumped_stories (record_all (stories_of data) []))
        = true).
rewrite dumped_stories_record_all by done. by apply entries_of_wf.
Qed.

(** X2.  The Meta file that a changed cycle leaves, for a document whose
  anchors are file names, is a Local Metadata Record that names the
  checksum of the document and tracks, for every anchor of the document,
  the entry of its (last) story, hash included, and nothing else. *)
Theorem saved_meta_tracks_document s r now data :
well_formed_cycle s r data → writable data = true → changed s data →
∃ s', cycle (Response r) now s = Ok false s' ∧
      meta_wf (local_meta (dsk s')) = true ∧
      old_checksum (local_meta (dsk s')) = Some (sha256_dumps data) ∧
      (∀ a, assoc a (meta_stories (local_meta (dsk s')))
            = entry_of <$> find_story a (stories_of data)).
Proof.
intros Hwf Hnames Hchanged.
destruct (cycle_changed_runs r now s data Hwf Hnames Hchanged) as [lg Hrun].
destruct Hwf as (_ & _ & Hdoc & _).
destruct (document_wf_inv _ Hdoc) as (_ & _ & _ & _ & _ & _ & Hst & _).
eexists. split; [exact Hrun|]. cbn [dsk].
change (local_meta (synced_disk data now (starting s) (dsk s)))
  with (dumped_meta (new_meta data now)).
split; [by apply new_meta_wf|]. split; [done|].
intros a. rewrite meta_stories_new_meta, dumped_stories_record_all by done.
rewrite assoc_entries_of. by destruct (find_story a _).
Qed.

(** ** Cycles in a row *)

Lemma sync_refused net now s :
refused net → ∃ lg, sync net now s = Ok false (State (eng s) (dsk s) lg).
Proof.
destruct net as [r|c|]; cbn [refused]; [|intros _; eexists; reflexivity..].
intros [Hc|Hb].
- apply Z.eqb_neq in Hc. eexists. unfold sync, validate_api_response.
  do 2 step. rewrite Hc. reflexivity.
- unfold sync. destruct (code r =? 200) eqn:Hc; eexists; do 2 step;
    unfold validate_api_response; rewrite Hc, ?Hb; reflexivity.
Qed.

Lemma cycle_refused net now s :
refused net → meta_file (dsk s) ≠ Some Malformed →
∃ lg, cycle net now s = Ok false (State (starting s) (dsk s) lg).
Proof.
intros Hnet Hfile.
destruct (read_meta_runs s Hfile) as [lg1 Hread].
destruct (sync_refused net now (State (starting s) (dsk s) lg1) Hnet) as [lg Hsync].
exists lg. unfold cycle. do 2 step. exact Hsync.
Qed.

Lemma cycle_keeps_steady net now s :
steady s → benign net → ∃ s', cycle net now s = Ok false s' ∧ steady s'.
Proof.
intros (Hfile & Hmeta & Hdict & Hready)
  [Hnet|(r & data & -> & Hcode & Hbody & Hdoc & Hnames)].
- destruct (cycle_refused net now s Hnet Hfile) as [lg Hrun].
  eexists. split; [exact Hrun|]. by repeat split.
- destruct (document_wf_inv _ Hdoc) as (_ & _ & _ & _ & _ & _ & Hst & _).
  destruct (decide (old_checksum (local_meta (dsk s)) = Some (sha256_dumps data)))
    as [Hsame|Hchanged].
  + destruct (cycle_unchanged_runs r now s data Hcode Hbody Hdoc Hsame) as [lg Hrun].
    eexists. split; [exact Hrun|]. repeat split; try done.
    by apply index_stories_wf.
  + destruct (cycle_changed_runs r now s data) as [lg Hrun];
      [by repeat split | done | done |].
    eexists. split; [exact Hrun|]. unfold steady. cbn [dsk eng].
    change (local_meta (synced_disk data now (starting s) (dsk s)))
      with (dumped_meta (new_meta data now)).
    repeat split; try done.
    * by apply new_meta_wf.
    * unfold synced_engine. cbn [set_meta_object story_dictonary].
      rewrite reconciling_story_dictonary. by apply index_stories_wf.
Qed.

(** X3.  In infinity mode no benign answer of the network ends the loop:
  from a machine whose Meta file is absent or well-formed, a run over any
  sequence of refused answers and Remote Documents whose anchors are file
  names completes all its cycles, and the machine is fit for the next
  one. *)
Theorem loop_survives_benign_answers inputs s :
steady s → Forall (fun input => benign (fst input)) inputs →
∃ s', run inputs s = Ok tt s' ∧ steady s'.
Proof.
intros Hs Hin. revert s Hs.
induction Hin as [|[net now] inputs Hnet _ IH]; intros s Hs.
- by exists s.
- destruct (cycle_keeps_steady net now s Hs Hnet) as (s1 & Hrun & Hs1).
  destruct (IH s1 Hs1) as (s' & Hrest & Hs').
  exists s'. split; [|done]. cbn [run]. step. exact Hrest.
Qed.

(** X1.  Synchronisation is idempotent: after a changed cycle for a
  document whose anchors are file names, a cycle that fetches the same
  document finds the checksum it saved and performs no operation on the
  disk. *)
Theorem second_cycle_is_idle s r now now' data :
well_formed_cycle s r data → writable data = true → changed s data →
∃ s1 s2, cycle (Response r) now s = Ok false s1 ∧
         cycle (Response r) now' s1 = Ok false s2 ∧
         dsk s2 = dsk s1.
Proof.
intros Hwf Hnames Hchanged.
destruct (cycle_changed_runs r now s data Hwf Hnames Hchanged) as [lg1 Hrun1].
destruct Hwf as (Hcode & Hbody & Hdoc & _).
match type of Hrun1 with _ = Ok _ ?s1 =>
  destruct (cycle_unchanged_runs r now' s1 data Hcode Hbody Hdoc) as [lg2 Hrun2]; [done|]
end.
eexists _, _. split; [exact Hrun1|]. split; [exact Hrun2|]. done.
Qed.


(** ** What a changed cycle preserves *)

Lemma apply_verdict_meta_file v f k : meta_file (apply_verdict v f k) = meta_file k.
Proof.
destruct v as [|d|]; simpl; [done| |done].
by destruct (www k !! f), (bin k !! d).
Qed.

Lemma clean_disk_meta_file e l k : meta_file (clean_disk e l k) = meta_file k.
Proof.
revert k. induction l as [|f l IH]; intros k; [done|].
rewrite clean_disk_cons, IH. apply apply_verdict_meta_file.
Qed.

Lemma write_stories_meta_file l k : meta_file (write_stories l k) = meta_file k.
Proof. revert k. induction l as [|story l IH]; intros k; [done|]. simpl. by rewrite IH. Qed.

Lemma snapshot_disk_meta_file mfc k : meta_file (snapshot_disk mfc k) = meta_file k.
Proof.
unfold snapshot_disk, ensure_dir. destruct (old_checksum mfc); [|done].
by destruct (bin k !! _).
Qed.


Lemma verdict_of_ToBin e f d : verdict_of e f = ToBin d → bin_path e = Some d.
Proof.
unfold verdict_of. destruct (assoc f _); [|done].
destruct (bin_path e) as [d'|]; [|done].
destruct (story_dictonary e !! f); [destruct (py_eqb _ _)|]; congruence.
Qed.

Lemma apply_verdict_bin_other v f k d :
v ≠ ToBin d → bin (apply_verdict v f k) !! d = bin k !! d.
Proof.
intros Hv. destruct v as [|d'|]; simpl; [done| |done].
destruct (www k !! f), (bin k !! d'); simpl; [|done..].
rewrite lookup_insert_ne; [done|]. congruence.
Qed.

Lemma clean_disk_bin_other e l k d :
bin_path e ≠ Some d → bin (clean_disk e l k) !! d = bin k !! d.
Proof.
intros Hd. revert k. induction l as [|f l IH]; intros k; [done|].
rewrite clean_disk_cons, IH. apply apply_verdict_bin_other.
intros Hv. by apply verdict_of_ToBin in Hv.
Qed.

Lemma archived_apply_verdict_some v g k d f :
is_Some (archived k d f) → is_Some (archived (apply_verdict v g k) d f).
Proof.
unfold archived. intros Hf. destruct v as [|d'|]; simpl; [done| |done].
destruct (www k !! g), (bin k !! d') as [dir|] eqn:Hd'; simpl; [|done..].
destruct (decide (d' = d)) as [->|Hd].
- rewrite lookup_insert_eq. rewrite Hd' in Hf. simpl in *.
  apply lookup_insert_is_Some'. by right.
- by rewrite lookup_insert_ne.
Qed.

Lemma archived_clean_disk_some e l k d f :
is_Some (archived k d f) → is_Some (archived (clean_disk e l k) d f).
Proof.
revert k. induction l as [|g l IH]; intros k Hf; [done|].
rewrite clean_disk_cons. by apply IH, archived_apply_verdict_some.
Qed.

Lemma archived_archive_meta_some e k d f :
is_Some (archived k d f) → is_Some (archived (archive_meta e k) d f).
Proof.
unfold archived, archive_meta. intros Hf.
destruct (bin_path e) as [d'|]; [|done]. destruct (meta_file k); [|done].
destruct (bin k !! d') as [dir|] eqn:Hd'; [|done]. cbn [bin].
destruct (decide (d' = d)) as [->|Hd].
- rewrite lookup_insert_eq. rewrite Hd' in Hf. simpl in *.
  apply lookup_insert_is_Some'. by right.
- by rewrite lookup_insert_ne.
Qed.

(** X5.  A changed cycle with a previous checksum, for a document whose
  anchors have no separator, only adds to the snapshots, whether it
  completes or stops at an anchor that is not a file name: every snapshot
  directory other than the one named by that checksum is left as it was,
  and no file of any snapshot directory disappears. *)
Theorem snapshots_only_gain s r now data c :
well_formed_cycle s r data → flat data = true →
old_checksum (local_meta (dsk s)) = Some c → c ≠ sha256_dumps data →
(∀ d, d ≠ c → bin (dsk (final (cycle (Response r) now s))) !! d = bin (dsk s) !! d) ∧
(∀ d f, is_Some (archived (dsk s) d f) →
        is_Some (archived (dsk (final (cycle (Response r) now s))) d f)).
Proof.
intros Hwf _ Hold Hne.
destruct (cycle_changed_final r now s data Hwf) as [-> _].
{ unfold changed. rewrite Hold. congruence. }
assert (bin_path (reconciling data now (starting s)) = Some c) as Hpath
  by by apply reconciling_bin_path.
assert (∀ d, d ≠ c → bin (reconciled data now (starting s) (dsk s)) !! d = bin (dsk s) !! d)
  as Hother.
{ intros d Hd. unfold reconciled.
  rewrite clean_disk_bin_other by (rewrite Hpath; congruence).
  unfold snapshot_disk. change (meta_file_content (starting s)) with (local_meta (dsk s)).
  rewrite Hold. unfold ensure_dir. destruct (bin (dsk s) !! c); [done|].
  cbn [mkdir bin]. by rewrite lookup_insert_ne. }
assert (∀ d f, is_Some (archived (dsk s) d f) →
               is_Some (archived (reconciled data now (starting s) (dsk s)) d f)) as Hkept.
{ intros d f Hf. unfold reconciled. apply archived_clean_disk_some.
  by rewrite snapshot_disk_archived. }
unfold final_disk. destruct (writable data).
- split.
  + intros d Hd. unfold synced_disk. cbn [write_meta bin].
    assert (bin (archive_meta (reconciling data now (starting s))
                   (rendered data now (starting s) (dsk s))) !! d
            = bin (rendered data now (starting s) (dsk s)) !! d) as ->.
    { unfold archive_meta. rewrite Hpath. destruct (meta_file _); [|done].
      destruct (bin _ !! c); [|done]. cbn [bin]. by rewrite lookup_insert_ne. }
    rewrite rendered_bin. by apply Hother.
  + intros d f Hf. unfold synced_disk.
    change (archived (write_meta ?v ?k) d f) with (archived k d f).
    apply archived_archive_meta_some.
    unfold archived. rewrite rendered_bin. by apply Hkept.
- unfold stopped_disk. split.
  + intros d Hd. rewrite write_stories_bin. by apply Hother.
  + intros d f Hf. unfold archived. rewrite write_stories_bin. by apply Hkept.
Qed.


Lemma clean_disk_all_deleted_at e l k g :
verdict_of e g = Delete → NoDup l → (is_Some (www k !! g) → g ∈ l) →
www (clean_disk e l k) !! g = None.
Proof.
intros Hv Hnd Hl. destruct (decide (g ∈ l)) as [Hin|Hout].
- by apply clean_disk_deleted.
- rewrite clean_disk_www_other by done.
  destruct (www k !! g) eqn:Hg; [|done]. destruct Hout. apply Hl. eauto.
Qed.



(** X8.  Reconciliation loses no tracked file: a file of the content
  directory that the local Meta tracks is, after [clean_local_storage],
  either still in place with its text or in the snapshot directory with its
  text. *)
Theorem tracked_file_conserved s f text entry :
meta_wf (meta_file_content (eng s)) = true →
dict_wf (story_dictonary (eng s)) →
bin_ready (eng s) (dsk s) →
www (dsk s) !! f = Some text →
assoc f (meta_stories (meta_file_content (eng s))) = Some entry →
∃ s', clean_local_storage s = Ok tt s' ∧
      (www (dsk s') !! f = Some text ∨
       ∃ d, bin_path (eng s) = Some d ∧ www (dsk s') !! f = None ∧
            archived (dsk s') d f = Some (Text text)).
Proof.
intros Hmeta Hdict Hready Hfile Hentry.
destruct (clean_local_storage_runs s Hmeta Hdict Hready) as [lg Hrun].
assert (f ∈ listdir (www (dsk s))) as Hin by (apply elem_of_listdir; eauto).
eexists. split; [exact Hrun|]. cbn [dsk].
destruct (verdict_of (eng s) f) as [|d|] eqn:Hv.
- left. by rewrite clean_disk_kept.
- right. exists d. pose proof (verdict_of_ToBin _ _ _ Hv) as Hd.
  split; [done|]. split.
  + apply (clean_disk_archived _ _ _ _ d); auto using NoDup_listdir.
  + apply clean_disk_moved; auto using NoDup_listdir.
- unfold verdict_of in Hv. rewrite Hentry in Hv.
  destruct (bin_path (eng s)); [|done].
  destruct (story_dictonary (eng s) !! f); [destruct (py_eqb _ _)|]; done.
Qed.

(** ** Rejected responses *)

Lemma validate_stories_rejects_at good bad rest missing s :
forallb story_wf good = true →
first_missing story_required_fields bad = ok (Some missing) →
validate_stories (good ++ bad :: rest) s
= Ok false (State (set_story_dictonary (index_stories good (story_dictonary (eng s))) (eng s))
                  (dsk s) (log s ++ [(ERROR, InvalidStory missing)])).
Proof.
intros Hgood Hbad. revert s.
induction good as [|story good IH]; intros s.
- cbn [app]. rewrite validate_stories_cons, Hbad. do 2 step. by destruct s as [[] ? ?].
- simpl in Hgood. apply andb_true_iff in Hgood as [Hstory Hgood].
  destruct (story_wf_inv _ Hstory) as (kv & a & text & stamp & h & url & -> & Hf & Ha & _).
  cbn [app]. rewrite validate_stories_cons, (first_missing_has_fields _ _ Hf). step.
  unfold py_getitem. rewrite Ha. step. cbn [hashable]. cbv iota. step.
  rewrite (IH Hgood). cbn [eng dsk log set_story_dictonary story_dictonary index_stories foldl].
  unfold field_str, field. by rewrite Ha.
Qed.

(** X9.  Validation gives up at the first story that lacks a required
  field, and by then the stories before it are in the story dictionary: the
  cycle reports failure, performs no operation on the disk and does not
  build new Meta data, but the dictionary that the next reconciliation
  reads has changed. *)
Theorem rejected_story_leaves_earlier_ones_indexed r now s kv good bad rest missing :
code r = 200 → body r = Json (JObj kv) →
has_fields theme_required_fields kv = true →
assoc "stories" kv = Some (JArr (good ++ bad :: rest)) →
forallb story_wf good = true →
first_missing story_required_fields bad = ok (Some missing) →
∃ s', sync (Response r) now s = Ok false s' ∧
      dsk s' = dsk s ∧
      story_dictonary (eng s') = index_stories good (story_dictonary (eng s)) ∧
      meta_object (eng s') = meta_object (eng s) ∧
      log s' = (log s ++ [(DEBUG, ContentSync); (ERROR, InvalidStory missing);
                          (WARNING, UpdateUnsuccessful)])%list.
Proof.
intros Hcode Hbody Hf Hs Hgood Hbad.
set (s0 := State (eng s) (dsk s) (log s ++ [(DEBUG, ContentSync)])).
assert (validate_api_response (Some r) now s0
        = Ok false (State (set_story_dictonary
                             (index_stories good (story_dictonary (eng s)))
                             (set_remote_data (JObj kv) (eng s)))
                          (dsk s) (log s0 ++ [(ERROR, InvalidStory missing)]))) as Hv.
{ unfold validate_api_response. rewrite Hcode, Hbody.
  change (200 =? 200) with true. cbv beta iota.
  assert (truthy (JObj kv) = true) as -> by (destruct kv; [by simpl in Hs|done]).
  step. rewrite bind_assoc, (first_missing_has_fields _ _ Hf). step. rewrite bind_assoc.
  unfold py_getitem. rewrite Hs. cbn [rbind ok py_len py_iter]. step.
  assert ((0 <? length (good ++ bad :: rest))%nat = true) as ->
    by (rewrite length_app; simpl; apply Nat.ltb_lt; lia).
  rewrite bind_assoc. step.
  erewrite bind_step; [|by apply validate_stories_rejects_at].
  reflexivity. }
eexists. split.
- unfold sync. do 2 step. erewrite bind_step; [|exact Hv]. cbv beta iota.
  step. reflexivity.
- cbn [dsk eng log set_story_dictonary set_remote_data story_dictonary meta_object s0].
  repeat split. by rewrite <- !app_assoc.
Qed.

Ltac inv_logs :=
repeat match goal with
       | H : logger _ _ _ = Ok _ _ |- _ => unfold logger in H; simplify_eq
       | H : ret _ _ = Ok _ _ |- _ => unfold ret in H; simplify_eq
       end.

(** X10.  The log tells what the return value does not: when [sync]
  returns, the last message is [Update Complete], after a 200 response
  that passed validation, or it is [Update Unsuccessful], and then the disk
  is as it was. *)
Theorem log_tells_the_outcome net now s b s' :
sync net now s = Ok b s' →
(∃ r data lg, net = Response r ∧ code r = 200 ∧ body r = Json data ∧
              log s' = (lg ++ [(INFO, UpdateComplete)])%list) ∨
(∃ lg, log s' = (lg ++ [(WARNING, UpdateUnsuccessful)])%list ∧ dsk s' = dsk s).
Proof.
unfold sync. intros H. do 3 inv_bind H.
assert (dsk s2 = dsk s ∧
        (a1 = true → ∃ r data, net = Response r ∧ code r = 200 ∧ body r = Json data))
  as [Hdisk Hvalid].
{ unfold logger in Hm. simplify_eq.
  destruct net as [r|c|]; simpl in Hm0.
  - unfold ret in Hm0. simplify_eq. split.
    + pose proof (validate_same_disk (Some r) now
                    (State (eng s) (dsk s) (log s ++ [(DEBUG, ContentSync)]))) as Hframe.
      hnf in Hframe. by rewrite Hm1 in Hframe.
    + intros ->. pose proof (validate_true_checksum _ _ _ _ Hm1) as (data & m & Hb & _).
      exists r, data. split; [done|]. split; [|done].
      unfold validate_api_response in Hm1. destruct (code r =? 200) eqn:Hc.
      * by apply Z.eqb_eq.
      * inv_bind Hm1. unfold ret in Hm1. discriminate.
  - inv_bind Hm0. inv_logs. split; [done | discriminate].
  - inv_bind Hm0. inv_logs. split; [done | discriminate]. }
destruct a1.
- left. destruct (Hvalid eq_refl) as (r & data & -> & Hc & Hb).
  do 3 inv_bind H. unfold ret in H. simplify_eq.
  match goal with
  | Hlog : logger INFO UpdateComplete _ = Ok _ _ |- _ => unfold logger in Hlog; simplify_eq
  end.
  eexists r, data, _. repeat split; done.
- right. inv_bind H. unfold ret in H. simplify_eq.
  match goal with
  | Hlog : logger WARNING UpdateUnsuccessful _ = Ok _ _ |- _ =>
      unfold logger in Hlog; simplify_eq
  end.
  eexists. split; [reflexivity|]. done.
Qed.

(** ** The story dictionary across cycles *)

#[local] Instance dict_grows_refl : Reflexive dict_grows.
Proof. by intros s a. Qed.
#[local] Instance dict_grows_trans : Transitive dict_grows.
Proof. intros s1 s2 s3 H1 H2 a Ha. by apply H2, H1. Qed.

Lemma same_dict_grows {A} (m : M A) : respects same_dict m → respects dict_grows m.
Proof. intros Hm s a Ha. specialize (Hm s). hnf in Hm. by rewrite Hm. Qed.

Lemma dict_grows_mod_eng f :
(∀ e a, is_Some (story_dictonary e !! a) → is_Some (story_dictonary (f e) !! a)) →
respects dict_grows (mod_eng f).
Proof. intros Hf s a Ha. by apply Hf. Qed.

Ltac grows :=
repeat first
  [ assumption
  | apply same_dict_grows; solve [keeps_dict]
  | apply dict_grows_mod_eng; intros ? ? ?; simpl;
      solve [done | apply lookup_insert_is_Some'; by right]
  | frame_step ].

Lemma dict_grows_validate_stories l : respects dict_grows (validate_stories l).
Proof. induction l as [|story l IH]; simpl; grows. Qed.

Lemma dict_grows_validate response now :
respects dict_grows (validate_api_response response now).
Proof.
pose proof dict_grows_validate_stories.
unfold validate_api_response. grows.
Qed.

Lemma dict_grows_sync net now : respects dict_grows (sync net now).
Proof.
pose proof (same_dict_grows _ same_dict_after_validation) as Hrest.
unfold after_validation in Hrest.
unfold sync.
apply respects_bind; [typeclasses eauto | grows | intros _].
apply respects_bind; [typeclasses eauto | unfold fetch_content; grows | intros response].
apply respects_bind; [typeclasses eauto | | intros valid].
- destruct response; [apply dict_grows_validate | grows].
- destruct valid; [exact Hrest | grows].
Qed.

Lemma dict_grows_cycle net now : respects dict_grows (cycle net now).
Proof.
pose proof (dict_grows_sync net now).
unfold cycle, read_meta. grows.
Qed.

(** X12.  The story dictionary only grows: whatever the network answers
  and however the run ends, an anchor that validation once stored is in the
  dictionary after every later cycle of the process. *)
Theorem story_dictonary_only_grows inputs s a :
is_Some (story_dictonary (eng s) !! a) →
is_Some (story_dictonary (eng (final (run inputs s))) !! a).
Proof.
revert s. induction inputs as [|[net now] inputs IH]; intros s Ha; [done|].
cbn [run]. unfold bind. pose proof (dict_grows_cycle net now s a Ha) as Hstep.
destruct (cycle net now s) as [b s1|e s1]; simpl in *; [by apply IH | done].
Qed.

(** ** The rendered files *)







(** ** An error page that is not a text *)

Lemma document_shape_inv data :
document_shape data = true →
∃ kv,
  data = JObj kv ∧ has_fields theme_required_fields kv = true ∧
  assoc "stories" kv = Some (JArr (stories_of data)) ∧
  forallb story_wf (stories_of data) = true ∧
  assoc "title" kv = Some (field "title" data) ∧
  assoc "entity" kv = Some (field "entity" data) ∧
  assoc "homepage_url" kv = Some (field "homepage_url" data) ∧
  assoc "error_page" kv = Some (field "error_page" data).
Proof.
destruct data as [| | | | |kv]; try done. unfold document_shape. intros H.
apply andb_true_iff in H as [H ?].
destruct (has_fields_assoc _ _ "title" H) as [? Ht]; [set_solver|].
destruct (has_fields_assoc _ _ "entity" H) as [? He]; [set_solver|].
destruct (has_fields_assoc _ _ "homepage_url" H) as [? Hh]; [set_solver|].
destruct (has_fields_assoc _ _ "error_page" H) as [? Hp]; [set_solver|].
destruct (assoc "stories" kv) as [[| | | |l|]|] eqn:Hs; try done.
exists kv. unfold stories_of, field. rewrite Hs, Ht, He, Hh, Hp. done.
Qed.

Lemma validate_shape_runs r now s data :
code r = 200 → body r = Json data → document_shape data = true →
∃ lg, validate_api_response (Some r) now s
      = Ok true (State (after_validate data now (eng s)) (dsk s) lg).
Proof.
intros Hcode Hbody Hwf.
destruct (document_shape_inv _ Hwf) as (kv & -> & Hf & Hs & Hst & Ht & He & Hh & _).
unfold validate_api_response. rewrite Hcode, Hbody.
change (200 =? 200) with true. cbv beta iota.
assert (truthy (JObj kv) = true) as -> by (by destruct kv).
set (s1 := State (set_remote_data (JObj kv) (eng s)) (dsk s) (log s)).
assert (∃ lg, (let* missing := eval (first_missing theme_required_fields (JObj kv)) in
          match missing with
          | Some theme_field => logger ERROR (InvalidResponse theme_field);; ret false
          | None =>
             let* n := eval (let? stories := py_getitem (JObj kv) "stories" in py_len stories) in
             if (0 <? n)%nat then
               let* stories := eval (let? stories := py_getitem (JObj kv) "stories" in
                                     py_iter stories) in
               validate_stories stories
             else logger WARNING NoStories;; ret true
          end) s1
         = Ok true (State (set_story_dictonary
                             (index_stories (stories_of (JObj kv)) (story_dictonary (eng s1)))
                             (eng s1)) (dsk s1) lg)) as [lg Hvalid].
{ destruct (validate_stories_runs (stories_of (JObj kv)) s1 Hst) as [lg Hrun].
  destruct (stories_of (JObj kv)) as [|story l] eqn:Hl.
  - eexists. rewrite (first_missing_has_fields _ _ Hf). step.
    unfold py_getitem. rewrite Hs. simpl rbind. step.
    simpl. destruct s as [[] ? ?]. reflexivity.
  - exists lg. rewrite (first_missing_has_fields _ _ Hf). step.
    unfold py_getitem. rewrite Hs. simpl rbind. step.
    change (0 <? S (length l))%nat with true. cbv beta iota. step. exact Hrun. }
eexists. do 2 step. unfold py_getitem. rewrite Ht, He, Hh. do 5 step.
unfold ret, after_validate. simpl. reflexivity.
Qed.

Lemma sync_stories_shape_runs s data m :
remote_data (eng s) = data → document_shape data = true → writable data = true →
meta_object (eng s) = Some m →
meta_wf (meta_file_content (eng s)) = true →
dict_wf (story_dictonary (eng s)) →
bin_ready (eng s) (dsk s) →
∃ lg, sync_stories s
      = Ok tt (State (set_meta_object
                        (Some (with_stories (record_all (stories_of data) []) m)) (eng s))
                     (write_file "sitemap.xml"
                        (sitemap_content (items_of (stories_of data) EmptyString))
                        (write_stories (stories_of data)
                           (clean_disk (eng s) (listdir (www (dsk s))) (dsk s))))
                     lg).
Proof.
intros Hdata Hwf Hnames Hm Hmeta Hdict Hready.
destruct (document_shape_inv _ Hwf) as (kv & Hkv & _ & Hs & Hst & _).
destruct (clean_local_storage_runs s Hmeta Hdict Hready) as [lg1 Hclean].
match type of Hclean with _ = Ok _ ?s1 =>
  destruct (save_stories_runs (stories_of data) EmptyString
              (State (set_meta_object (Some (with_stories [] m)) (eng s1)) (dsk s1) (log s1))
              (with_stories [] m) [] Hst Hnames eq_refl eq_refl) as [lg2 Hsave]
end.
eexists. unfold sync_stories. step.
unfold reset_stories. rewrite bind_assoc. step. rewrite Hm. step. step.
cbn [remote_data set_meta_object]. rewrite Hdata, Hkv.
unfold py_getitem. rewrite Hs. cbn [rbind ok py_iter]. step.
rewrite <- Hkv. step. unfold build_sitemap. step.
unfold mod_dsk. cbn [eng dsk log]. by destruct m.
Qed.

Lemma save_error_page_not_text s kv v :
remote_data (eng s) = JObj kv → assoc "error_page" kv = Some v → is_str (Some v) = false →
∃ lg, save_error_page s
      = Exn TypeError (State (eng s) (write_file "error.html" EmptyString (dsk s)) lg).
Proof.
intros Hdata Hpage Hv.
assert (truthy (JObj kv) = true) as Ht by (destruct kv; [by simpl in Hpage|done]).
eexists. unfold save_error_page. step. rewrite Hdata, Ht.
cbn [py_in py_getitem]. rewrite Hpage. rewrite bool_decide_eq_true_2 by eauto.
do 2 step. unfold open_write. change (file_name "error.html") with true. cbv iota.
destruct v; try done; reflexivity.
Qed.

Lemma sync_error_page_not_text r now s data :
code r = 200 → body r = Json data → document_shape data = true → writable data = true →
is_str (Some (field "error_page" data)) = false →
meta_wf (meta_file_content (eng s)) = true →
old_checksum (meta_file_content (eng s)) ≠ Some (sha256_dumps data) →
dict_wf (story_dictonary (eng s)) →
(old_checksum (meta_file_content (eng s)) = None → bin_ready (eng s) (dsk s)) →
∃ e lg, sync (Response r) now s
        = Exn TypeError
            (State e
               (write_file "error.html" EmptyString
                  (write_file "sitemap.xml"
                     (sitemap_content (items_of (stories_of data) EmptyString))
                     (write_stories (stories_of data) (reconciled data now (eng s) (dsk s)))))
               lg).
Proof.
intros Hcode Hbody Hwf Hnames Hpage Hmeta Hne Hdict Hready.
destruct (validate_shape_runs r now (State (eng s) (dsk s) (log s ++ [(DEBUG, ContentSync)]))
            data Hcode Hbody Hwf) as [lg1 Hvalid].
cbn [eng dsk] in Hvalid.
set (m0 := Meta (sha256_dumps data) (field "title" data) (field "entity" data)
                (field "homepage_url" data) now None).
assert (update_detected (State (after_validate data now (eng s)) (dsk s) lg1)
        = Ok true (State (after_validate data now (eng s)) (dsk s) lg1)) as Hchanged.
{ by apply (update_detected_changed _ m0). }
destruct (create_snapshot_runs
            (State (after_validate data now (eng s)) (dsk s)
                   (lg1 ++ [(DEBUG, UpdateDetected (sha256_dumps data))])) Hmeta)
  as [lg2 Hsnap].
cbn [eng dsk after_validate meta_file_content] in Hsnap.
fold (after_validate data now (eng s)) in Hsnap.
fold (reconciling data now (eng s)) in Hsnap.
destruct (document_shape_inv _ Hwf) as (kv & Hkv & _ & _ & Hst & _ & _ & _ & Hp).
destruct (sync_stories_shape_runs
            (State (reconciling data now (eng s))
                   (snapshot_disk (meta_file_content (eng s)) (dsk s)) lg2) data m0)
  as [lg3 Hstories]; try done.
{ unfold reconciling, with_snapshot. cbn. by destruct (old_checksum _). }
{ unfold reconciling, with_snapshot. cbn. by destruct (old_checksum _). }
{ unfold reconciling, with_snapshot. cbn. by destruct (old_checksum _). }
{ unfold reconciling, with_snapshot. cbn [eng after_validate meta_file_content].
  assert (dict_wf (index_stories (stories_of data) (story_dictonary (eng s)))) as Hd'
    by by apply index_stories_wf.
  by destruct (old_checksum _). }
{ by apply bin_ready_snapshot. }
cbn [eng dsk] in Hstories.
fold (reconciled data now (eng s) (dsk s)) in Hstories.
match type of Hstories with _ = Ok _ ?s3 =>
  destruct (save_error_page_not_text s3 kv (field "error_page" data)) as [lg4 Hpage'];
    [|done|done|]
end.
{ unfold reconciling, with_snapshot. cbn. rewrite <- Hkv. by destruct (old_checksum _). }
cbn [eng dsk] in Hpage'.
assert (new_checksum (State (after_validate data now (eng s)) (dsk s) lg1)
        = Ok (sha256_dumps data) (State (after_validate data now (eng s)) (dsk s) lg1))
  as Hnew by reflexivity.
eexists _, _. unfold sync. do 4 step.
repeat (rewrite ?bind_assoc; step).
rewrite ?bind_assoc. erewrite bind_exn; [reflexivity | exact Hpage'].
Qed.

(** X14.  Validation checks that the document has an [error_page], not
  that it is a text.  When it is not (a [null], say) and the anchors of
  the document are file names, the changed cycle reconciles, writes every
  story and the sitemap, empties [error.html] and ends with a [TypeError]
  before the Meta is saved: the Meta file is what it was. *)
Theorem error_page_not_text_aborts s r now data :
code r = 200 → body r = Json data → document_shape data = true → writable data = true →
is_str (Some (field "error_page" data)) = false →
steady s → changed s data →
∃ s', cycle (Response r) now s = Exn TypeError s' ∧
      meta_file (dsk s') = meta_file (dsk s) ∧
      www (dsk s') !! "error.html" = Some EmptyString ∧
      (∀ a story, find_story a (stories_of data) = Some story →
         a ≠ "sitemap.xml" → a ≠ "error.html" →
         www (dsk s') !! a = Some (field_str "content" story)).
Proof.
intros Hcode Hbody Hwf Hnames Hpage (Hfile & Hmeta & Hdict & Hready) Hchanged.
destruct (read_meta_runs s Hfile) as [lg1 Hread].
destruct (sync_error_page_not_text r now (State (starting s) (dsk s) lg1) data)
  as (e & lg & Hsync); try done.
eexists. split; [unfold cycle; do 2 step; exact Hsync|]. cbn [dsk eng].
split; [|split].
- cbn [write_file meta_file]. unfold reconciled.
  by rewrite write_stories_meta_file, clean_disk_meta_file, snapshot_disk_meta_file.
- cbn [write_file www]. by rewrite lookup_insert_eq.
- intros a story Hstory Hs He. cbn [write_file www].
  rewrite !lookup_insert_ne by done. by rewrite write_stories_www, Hstory.
Qed.

(** ** The order of the file operations *)



(** ** The content directory after a changed cycle *)

Lemma reconciled_www data now e k g :
bin_ready (reconciling data now e) (snapshot_disk (meta_file_content e) k) →
www (reconciled data now e k) !! g =
match verdict_of (reconciling data now e) g with
| Keep => www k !! g
| _ => None
end.
Proof.
intros Hready.
destruct (verdict_of (reconciling data now e) g) as [|d|] eqn:Hv.
- by apply reconciled_kept.
- destruct (www k !! g) as [text|] eqn:Hg.
  + by destruct (reconciled_moved data now e k g d text Hv Hg Hready).
  + unfold reconciled. rewrite clean_disk_www_other; [by rewrite snapshot_disk_www|].
    rewrite elem_of_listdir, snapshot_disk_www, Hg. by intros [? ?].
- unfold reconciled.
  apply clean_disk_all_deleted_at; [done | apply NoDup_listdir | apply elem_of_listdir].
Qed.


(** X17.  A document without stories cleans the instance: on a process
  that has validated no story yet, a changed cycle with a previous
  checksum leaves nothing in the content directory but the error page and
  a sitemap without items, and every file the local Meta tracked is in the
  snapshot directory named by that checksum. *)
Theorem empty_document_cleans_instance s r now data c :
well_formed_cycle s r data →
old_checksum (local_meta (dsk s)) = Some c → c ≠ sha256_dumps data →
stories_of data = [] → story_dictonary (eng s) = ∅ →
∃ s', cycle (Response r) now s = Ok false s' ∧
      (∀ g, www (dsk s') !! g =
            if String.eqb g "error.html" then Some (field_str "error_page" data)
            else if String.eqb g "sitemap.xml" then Some (sitemap_content EmptyString)
                 else None) ∧
      (∀ g text entry, www (dsk s) !! g = Some text →
                       assoc g (meta_stories (local_meta (dsk s))) = Some entry →
                       g ≠ "meta.json" →
                       archived (dsk s') c g = Some (Text text)).
Proof.
intros Hwf Hold Hne Hnone Hdict.
destruct (cycle_changed_runs r now s data Hwf) as [lg Hrun].
{ unfold writable. by rewrite Hnone. }
{ unfold changed. rewrite Hold. congruence. }
assert (bin_ready (reconciling data now (starting s))
          (snapshot_disk (meta_file_content (starting s)) (dsk s))) as Hready.
{ apply bin_ready_snapshot. unfold starting. cbn. congruence. }
assert (∀ g entry, assoc g (meta_stories (local_meta (dsk s))) = Some entry →
                   verdict_of (reconciling data now (starting s)) g = ToBin c) as Hmove.
{ intros g entry Hentry. rewrite (verdict_of_reconciling _ _ _ c) by done.
  change (meta_file_content (starting s)) with (local_meta (dsk s)).
  change (story_dictonary (starting s)) with (story_dictonary (eng s)).
  by rewrite Hentry, Hnone, Hdict, lookup_empty. }
eexists. split; [exact Hrun|]. cbn [dsk]. split.
- intros g. unfold synced_disk. cbn [write_meta www].
  assert (∀ k', www (archive_meta (reconciling data now (starting s)) k') = www k') as ->.
  { intros k'. unfold archive_meta. by repeat case_match. }
  unfold rendered. cbn [write_file www]. rewrite Hnone.
  destruct (String.eqb_spec g "error.html") as [->|He]; [by rewrite lookup_insert_eq|].
  rewrite lookup_insert_ne by done.
  destruct (String.eqb_spec g "sitemap.xml") as [->|Hs]; [by rewrite lookup_insert_eq|].
  rewrite lookup_insert_ne by done.
  change (write_stories [] ?k) with k. rewrite reconciled_www by done.
  destruct (assoc g (meta_stories (local_meta (dsk s)))) as [entry|] eqn:Hentry.
  + by rewrite (Hmove g entry).
  + rewrite (verdict_of_reconciling _ _ _ c) by done.
    change (meta_file_content (starting s)) with (local_meta (dsk s)). by rewrite Hentry.
- intros g text entry Hfile Hentry Hm. rewrite synced_disk_archived by done.
  by destruct (reconciled_moved data now (starting s) (dsk s) g c text (Hmove g entry Hentry)
                 Hfile Hready).
Qed.

(** ** Stories that did not change *)


(** ** What reconciliation never does *)

Lemma apply_verdict_www_sub v f k g text :
www (apply_verdict v f k) !! g = Some text → www k !! g = Some text.
Proof.
destruct v as [|d|]; simpl; [done| |].
- destruct (www k !! f), (bin k !! d); simpl; try done.
  by intros [_ ?]%lookup_delete_Some.
- by intros [_ ?]%lookup_delete_Some.
Qed.

Lemma clean_disk_www_sub e l k g text :
www (clean_disk e l k) !! g = Some text → www k !! g = Some text.
Proof.
revert k. induction l as [|f l IH]; intros k; [done|].
rewrite clean_disk_cons. intros Hg. by eapply apply_verdict_www_sub, IH.
Qed.

(** X19.  Reconciliation only takes files away: after
  [clean_local_storage] every file of the content directory was there
  before with the same text and is a story of the local Meta; the engine
  and the Meta file are untouched. *)
Theorem reconciliation_only_removes s :
meta_wf (meta_file_content (eng s)) = true →
dict_wf (story_dictonary (eng s)) →
bin_ready (eng s) (dsk s) →
∃ s', clean_local_storage s = Ok tt s' ∧
      eng s' = eng s ∧ meta_file (dsk s') = meta_file (dsk s) ∧
      ∀ g text, www (dsk s') !! g = Some text →
                www (dsk s) !! g = Some text ∧
                is_Some (assoc g (meta_stories (meta_file_content (eng s)))).
Proof.
intros Hmeta Hdict Hready.
destruct (clean_local_storage_runs s Hmeta Hdict Hready) as [lg Hrun].
eexists. split; [exact Hrun|]. cbn [eng dsk].
split; [done|]. split; [apply clean_disk_meta_file|].
intros g text Hg. pose proof (clean_disk_www_sub _ _ _ _ _ Hg) as Hbefore.
split; [done|].
destruct (assoc g (meta_stories (meta_file_content (eng s)))) eqn:Hentry; [eauto|].
rewrite clean_disk_all_deleted_at in Hg; [done | | apply NoDup_listdir | apply elem_of_listdir].
unfold verdict_of. by rewrite Hentry.
Qed.

End NRTKSync.

(** * The theorems on sample data *)

Lemma restarted_well_formed checksum anchor hash data :
  document_wf data = true →
  well_formed_cycle (restarted checksum anchor hash) (Resp 200 (Json data)) data.
Proof.
  intros Hwf. split; [reflexivity|]. split; [reflexivity|]. split; [exact Hwf|].
  split; [discriminate|]. split; [|split].
  - reflexivity.
  - apply map_Forall_empty.
  - intros _ d Hd. discriminate Hd.
Qed.

Lemma unchanged_checksum_frame_witness :
  dsk (final (cycle toy_checksum toy_repr (reply doc_with_about) "t1"
                (restarted "about=h1" "about" "h1")))
  = dsk (restarted "about=h1" "about" "h1").
Proof.
  apply (unchanged_checksum_frame toy_checksum toy_repr
           (restarted "about=h1" "about" "h1") (Resp 200 (Json doc_with_about)) "t1"
           (synced_fields "about=h1" "about" "h1") doc_with_about); reflexivity.
Defined.

Lemma changed_story_archived_and_rewritten_witness :
  ∃ s', cycle toy_checksum toy_repr (reply (doc_changed "index")) "t1" (restarted "c0" "index" "a")
        = Ok false s' ∧
        archived (dsk s') "c0" "index" = Some (Text "old text") ∧
        www (dsk s') !! "index" = Some "new text".
Proof.
  apply (changed_story_archived_and_rewritten toy_checksum toy_repr
           (restarted "c0" "index" "a") (Resp 200 (Json (doc_changed "index"))) "t1"
           (doc_changed "index") "c0" "index"
           (entry_of (demo_story "index" "a" "old text"))
           (demo_story "index" "b" "new text") "old text").
  - by apply restarted_well_formed.
  - reflexivity.
  - reflexivity.
  - vm_compute. discriminate.
  - reflexivity.
  - reflexivity.
  - reflexivity.
  - vm_compute. reflexivity.
  - discriminate.
  - discriminate.
  - discriminate.
Defined.

(** C3 as stated fails in two ways.  It fails for a story whose anchor is
    the name of a file the engine writes itself: in each of the first three
    runs the local Meta tracks the anchor with hash [a], the document
    carries it with hash [b], a previous checksum [c0] exists and the cycle
    completes; for [error.html] and [sitemap.xml] the live file holds the
    rendered page afterwards, not the content of the story; for [meta.json]
    the snapshot directory holds the old Meta file under that name, not the
    old story file.  And it fails when the loop of [sync_stories] does not
    get to write the story: in the last two runs the local Meta tracks
    [index] with hash [a] and the document carries it with hash [b]; with a
    story of empty anchor before it, [open] raises [IsADirectoryError] after
    the old file was moved, and no live file is left; with a [content] that
    is [null], [write] raises [TypeError] and the live file is empty. *)
Lemma changed_story_not_rewritten :
  (assoc "error.html" (meta_stories (local_meta (dsk (restarted "c0" "error.html" "a"))))
     = Some (entry_of (demo_story "error.html" "a" "old text")) ∧
   find_story "error.html" (stories_of (doc_changed "error.html"))
     = Some (demo_story "error.html" "b" "new text") ∧
   py_eqb (JStr "b") (JStr "a") = false ∧
   old_checksum (local_meta (dsk (restarted "c0" "error.html" "a"))) = Some "c0" ∧
   www (dsk (restarted "c0" "error.html" "a")) !! "error.html" = Some "old text") ∧
  (∃ s', cycle toy_checksum toy_repr (reply (doc_changed "error.html")) "t1"
           (restarted "c0" "error.html" "a") = Ok false s' ∧
         www (dsk s') !! "error.html" = Some "<h1>Not found</h1>" ∧
         www (dsk s') !! "error.html" ≠ Some "new text") ∧
  (∃ s', cycle toy_checksum toy_repr (reply (doc_changed "sitemap.xml")) "t1"
           (restarted "c0" "sitemap.xml" "a") = Ok false s' ∧
         www (dsk s') !! "sitemap.xml" ≠ Some "new text") ∧
  (∃ s', cycle toy_checksum toy_repr (reply (doc_changed "meta.json")) "t1"
           (restarted "c0" "meta.json" "a") = Ok false s' ∧
         archived (dsk s') "c0" "meta.json"
           = Some (MetaText (Json (synced_meta "c0" "meta.json" "a"))) ∧
         archived (dsk s') "c0" "meta.json" ≠ Some (Text "old text")) ∧
  (assoc "index" (meta_stories (local_meta (dsk (restarted "c0" "index" "a"))))
     = Some (entry_of (demo_story "index" "a" "old text")) ∧
   old_checksum (local_meta (dsk (restarted "c0" "index" "a"))) = Some "c0" ∧
   www (dsk (restarted "c0" "index" "a")) !! "index" = Some "old text" ∧
   find_story "index" (stories_of doc_unnamed_story)
     = Some (demo_story "index" "b" "new text") ∧
   find_story "index" (stories_of doc_without_text) = Some story_without_text ∧
   field "hash" story_without_text = JStr "b") ∧
  (∃ s', cycle toy_checksum toy_repr (reply doc_unnamed_story) "t1"
           (restarted "c0" "index" "a") = Exn IsADirectoryError s' ∧
         archived (dsk s') "c0" "index" = Some (Text "old text") ∧
         www (dsk s') !! "index" = None) ∧
  (∃ s', cycle toy_checksum toy_repr (reply doc_without_text) "t1"
           (restarted "c0" "index" "a") = Exn TypeError s' ∧
         archived (dsk s') "c0" "index" = Some (Text "old text") ∧
         www (dsk s') !! "index" = Some EmptyString).
Proof.
  split; [repeat split; reflexivity|].
  split; [|split; [|split; [|split; [|split]]]].
  - eexists. split; [vm_compute; reflexivity|].
    split; vm_compute; [reflexivity | discriminate].
  - eexists. split; [vm_compute; reflexivity|]. vm_compute. discriminate.
  - eexists. split; [vm_compute; reflexivity|].
    split; vm_compute; [reflexivity | discriminate].
  - repeat split; reflexivity.
  - eexists. split; [vm_compute; reflexivity|]. split; vm_compute; reflexivity.
  - eexists. split; [vm_compute; reflexivity|]. split; vm_compute; reflexivity.
Qed.

Lemma removed_story_left_in_place_witness :
  ∃ s2, run toy_checksum toy_repr
            [(reply doc_with_about, "t1"); (reply doc_without_about, "t2")] first_start
        = Ok tt s2 ∧
        find_story "about" (stories_of doc_without_about) = None ∧
        www (dsk s2) !! "about" = Some "About us" ∧
        archived (dsk s2) (toy_checksum doc_with_about) "about" = None.
Proof.
  apply (removed_story_left_in_place toy_checksum toy_repr "t1" "t2").
  vm_compute. discriminate.
Defined.

Lemma untracked_file_deleted_witness :
  ∃ s' evs, clean_local_storage with_stray_file = Ok tt s' ∧
            www (dsk s') !! "stray.txt" = None ∧
            (∀ d, archived (dsk s') d "stray.txt" = archived (dsk with_stray_file) d "stray.txt") ∧
            journal (dsk s') = (journal (dsk with_stray_file) ++ evs)%list ∧
            Remove "stray.txt" ∈ evs ∧ (∀ d, Archive "stray.txt" d ∉ evs).
Proof.
  apply (untracked_file_deleted with_stray_file "stray.txt" "junk").
  - reflexivity.
  - apply map_Forall_empty.
  - intros d Hd. discriminate Hd.
  - vm_compute. reflexivity.
  - reflexivity.
Defined.

Lemma every_story_written_witness :
  ∃ s' evs, cycle toy_checksum toy_repr (reply doc_two_stories) "t1" (restarted "c0" "index" "a")
            = Ok false s' ∧
            journal (dsk s') = (journal (dsk (restarted "c0" "index" "a")) ++ evs)%list ∧
            (∀ story, story ∈ stories_of doc_two_stories →
               Write (field_str "anchor" story) (field_str "content" story) ∈ evs) ∧
            (∀ a story, find_story a (stories_of doc_two_stories) = Some story →
               a ≠ "sitemap.xml" → a ≠ "error.html" →
               www (dsk s') !! a = Some (field_str "content" story)).
Proof.
  apply (every_story_written toy_checksum toy_repr (restarted "c0" "index" "a")
           (Resp 200 (Json doc_two_stories)) "t1" doc_two_stories).
  - by apply restarted_well_formed.
  - reflexivity.
  - unfold changed. vm_compute. discriminate.
Defined.

(** C6 as stated fails when the loop of [sync_stories] stops or when a
    rendered file takes the name of a story.  In the first run the document
    has a story with the empty anchor before the story [index]: [open]
    raises [IsADirectoryError], and [index] is never written.  In the second
    run the [content] of the story is [null]: [write] raises [TypeError]
    and the file is empty.  In the third run the story is named
    [error.html]: the cycle completes and the file holds the error page,
    not the content of the story. *)
Lemma story_not_written :
  (demo_story "index" "b" "new text" ∈ stories_of doc_unnamed_story ∧
   ∃ s', cycle toy_checksum toy_repr (reply doc_unnamed_story) "t1"
           (restarted "c0" "index" "a") = Exn IsADirectoryError s' ∧
         (Write "index" "new text" ∉ journal (dsk s')) ∧
         www (dsk s') !! "index" = None) ∧
  (story_without_text ∈ stories_of doc_without_text ∧
   ∃ s', cycle toy_checksum toy_repr (reply doc_without_text) "t1"
           (restarted "c0" "index" "a") = Exn TypeError s' ∧
         www (dsk s') !! "index" = Some EmptyString) ∧
  (demo_story "error.html" "b" "new text" ∈ stories_of (doc_changed "error.html") ∧
   ∃ s', cycle toy_checksum toy_repr (reply (doc_changed "error.html")) "t1" first_start
         = Ok false s' ∧
         www (dsk s') !! "error.html" = Some "<h1>Not found</h1>" ∧
         www (dsk s') !! "error.html" ≠ Some "new text").
Proof.
  split; [|split].
  - split; [right; left|].
    eexists. split; [vm_compute; reflexivity|]. split; [|vm_compute; reflexivity].
    vm_compute. intros Hin.
    repeat (apply elem_of_cons in Hin as [Hin|Hin]; [discriminate Hin|]).
    by apply elem_of_nil in Hin.
  - split; [left|].
    eexists. split; [vm_compute; reflexivity|]. vm_compute. reflexivity.
  - split; [left|].
    eexists. split; [vm_compute; reflexivity|].
    split; vm_compute; [reflexivity | discriminate].
Qed.

Lemma sync_returns_false_witness :
  ∃ s', sync toy_checksum toy_repr (reply doc_with_about) "t1" first_start = Ok false s'.
Proof.
  destruct (sync toy_checksum toy_repr (reply doc_with_about) "t1" first_start)
    as [b s'|e s'] eqn:Hrun.
  - exists s'. by rewrite (sync_returns_false _ _ _ _ _ _ _ Hrun).
  - vm_compute in Hrun. discriminate Hrun.
Defined.


Lemma restarted_steady checksum anchor hash : steady (restarted checksum anchor hash).
Proof.
  split; [discriminate|]. split; [reflexivity|]. split.
  - apply map_Forall_empty.
  - intros _ d Hd. discriminate Hd.
Qed.

Lemma first_start_steady : steady first_start.
Proof.
  split; [discriminate|]. split; [reflexivity|]. split.
  - apply map_Forall_empty.
  - intros _ d Hd. discriminate Hd.
Qed.

Lemma second_cycle_is_idle_witness :
  ∃ s1 s2, cycle toy_checksum toy_repr (reply (doc_changed "index")) "t1"
             (restarted "c0" "index" "a") = Ok false s1 ∧
           cycle toy_checksum toy_repr (reply (doc_changed "index")) "t2" s1 = Ok false s2 ∧
           dsk s2 = dsk s1.
Proof.
  apply (second_cycle_is_idle toy_checksum toy_repr (restarted "c0" "index" "a")
           (Resp 200 (Json (doc_changed "index"))) "t1" "t2" (doc_changed "index")).
  - by apply restarted_well_formed.
  - reflexivity.
  - unfold changed. vm_compute. discriminate.
Defined.

Lemma saved_meta_tracks_document_witness :
  ∃ s', cycle toy_checksum toy_repr (reply doc_two_stories) "t1" (restarted "c0" "index" "a")
        = Ok false s' ∧
        meta_wf (local_meta (dsk s')) = true ∧
        old_checksum (local_meta (dsk s')) = Some (toy_checksum doc_two_stories) ∧
        (∀ a, assoc a (meta_stories (local_meta (dsk s')))
              = entry_of <$> find_story a (stories_of doc_two_stories)).
Proof.
  apply (saved_meta_tracks_document toy_checksum toy_repr (restarted "c0" "index" "a")
           (Resp 200 (Json doc_two_stories)) "t1" doc_two_stories).
  - by apply restarted_well_formed.
  - reflexivity.
  - unfold changed. vm_compute. discriminate.
Defined.

Lemma loop_survives_benign_answers_witness :
  ∃ s', run toy_checksum toy_repr demo_inputs first_start = Ok tt s' ∧ steady s'.
Proof.
  apply (loop_survives_benign_answers toy_checksum toy_repr demo_inputs first_start).
  - exact first_start_steady.
  - apply Forall_cons_2; [left; exact I|].
    apply Forall_cons_2; [right; eexists _, _; repeat split; reflexivity|].
    apply Forall_cons_2; [left; exact I|].
    apply Forall_cons_2; [right; eexists _, _; repeat split; reflexivity|].
    apply Forall_nil_2.
Defined.


Lemma snapshots_only_gain_witness :
  (∀ d, d ≠ "c0" →
        bin (dsk (final (cycle toy_checksum toy_repr (reply doc_unnamed_story) "t1"
                           (restarted "c0" "index" "a")))) !! d
        = bin (dsk (restarted "c0" "index" "a")) !! d) ∧
  (∀ d f, is_Some (archived (dsk (restarted "c0" "index" "a")) d f) →
          is_Some (archived
                     (dsk (final (cycle toy_checksum toy_repr (reply doc_unnamed_story) "t1"
                                    (restarted "c0" "index" "a")))) d f)).
Proof.
  apply (snapshots_only_gain toy_checksum toy_repr (restarted "c0" "index" "a")
           (Resp 200 (Json doc_unnamed_story)) "t1" doc_unnamed_story "c0").
  - by apply restarted_well_formed.
  - reflexivity.
  - reflexivity.
  - vm_compute. discriminate.
Defined.



Lemma tracked_file_conserved_witness :
  ∃ s', clean_local_storage with_stray_file = Ok tt s' ∧
        (www (dsk s') !! "index" = Some "old text" ∨
         ∃ d, bin_path (eng with_stray_file) = Some d ∧ www (dsk s') !! "index" = None ∧
              archived (dsk s') d "index" = Some (Text "old text")).
Proof.
  apply (tracked_file_conserved with_stray_file "index" "old text"
           (entry_of (demo_story "index" "a" "old text"))).
  - reflexivity.
  - apply map_Forall_empty.
  - intros d Hd. discriminate Hd.
  - vm_compute. reflexivity.
  - reflexivity.
Defined.

Lemma rejected_story_leaves_earlier_ones_indexed_witness :
  ∃ s', sync toy_checksum toy_repr (Response (Resp 200 (Json (JObj fields_with_broken_story))))
          "t1" first_start = Ok false s' ∧
        dsk s' = dsk first_start ∧
        story_dictonary (eng s')
        = index_stories [demo_story "index" "a" "old text"] (story_dictonary (eng first_start)) ∧
        meta_object (eng s') = meta_object (eng first_start) ∧
        log s' = (log first_start ++ [(DEBUG, ContentSync); (ERROR, InvalidStory "canonical_url");
                                      (WARNING, UpdateUnsuccessful)])%list.
Proof.
  apply (rejected_story_leaves_earlier_ones_indexed toy_checksum toy_repr
           (Resp 200 (Json (JObj fields_with_broken_story))) "t1" first_start
           fields_with_broken_story [demo_story "index" "a" "old text"] broken_story
           [demo_story "about" "h1" "About us"] "canonical_url"); reflexivity.
Defined.

Lemma log_tells_the_outcome_witness :
  (∃ r data lg, HTTPError 503 = Response r ∧ code r = 200 ∧ body r = Json data ∧
                log (final (sync toy_checksum toy_repr (HTTPError 503) "t1" first_start))
                = (lg ++ [(INFO, UpdateComplete)])%list) ∨
  (∃ lg, log (final (sync toy_checksum toy_repr (HTTPError 503) "t1" first_start))
         = (lg ++ [(WARNING, UpdateUnsuccessful)])%list ∧
         dsk (final (sync toy_checksum toy_repr (HTTPError 503) "t1" first_start))
         = dsk first_start).
Proof.
  apply (log_tells_the_outcome toy_checksum toy_repr (HTTPError 503) "t1" first_start false).
  reflexivity.
Defined.

Lemma story_dictonary_only_grows_witness :
  is_Some (story_dictonary
             (eng (final (run toy_checksum toy_repr
                            [(reply doc_without_about, "t2"); (URLError, "t3")]
                            (after_first_cycle toy_checksum toy_repr)))) !! "about").
Proof.
  apply (story_dictonary_only_grows toy_checksum toy_repr
           [(reply doc_without_about, "t2"); (URLError, "t3")]
           (after_first_cycle toy_checksum toy_repr) "about").
  vm_compute. eexists. reflexivity.
Defined.


Lemma error_page_not_text_aborts_witness :
  ∃ s', cycle toy_checksum toy_repr (reply doc_null_page) "t1" (restarted "c0" "index" "a")
        = Exn TypeError s' ∧
        meta_file (dsk s') = meta_file (dsk (restarted "c0" "index" "a")) ∧
        www (dsk s') !! "error.html" = Some EmptyString ∧
        (∀ a story, find_story a (stories_of doc_null_page) = Some story →
           a ≠ "sitemap.xml" → a ≠ "error.html" →
           www (dsk s') !! a = Some (field_str "content" story)).
Proof.
  apply (error_page_not_text_aborts toy_checksum toy_repr (restarted "c0" "index" "a")
           (Resp 200 (Json doc_null_page)) "t1" doc_null_page).
  - reflexivity.
  - reflexivity.
  - reflexivity.
  - reflexivity.
  - reflexivity.
  - apply restarted_steady.
  - unfold changed. vm_compute. discriminate.
Defined.



Lemma empty_document_cleans_instance_witness :
  ∃ s', cycle toy_checksum toy_repr (reply doc_without_about) "t1"
          (restarted "c0" "index" "a") = Ok false s' ∧
        (∀ g, www (dsk s') !! g =
              if String.eqb g "error.html" then Some (field_str "error_page" doc_without_about)
              else if String.eqb g "sitemap.xml" then Some (sitemap_content EmptyString)
                   else None) ∧
        (∀ g text entry,
           www (dsk (restarted "c0" "index" "a")) !! g = Some text →
           assoc g (meta_stories (local_meta (dsk (restarted "c0" "index" "a")))) = Some entry →
           g ≠ "meta.json" →
           archived (dsk s') "c0" g = Some (Text text)).
Proof.
  apply (empty_document_cleans_instance toy_checksum toy_repr (restarted "c0" "index" "a")
           (Resp 200 (Json doc_without_about)) "t1" doc_without_about "c0").
  - by apply restarted_well_formed.
  - reflexivity.
  - vm_compute. discriminate.
  - reflexivity.
  - reflexivity.
Defined.


Lemma reconciliation_only_removes_witness :
  ∃ s', clean_local_storage with_stray_file = Ok tt s' ∧
        eng s' = eng with_stray_file ∧
        meta_file (dsk s') = meta_file (dsk with_stray_file) ∧
        ∀ g text, www (dsk s') !! g = Some text →
                  www (dsk with_stray_file) !! g = Some text ∧
                  is_Some (assoc g (meta_stories (meta_file_content (eng with_stray_file)))).
Proof.
  apply (reconciliation_only_removes with_stray_file).
  - reflexivity.
  - apply map_Forall_empty.
  - intros d Hd. discriminate Hd.
Defined.
